(** * research-agent: a shallow embedding of the career-guidance pipeline

    The development follows the Python sources module by module:
    [tools/skill_extraction.py], [agents/base.py], [tools/cache_db.py],
    [tools/cache_tools.py], [tools/bls_tools.py],
    [agents/long_term_forecast_agent.py], [tools/careeronestop_tools.py],
    [agents/role_mapper.py], [tools/youtube_tools.py],
    [tools/llm_analysis.py] and [agents/evaluator_recommender.py].

    Conventions of the embedding.
    - Python [str] is [string] (a sequence of bytes, UTF-8 for text outside
      ASCII); [lower], [strip] and [title] act on the ASCII letters and the
      ASCII white space, bytes above 127 are left alone.  They are the
      methods of [str] on ASCII text ([is_ascii]); a property that depends
      on how they act is stated for ASCII text.
    - Python [float] is the kernel's binary64 [float]; literals such as
      [0.85] denote the nearest double, as they do in Python.
    - Python [int] is [Z]; instants are microseconds since the epoch and
      durations are microseconds, both in [Z].  [timedelta(seconds=n)]
      raises [OverflowError] beyond 999999999 days, and so does
      [timedelta] here; an INTEGER column of SQLite holds 64 bits.
    - JSON-like data (dicts with string keys, lists, scalars) is [value];
      a dict keeps its insertion order, so it is an association list.
    - A Python exception is a [Raise] in the [result] monad.
    - What an external service or library answers (the language model, the
      HTTP APIs, [json.loads], [datetime.fromisoformat], the file system)
      is an argument of the function that asks for it. *)

From Stdlib Require Import ZArith List Bool String Ascii Lia Sorted Permutation.
From Stdlib Require Import PrimFloat FloatOps SpecFloat Uint63.
From stdpp Require Import strings gmap list pretty.

Set Warnings "-inexact-float,-register-all".
Open Scope Z_scope.

(* ===================================================================== *)
(** * Part I: the program                                                  *)
(* ===================================================================== *)

(** ** Python runtime: strings, values, exceptions *)

Module Py.

(** [c.lower()] for one ASCII character. *)
Definition lower_ascii (c : ascii) : ascii :=
  let n := N_of_ascii c in
  if ((65 <=? n) && (n <=? 90))%N then ascii_of_N (n + 32) else c.

(** [c.upper()] for one ASCII character. *)
Definition upper_ascii (c : ascii) : ascii :=
  let n := N_of_ascii c in
  if ((97 <=? n) && (n <=? 122))%N then ascii_of_N (n - 32) else c.

(** [c.isalpha()] for one ASCII character (the cased characters). *)
Definition is_cased (c : ascii) : bool :=
  let n := N_of_ascii c in
  (((65 <=? n) && (n <=? 90)) || ((97 <=? n) && (n <=? 122)))%N.

(** [s.lower()] on ASCII text: the letters A-Z are folded, every other
    byte is kept.  On text with letters outside ASCII [str.lower] folds
    those too, which this function does not. *)
Fixpoint lower (s : string) : string :=
  match s with
  | EmptyString => EmptyString
  | String c s' => String (lower_ascii c) (lower s')
  end.

(** [c.isspace()] on ASCII: tab, line feed, vertical tab, form feed,
    carriage return, the four separators 28-31 and the space. *)
Definition is_space (c : ascii) : bool :=
  let n := N_of_ascii c in
  (((9 <=? n) && (n <=? 13)) || ((28 <=? n) && (n <=? 32)))%N.

(** Drop the leading characters that satisfy [p]. *)
Fixpoint lstrip_with (p : ascii -> bool) (s : string) : string :=
  match s with
  | EmptyString => EmptyString
  | String c s' => if p c then lstrip_with p s' else s
  end.

Definition strip_with (p : ascii -> bool) (s : string) : string :=
  String.rev (lstrip_with p (String.rev (lstrip_with p s))).

(** [s.strip()] on ASCII text: the white space stripped is the ASCII
    white space above; [str.strip] also strips the Unicode spaces. *)
Definition strip (s : string) : string := strip_with is_space s.

(** The text is ASCII: every byte is below 128.  On such text [lower],
    [strip] and [title] are [str.lower], [str.strip] and [str.title]. *)
Definition is_ascii (s : string) : bool :=
  forallb (fun c => (N_of_ascii c <? 128)%N) (list_ascii_of_string s).

(** [s.strip(chars)]: [chars] is a set of characters. *)
Definition strip_chars (chars s : string) : string :=
  strip_with (fun c => existsb (Ascii.eqb c) (list_ascii_of_string chars)) s.

(** [s.startswith(p)]. *)
Definition startswith (s p : string) : bool := String.prefix p s.

(** [needle in hay] for two strings. *)
Fixpoint contains (needle hay : string) : bool :=
  String.prefix needle hay ||
  match hay with
  | EmptyString => false
  | String _ hay' => contains needle hay'
  end.

(** [s.title()] on ASCII text: a cased character is upper-cased when the
    one before it is not cased, and lower-cased otherwise.  The cased
    characters are the ASCII letters; [str.title] also counts the letters
    outside ASCII as cased. *)
Fixpoint title_from (prev_cased : bool) (s : string) : string :=
  match s with
  | EmptyString => EmptyString
  | String c s' =>
      String (if prev_cased then lower_ascii c else upper_ascii c)
             (title_from (is_cased c) s')
  end.

Definition title (s : string) : string := title_from false s.

(** [s.split(sep)[1]] when [sep] occurs in [s]: the text between the first
    and the second occurrence of [sep] (or the end of [s]).  [drop_to] gives
    what follows the first occurrence, [take_to] what precedes it. *)
Fixpoint drop_n (n : nat) (s : string) : string :=
  match n, s with
  | O, _ => s
  | S n', String _ s' => drop_n n' s'
  | S _, EmptyString => EmptyString
  end.

Fixpoint drop_to (sep s : string) : option string :=
  if String.prefix sep s then Some (drop_n (String.length sep) s)
  else match s with
       | EmptyString => None
       | String _ s' => drop_to sep s'
       end.

Fixpoint take_to (sep s : string) : string :=
  if String.prefix sep s then EmptyString
  else match s with
       | EmptyString => EmptyString
       | String c s' => String c (take_to sep s')
       end.

Definition split_second (sep s : string) : option string :=
  match drop_to sep s with
  | Some rest => Some (take_to sep rest)
  | None => None
  end.

(** The exceptions the modelled code can meet.  All derive from
    [Exception]; [JSONDecodeError] is the one [json.loads] raises and
    [ServiceError] stands for whatever a failing call to an external
    service raises. *)
Inductive exn : Type :=
| AttributeError
| TypeError
| KeyError (key : string)
| ValueError
| OverflowError
| JSONDecodeError
| OSError
| ServiceError.

Inductive result (A : Type) : Type :=
| Ok (a : A)
| Raise (e : exn).
Arguments Ok {A} a.
Arguments Raise {A} e.

Definition bind {A B : Type} (m : result A) (k : A -> result B) : result B :=
  match m with
  | Ok a => k a
  | Raise e => Raise e
  end.

(** [try: m  except Exception: h]. *)
Definition try_except {A : Type} (m : result A) (h : result A) : result A :=
  match m with
  | Ok a => Ok a
  | Raise _ => h
  end.

Fixpoint mapM {A B : Type} (f : A -> result B) (l : list A) : result (list B) :=
  match l with
  | [] => Ok []
  | x :: l' =>
      bind (f x) (fun y => bind (mapM f l') (fun ys => Ok (y :: ys)))
  end.

(** JSON-like Python values. *)
Inductive value : Type :=
| VNone
| VBool (b : bool)
| VInt (z : Z)
| VFloat (f : float)
| VStr (s : string)
| VList (l : list value)
| VDict (d : list (string * value)).

(** [d.get(k)] on the association list of a dict. *)
Fixpoint assoc {A : Type} (k : string) (d : list (string * A)) : option A :=
  match d with
  | [] => None
  | (k', v) :: d' => if String.eqb k k' then Some v else assoc k d'
  end.

(** [d[k] = v]: the key keeps its place when present, else goes last. *)
Fixpoint assoc_set {A : Type} (k : string) (v : A) (d : list (string * A))
  : list (string * A) :=
  match d with
  | [] => [(k, v)]
  | (k', v') :: d' =>
      if String.eqb k k' then (k, v) :: d' else (k', v') :: assoc_set k v d'
  end.

Definition keys (v : value) : list string :=
  match v with
  | VDict d => map fst d
  | _ => []
  end.

(** Truth value of an object ([if x:], [not x]). *)
Definition truthy (v : value) : bool :=
  match v with
  | VNone => false
  | VBool b => b
  | VInt z => negb (z =? 0)
  | VFloat f => negb (PrimFloat.eqb f 0%float)
  | VStr s => negb (String.eqb s "")
  | VList l => match l with [] => false | _ => true end
  | VDict d => match d with [] => false | _ => true end
  end.

(** [v.get(k, default)]: only a dict has the method. *)
Definition method_get (v : value) (k : string) (default : value) : result value :=
  match v with
  | VDict d => Ok (match assoc k d with Some x => x | None => default end)
  | _ => Raise AttributeError
  end.

(** [v.lower()]: only a str has the method. *)
Definition method_lower (v : value) : result string :=
  match v with
  | VStr s => Ok (lower s)
  | _ => Raise AttributeError
  end.

(** [v[k]] with a string subscript. *)
Definition getitem (v : value) (k : string) : result value :=
  match v with
  | VDict d => match assoc k d with
               | Some x => Ok x
               | None => Raise (KeyError k)
               end
  | _ => Raise TypeError
  end.

(** The one-character strings of [s]. *)
Fixpoint chars (s : string) : list value :=
  match s with
  | EmptyString => []
  | String c s' => VStr (String c EmptyString) :: chars s'
  end.

(** [for x in v]: a list gives its items, a str its characters, a dict its
    keys; nothing else here is iterable. *)
Definition iter (v : value) : result (list value) :=
  match v with
  | VList l => Ok l
  | VStr s => Ok (chars s)
  | VDict d => Ok (map (fun kv => VStr (fst kv)) d)
  | _ => Raise TypeError
  end.

Fixpoint string_take (n : nat) (s : string) : string :=
  match n, s with
  | S n', String c s' => String c (string_take n' s')
  | _, _ => EmptyString
  end.

(** [v[:n]]: lists and strs can be sliced. *)
Definition slice_to (n : nat) (v : value) : result value :=
  match v with
  | VList l => Ok (VList (firstn n l))
  | VStr s => Ok (VStr (string_take n s))
  | _ => Raise TypeError
  end.

(** [len(v)]. *)
Definition len (v : value) : result Z :=
  match v with
  | VList l => Ok (Z.of_nat (length l))
  | VStr s => Ok (Z.of_nat (String.length s))
  | VDict d => Ok (Z.of_nat (length d))
  | _ => Raise TypeError
  end.

(** [float(n)] for an int within the 63 bits of a machine word. *)
Definition float_of_Z (n : Z) : float := PrimFloat.of_uint63 (Uint63.of_Z n).

(** [int(f)]: truncation towards zero; an infinity raises
    [OverflowError], a NaN [ValueError]. *)
Definition int_of_float (f : float) : result Z :=
  match Prim2SF f with
  | S754_zero _ => Ok 0
  | S754_finite s m e =>
      let v := if 0 <=? e then Z.pos m * 2 ^ e else Z.pos m / 2 ^ (- e) in
      Ok (if s then - v else v)
  | S754_infinity _ => Raise OverflowError
  | S754_nan => Raise ValueError
  end.

(** [v >= n] for an int literal [n]: numbers compare, anything else raises. *)
Definition ge_int (v : value) (n : Z) : result bool :=
  match v with
  | VInt z => Ok (n <=? z)
  | VBool b => Ok (n <=? (if b then 1 else 0))
  | VFloat f => Ok (PrimFloat.leb (float_of_Z n) f)
  | _ => Raise TypeError
  end.

(** [k in v] for a str [k]: a key of a dict, an item of a list, a substring
    of a str. *)
Definition has (v : value) (k : string) : result bool :=
  match v with
  | VDict d => Ok (match assoc k d with Some _ => true | None => false end)
  | VList l =>
      Ok (existsb (fun x => match x with
                            | VStr s => String.eqb s k
                            | _ => false
                            end) l)
  | VStr s => Ok (contains k s)
  | _ => Raise TypeError
  end.

(** [v[k] = x] with a string subscript. *)
Definition setitem (v : value) (k : string) (x : value) : result value :=
  match v with
  | VDict d => Ok (VDict (assoc_set k x d))
  | _ => Raise TypeError
  end.

End Py.

Import Py.

#[global] Instance result_ret : MRet result := @Ok.
#[global] Instance result_bind : MBind result := fun A B k m => Py.bind m k.

(** ** tools/skill_extraction.py *)

Module skill_extraction.

Definition languages : list string :=
  ["python"; "java"; "javascript"; "sql"; "r"; "c++"; "go"; "rust"].
Definition frameworks : list string :=
  ["react"; "django"; "flask"; "tensorflow"; "pytorch"; "spring"].
Definition cloud : list string := ["aws"; "azure"; "gcp"; "cloud"].
Definition databases : list string :=
  ["mysql"; "postgresql"; "mongodb"; "redis"; "sql"].

(** [any(k in skill_lower for k in keywords)]. *)
Definition any_in (keywords : list string) (skill_lower : string) : bool :=
  existsb (fun k => contains k skill_lower) keywords.

Definition classify_skill_type (skill_name : string) : string :=
  let skill_lower := lower skill_name in
  if any_in languages skill_lower then "language"
  else if any_in frameworks skill_lower then "framework"
  else if any_in cloud skill_lower then "cloud"
  else if any_in databases skill_lower then "db"
  else "concept".

End skill_extraction.

(** ** Library functions and clocks

    The functions of Python's standard library that the program calls and
    that are not re-implemented here.  [json_loads] and [fromisoformat]
    answer [None] where Python raises; [json_dumps] stands for [json.dumps]
    and for [json.dump], whatever the indentation; [py_repr] is [repr] and
    [float_pow] the power operator on floats. *)

(** A [datetime]: naive (local wall clock, as [datetime.now()] gives) or
    aware (with a UTC offset). *)
Inductive datetime : Type :=
| Naive (us : Z)
| Aware (us : Z).

Record pylib : Type := {
  json_loads : string -> option value;
  json_dumps : value -> string;
  isoformat : Z -> string;
  fromisoformat : string -> option datetime;
  py_repr : value -> string;
  float_pow : float -> Z -> float
}.

(** [str(v)], what an f-string shows: written out for the scalars the
    program formats, [py_repr] for floats and containers. *)
Definition str_of (L : pylib) (v : value) : string :=
  match v with
  | VNone => "None"
  | VBool true => "True"
  | VBool false => "False"
  | VInt z => pretty z
  | VStr s => s
  | _ => py_repr L v
  end.

(** [now - t]: a naive and an aware datetime cannot be subtracted. *)
Definition elapsed (now : Z) (t : datetime) : result Z :=
  match t with
  | Naive us => Ok (now - us)
  | Aware _ => Raise TypeError
  end.

(** The microseconds of [n] seconds. *)
Definition seconds (n : Z) : Z := n * 1000000.

(** [timedelta(seconds=n)] for an int [n], in microseconds.  A timedelta
    holds at most 999999999 days either way; beyond that the constructor
    raises [OverflowError]. *)
Definition timedelta (n : Z) : result Z :=
  if (-999999999 <=? n / 86400) && (n / 86400 <=? 999999999)
  then Ok (seconds n)
  else Raise OverflowError.

(** The microseconds of [n] days, as in [timedelta(days=365*5)]. *)
Definition days (n : Z) : Z := n * 86400 * 1000000.

(** ** tools/careeronestop_tools.py *)

Module careeronestop_tools.

Record mapping : Type := {
  m_title : string;
  m_soc : string;
  m_confidence : float
}.

(** The fallback table, in the order the dict literal lists it. *)
Definition common_mappings : list (string * mapping) :=
  [ ("data scientist", {| m_title := "Data Scientists"; m_soc := "15-2051"; m_confidence := 0.85 |});
    ("machine learning engineer", {| m_title := "Data Scientists"; m_soc := "15-2051"; m_confidence := 0.80 |});
    ("ml engineer", {| m_title := "Data Scientists"; m_soc := "15-2051"; m_confidence := 0.80 |});
    ("software engineer", {| m_title := "Software Developers"; m_soc := "15-1252"; m_confidence := 0.85 |});
    ("software developer", {| m_title := "Software Developers"; m_soc := "15-1252"; m_confidence := 0.90 |});
    ("developer", {| m_title := "Software Developers"; m_soc := "15-1252"; m_confidence := 0.75 |});
    ("full stack developer", {| m_title := "Software Developers"; m_soc := "15-1252"; m_confidence := 0.85 |});
    ("frontend developer", {| m_title := "Web Developers"; m_soc := "15-1254"; m_confidence := 0.85 |});
    ("backend developer", {| m_title := "Software Developers"; m_soc := "15-1252"; m_confidence := 0.85 |});
    ("web developer", {| m_title := "Web Developers"; m_soc := "15-1254"; m_confidence := 0.90 |});
    ("devops engineer", {| m_title := "Software Developers"; m_soc := "15-1252"; m_confidence := 0.75 |});
    ("mlops engineer", {| m_title := "Software Developers"; m_soc := "15-1252"; m_confidence := 0.70 |});
    ("cloud engineer", {| m_title := "Network and Computer Systems Administrators"; m_soc := "15-1244"; m_confidence := 0.80 |});
    ("cloud architect", {| m_title := "Computer Network Architects"; m_soc := "15-1241"; m_confidence := 0.85 |});
    ("data analyst", {| m_title := "Data Analysts"; m_soc := "15-2051"; m_confidence := 0.85 |});
    ("data engineer", {| m_title := "Database Architects"; m_soc := "15-1243"; m_confidence := 0.80 |});
    ("business analyst", {| m_title := "Management Analysts"; m_soc := "13-1111"; m_confidence := 0.80 |});
    ("product manager", {| m_title := "Computer and Information Systems Managers"; m_soc := "11-3021"; m_confidence := 0.75 |}) ].

(** The dict [fuzzy_match_occupation] returns. *)
Record occupation : Type := {
  official_title : string;
  soc_code : option string;
  confidence : float;
  notes : string;
  data_source : string
}.

(** [key in title_lower or title_lower in key]. *)
Definition partial_match (title_lower : string) (entry : string * mapping) : bool :=
  contains (fst entry) title_lower || contains title_lower (fst entry).

Definition fuzzy_match_occupation (job_title : string) : occupation :=
  let title_lower := strip (lower job_title) in
  match assoc title_lower common_mappings with
  | Some mapping =>
      {| official_title := m_title mapping;
         soc_code := Some (m_soc mapping);
         confidence := m_confidence mapping;
         notes := "Matched via fallback database (API unavailable)";
         data_source := "Local mapping" |}
  | None =>
      match find (partial_match title_lower) common_mappings with
      | Some (key, mapping) =>
          {| official_title := m_title mapping;
             soc_code := Some (m_soc mapping);
             confidence := (m_confidence mapping - 0.1)%float;
             notes := "Partial match: '" +:+ job_title +:+ "' → '" +:+ key +:+ "'";
             data_source := "Local mapping" |}
      | None =>
          {| official_title := job_title;
             soc_code := None;
             confidence := 0.3%float;
             notes := "No match found. Manual mapping recommended.";
             data_source := "No match" |}
      end
  end.

End careeronestop_tools.

(** ** tools/youtube_tools.py *)

Module youtube_tools.

(** A candidate video.  [upload_date] is the day number (days since the
    epoch) of the well-formed "YYYY-MM-DD" string the search API gave;
    [datetime.strptime] turns it into midnight of that day. *)
Record resource : Type := {
  title : string;
  channel : string;
  url : string;
  duration_minutes : Z;
  difficulty : string;
  views : Z;
  upload_date : Z;
  recommendation_reason : string
}.

(** [datetime.strptime(resource["upload_date"], "%Y-%m-%d")]. *)
Definition strptime (day : Z) : Z := days day.

(** The test of the loop body: [true] when the resource is appended. *)
Definition keeps (now : Z) (r : resource) : bool :=
  let five_years_ago := now - days (365 * 5) in
  let upload_date := strptime (upload_date r) in
  if (five_years_ago <=? upload_date) && (100000 <=? views r) then true
  else if (five_years_ago <=? upload_date) && (50000 <=? views r) then true
  else false.

Definition filter_resources (now : Z) (resources : list resource)
    (user_level : string) : list resource :=
  List.filter (keeps now) resources.

(** [sorted(l, key=lambda x: x["views"], reverse=True)]: stable, so equal
    view counts keep their order. *)
Fixpoint insert_by_views (r : resource) (l : list resource) : list resource :=
  match l with
  | [] => [r]
  | r' :: l' =>
      if views r' <=? views r then r :: l else r' :: insert_by_views r l'
  end.

Definition sorted_by_views (l : list resource) : list resource :=
  fold_right insert_by_views [] l.

(** [l[:n]] for an int [n], negative counts from the end. *)
Definition slice_upto {A : Type} (n : Z) (l : list A) : list A :=
  if 0 <=? n then firstn (Z.to_nat n) l
  else firstn (length l - Z.to_nat (- n)) l.

(** What [search_youtube_resources] returns. *)
Inductive search_result : Type :=
| MissingKey (skill : string)
| Found (resources : list resource).

(** [collected] is the list the loop over the trusted channels gathers
    from the search API.  [if not YOUTUBE_API_KEY] holds of a key that is
    not set and of the empty key. *)
Definition search_youtube_resources (api_key : option string)
    (collected : list resource) (now : Z)
    (skill user_level : string) (max_results : Z) : search_result :=
  match api_key with
  | None => MissingKey skill
  | Some key =>
      if String.eqb key "" then MissingKey skill
      else
        let filtered := filter_resources now collected user_level in
        Found (slice_upto max_results (sorted_by_views filtered))
  end.

End youtube_tools.

(** ** tools/cache_db.py *)

Module cache_db.

(** A row of the table [cache]; the primary key [key] indexes the map. *)
Record row : Type := {
  value_ : string;
  timestamp : string;
  ttl_seconds : Z
}.

Definition get_from_cache (L : pylib) (db : gmap string row) (now : Z)
    (key : string) : result value :=
  match db !! key with
  | None => Ok VNone
  | Some r =>
      cached_time ← match fromisoformat L (timestamp r) with
                    | Some t => Ok t
                    | None => Raise ValueError
                    end;
      age ← elapsed now cached_time;
      limit ← timedelta (ttl_seconds r);
      if limit <? age then Ok VNone
      else match json_loads L (value_ r) with
           | Some v => Ok v
           | None => Raise JSONDecodeError
           end
  end.

(** [set_in_cache], with the table as the call leaves it.  [INSERT OR
    REPLACE]: the new row takes the place of any old one.  An INTEGER
    column holds 64 bits: binding a [ttl] outside them raises
    [OverflowError], and nothing is written. *)
Definition set_in_cache (L : pylib) (db : gmap string row) (now : Z)
    (key : string) (v : value) (ttl : Z) : result unit * gmap string row :=
  if (- 2 ^ 63 <=? ttl) && (ttl <? 2 ^ 63) then
    (Ok tt,
     <[key := {| value_ := json_dumps L v;
                 timestamp := isoformat L now;
                 ttl_seconds := ttl |}]> db)
  else (Raise OverflowError, db).

Definition clear_cache (db : gmap string row) : gmap string row := ∅.

End cache_db.

(** ** tools/cache_tools.py *)

Module cache_tools.

(** The file [.cache/skills_cache.json]. *)
Inductive file : Type :=
| Absent
| Unreadable
| Content (text : string).

(** [open(CACHE_FILE, 'r')] and [f.read()]. *)
Definition read (fs : file) : result string :=
  match fs with
  | Content text => Ok text
  | _ => Raise OSError
  end.

(** [json.load(f)]. *)
Definition json_load (L : pylib) (fs : file) : result value :=
  text ← read fs;
  match json_loads L text with
  | Some v => Ok v
  | None => Raise JSONDecodeError
  end.

(** [datetime.fromisoformat(v)]. *)
Definition parse_timestamp (L : pylib) (v : value) : result datetime :=
  match v with
  | VStr s => match fromisoformat L s with
              | Some t => Ok t
              | None => Raise ValueError
              end
  | _ => Raise TypeError
  end.

(** The body of the [try] block of [get_cached_skills]. *)
Definition lookup_fresh (L : pylib) (fs : file) (now : Z) (role : string)
    (ttl_seconds : Z) : result value :=
  cache ← json_load L fs;
  present ← has cache role;
  if negb present then Ok VNone
  else
    cached_data ← getitem cache role;
    stamp ← getitem cached_data "timestamp";
    cached_time ← parse_timestamp L stamp;
    age ← elapsed now cached_time;
    limit ← timedelta ttl_seconds;
    if limit <? age then Ok VNone
    else getitem cached_data "data".

Definition get_cached_skills (L : pylib) (fs : file) (now : Z)
    (role : string) (ttl_seconds : Z) : value :=
  match fs with
  | Absent => VNone
  | _ =>
      match lookup_fresh L fs now role ttl_seconds with
      | Ok v => v
      | Raise _ => VNone
      end
  end.

(** The body of the [try] block of [cache_skills_data]: the new content of
    the file. *)
Definition updated_text (L : pylib) (fs : file) (now : Z) (role : string)
    (data : value) : result string :=
  cache ← match fs with
          | Absent => Ok (VDict [])
          | _ => json_load L fs
          end;
  cache' ← setitem cache role
             (VDict [("timestamp", VStr (isoformat L now)); ("data", data)]);
  Ok (json_dumps L cache').

(** [cache_skills_data], with the file as the call leaves it, where the
    cache directory can be made and the file can be written: a failure
    of [os.makedirs] or of the write is not among the states of [file]. *)
Definition cache_skills_data (L : pylib) (fs : file) (now : Z)
    (role : string) (data : value) : file :=
  match updated_text L fs now role data with
  | Ok text => Content text
  | Raise _ => fs
  end.

End cache_tools.

(** ** tools/llm_analysis.py (the calls to the language model) *)

Module llm_analysis.

(** What the language model answers to one request: the call raises, the
    response carries no text ([response.text] is [None]), or it carries
    [text]. *)
Inductive llm_reply : Type :=
| LlmFails
| LlmNoText
| LlmText (text : string).

(** The double quote character. *)
Definition dq : string := String "034"%char EmptyString.

(** The literal ['{"skills": []}']. *)
Definition no_skills_json : string := "{" +:+ dq +:+ "skills" +:+ dq +:+ ": []}".

(** [analyze_skills_with_gemini]: [response.text], or the literal above
    when the call raises. *)
Definition analyze_skills_with_gemini (reply : llm_reply) : value :=
  match reply with
  | LlmText text => VStr text
  | LlmNoText => VNone
  | LlmFails => VStr no_skills_json
  end.

(** [re.search(r'\{[\s\S]*\}', text)]: the text from the first opening
    brace to the last closing brace after it. *)
Fixpoint from_open_brace (text : string) : option string :=
  match text with
  | EmptyString => None
  | String c rest =>
      if Ascii.eqb c "{"%char then Some rest else from_open_brace rest
  end.

Definition search_braces (text : string) : option string :=
  match from_open_brace text with
  | None => None
  | Some rest =>
      let upto_close :=
        String.rev
          (lstrip_with (fun c => negb (Ascii.eqb c "}"%char)) (String.rev rest)) in
      match upto_close with
      | EmptyString => None
      | _ => Some (String "{"%char upto_close)
      end
  end.

(** The receiver of [.lower()], [.strip()] or an item of [", ".join]: a
    str, or the call raises [e]. *)
Definition as_str (e : exn) (v : value) : result string :=
  match v with
  | VStr s => Ok s
  | _ => Raise e
  end.

(** The three lists [basic_skill_evaluation] fills: names that match, and
    [(skill, frequency)] of the critical and of the nice-to-have gaps. *)
Record tally : Type := {
  matching : list value;
  critical_gaps : list (string * value);
  nice_gaps : list (string * value)
}.

(** The loop [for req_skill in required_skills]. *)
Fixpoint tally_skills (user_skills_lower : list string) (items : list value)
    (acc : tally) : result tally :=
  match items with
  | [] => Ok acc
  | req_skill :: rest =>
      name ← getitem req_skill "name";
      skill ← as_str AttributeError name;
      if existsb (String.eqb (lower skill)) user_skills_lower then
        tally_skills user_skills_lower rest
          {| matching := matching acc ++ [name];
             critical_gaps := critical_gaps acc;
             nice_gaps := nice_gaps acc |}
      else
        frequency ← getitem req_skill "frequency";
        critical ← ge_int frequency 50;
        if (critical : bool) then
          tally_skills user_skills_lower rest
            {| matching := matching acc;
               critical_gaps := critical_gaps acc ++ [(skill, frequency)];
               nice_gaps := nice_gaps acc |}
        else
          tally_skills user_skills_lower rest
            {| matching := matching acc;
               critical_gaps := critical_gaps acc;
               nice_gaps := nice_gaps acc ++ [(skill, frequency)] |}
  end.

Definition critical_gap (L : pylib) (g : string * value) : value :=
  VDict [ ("skill", VStr (fst g));
          ("frequency", snd g);
          ("priority", VStr "high");
          ("reason", VStr ("Required by " +:+ str_of L (snd g) +:+ "% of jobs")) ].

Definition nice_gap (g : string * value) : value :=
  VDict [ ("skill", VStr (fst g));
          ("frequency", snd g);
          ("priority", VStr "medium") ].

Definition recommendation (g : string * value) : value :=
  VDict [ ("skill", VStr (fst g));
          ("action", VStr ("Learn " +:+ fst g +:+ " fundamentals"));
          ("timeframe", VStr "1-2 months");
          ("priority", VStr "high") ].

(** [basic_skill_evaluation]: the keyword comparison the tool falls back
    on. *)
Definition basic_skill_evaluation (L : pylib) (user_skills : list value)
    (required_skills job_title : value) : result value :=
  user_skills_lower ← mapM method_lower user_skills;
  items ← iter required_skills;
  t ← tally_skills user_skills_lower items
        {| matching := []; critical_gaps := []; nice_gaps := [] |};
  match_score ←
    (if truthy required_skills then
       n ← len required_skills;
       int_of_float
         (float_of_Z (Z.of_nat (length (matching t))) / float_of_Z n * 100)%float
     else Ok 0);
  Ok (VDict
        [ ("match_score", VInt match_score);
          ("matching_skills", VList (matching t));
          ("critical_gaps", VList (map (critical_gap L) (firstn 5 (critical_gaps t))));
          ("nice_to_have_gaps", VList (map nice_gap (firstn 5 (nice_gaps t))));
          ("recommendations", VList (map recommendation (firstn 3 (critical_gaps t))));
          ("summary",
            VStr ("You match " +:+ pretty match_score +:+
                  "% of required skills for " +:+ str_of L job_title +:+
                  ". Focus on critical gaps first."));
          ("job_title", job_title);
          ("analysis_method", VStr "Basic keyword matching (LLM unavailable)") ]).

(** The [try] block of [evaluate_user_skills_with_gemini].  The prompt only
    reaches the language model, so of its construction the model keeps the
    exceptions: [", ".join(user_skills)] needs strs, and each of the first
    15 required skills is subscripted with 'name', 'type' and
    'frequency'. *)
Definition ask_gemini (L : pylib) (reply : llm_reply) (user_skills : list value)
    (required_skills job_title : value) : result value :=
  _ ← mapM (as_str TypeError) user_skills;
  first15 ← slice_to 15 required_skills;
  items ← iter first15;
  _ ← mapM (fun s => _ ← getitem s "name";
                     _ ← getitem s "type";
                     getitem s "frequency") items;
  response_text ← match reply with
                  | LlmFails => Raise ServiceError
                  | LlmNoText => Raise AttributeError
                  | LlmText text => Ok (strip text)
                  end;
  match search_braces response_text with
  | Some json_match =>
      match json_loads L json_match with
      | Some result =>
          result ← setitem result "job_title" job_title;
          setitem result "analysis_method" (VStr "Gemini 2.0 Flash")
      | None => Raise JSONDecodeError
      end
  | None => Raise ValueError
  end.

Definition evaluate_user_skills_with_gemini (L : pylib) (reply : llm_reply)
    (user_skills : list value) (required_skills job_title : value)
  : result value :=
  try_except
    (ask_gemini L reply user_skills required_skills job_title)
    (basic_skill_evaluation L user_skills required_skills job_title).

End llm_analysis.

(** ** agents/base.py *)

Module base.
Import llm_analysis cache_tools.

(** [BaseAgent._extract_role_from_query]. *)
Definition _extract_role_from_query (query : string) : string :=
  if contains " for " (lower query) then
    match split_second " for " (lower query) with
    | Some part => title (strip part)
    | None => title (strip query)
    end
  else title (strip query).

(** [BaseAgent._calculate_confidence]. *)
Definition _calculate_confidence (num_jobs : Z) : float :=
  if 100 <=? num_jobs then 0.95%float
  else if 50 <=? num_jobs then 0.85%float
  else if 25 <=? num_jobs then 0.70%float
  else 0.50%float.

(** [json.loads(skills_json)] guarded by [except json.JSONDecodeError]. *)
Definition skills_data_of (L : pylib) (skills_json : value) : result value :=
  match skills_json with
  | VStr text =>
      match json_loads L text with
      | Some v => Ok v
      | None => Ok (VDict [("skills", VList [])])
      end
  | _ => Raise TypeError
  end.

(** The dict built under [# Build result]. *)
Definition build_result (role : string) (skills_data : value) (n_jobs : Z)
  : result value :=
  skills ← method_get skills_data "skills" (VList []);
  top_skills ← slice_to 20 skills;
  Ok (VDict
        [ ("role", VStr role);
          ("top_skills", top_skills);
          ("data_source", VStr ("Adzuna (90d, " +:+ pretty n_jobs +:+ " jobs)"));
          ("confidence", VFloat (_calculate_confidence n_jobs));
          ("cache_ttl_seconds", VInt 86400) ]).

(** [BaseAgent.run].  [fs] is the cache file, [now] and [later] the clock
    when the cache is read and when it is written, [job_descriptions] what
    [fetch_job_postings] returned and [reply] the language model's answer.
    The value returned (or the exception) comes with the cache file as the
    run leaves it. *)
Definition run (L : pylib) (fs : file) (now later : Z) (query : string)
    (job_descriptions : list string) (reply : llm_reply)
  : result value * file :=
  let role := _extract_role_from_query query in
  let cached := get_cached_skills L fs now role 86400 in
  if truthy cached then (Ok cached, fs)
  else
    match job_descriptions with
    | [] =>
        (Ok (VDict [ ("error", VStr "No job postings found");
                     ("role", VStr role);
                     ("confidence", VFloat 0.0) ]), fs)
    | _ =>
        let skills_json := analyze_skills_with_gemini reply in
        match
          skills_data ← skills_data_of L skills_json;
          build_result role skills_data (Z.of_nat (length job_descriptions))
        with
        | Ok result => (Ok result, cache_skills_data L fs later role result)
        | Raise e => (Raise e, fs)
        end
    end.

End base.

(** ** tools/bls_tools.py *)

Module bls_tools.

(** One entry of the [projections] list. *)
Record projection : Type := {
  year : Z;
  employment : option Z;
  change : option Z;
  growth_rate : option float
}.

Definition field {A : Type} (k : string) (f : A -> value) (o : option A)
  : list (string * value) :=
  match o with
  | Some a => [(k, f a)]
  | None => []
  end.

(** An entry as [fetch_from_occupational_outlook] builds it: the change
    is set last. *)
Definition projection_dict (p : projection) : value :=
  VDict ([("year", VInt (year p))]
           ++ field "employment" VInt (employment p)
           ++ field "growth_rate" VFloat (growth_rate p)
           ++ field "change" VInt (change p)).

(** What the statistics API answers to one request: the request (or
    decoding its body) raises; the body's status is not
    "REQUEST_SUCCEEDED" and carries [message]; the body is accepted and the
    tabulation of its series by [parse_bls_response] (year and value
    parsing, merge by year, sort, growth rates) raises or gives
    [projections]. *)
Inductive bls_reply : Type :=
| RequestRaises (msg : string)
| RequestRefused (message : value)
| TableRaises (msg : string)
| Tabulated (projections : list projection).

(** An entry as [parse_bls_response] builds it from the series in the
    order they are asked for: the employment, the change, then the growth
    rate computed last. *)
Definition tabulated_dict (p : projection) : value :=
  VDict ([("year", VInt (year p))]
           ++ field "employment" VInt (employment p)
           ++ field "change" VInt (change p)
           ++ field "growth_rate" VFloat (growth_rate p)).

(** The dict [parse_bls_response] returns for the tabulated projections. *)
Definition parse_bls_response (projections : list projection)
    (soc_code job_title : string) : list (string * value) :=
  [ ("soc_code", VStr soc_code);
    ("job_title", VStr job_title);
    ("projections", VList (map tabulated_dict projections));
    ("source", VStr "U.S. Bureau of Labor Statistics");
    ("projection_period",
      VStr match projections with
           | [] => "N/A"
           | first :: _ =>
               pretty (year first) +:+ "-" +:+
               pretty (year (List.last projections first))
           end) ].

Definition failure (error : value) : value :=
  VDict [("success", VBool false); ("error", error)].

Definition fetch_bls_data_v2 (reply : bls_reply) (soc_code job_title : string)
  : value :=
  match reply with
  | RequestRaises msg => failure (VStr msg)
  | RequestRefused message => failure message
  | TableRaises msg => failure (VStr msg)
  | Tabulated projections =>
      VDict (parse_bls_response projections soc_code job_title
               ++ [("api_version", VStr "v2"); ("success", VBool true)])
  end.

Definition fetch_bls_data_v1 (reply : bls_reply) (soc_code job_title : string)
  : value :=
  match reply with
  | RequestRaises msg => failure (VStr msg)
  | RequestRefused message => failure message
  | TableRaises msg => failure (VStr msg)
  | Tabulated projections =>
      VDict (parse_bls_response projections soc_code job_title
               ++ [ ("api_version", VStr "v1"); ("success", VBool true);
                    ("note", VStr "Using v1 API. Register for API key to increase limits.") ])
  end.

(** Sector growth rates by SOC prefix, in the order of the dict literal. *)
Definition growth_rates : list (string * float) :=
  [("15-", 10.2); ("13-", 6.8); ("29-", 8.4); ("27-", 2.5); ("11-", 4.1)]%float.

(** The loop [for i in range(11)]: [prev] is the employment of the entry
    before, [is] the indices still to do. *)
Fixpoint project (L : pylib) (current_year : Z) (rate : float)
    (prev : option Z) (indices : list Z) : result (list projection) :=
  match indices with
  | [] => Ok []
  | i :: rest =>
      employment ← int_of_float
                     (float_of_Z 750000 * float_pow L (1 + rate / 100) i)%float;
      let proj :=
        {| year := current_year + i;
           employment := Some employment;
           growth_rate := Some (if 0 <? i then rate else 0.0%float);
           change := match prev with
                     | Some before => Some (employment - before)
                     | None => None
                     end |} in
      projections ← project L current_year rate (Some employment) rest;
      Ok (proj :: projections)
  end.

Definition fetch_from_occupational_outlook (L : pylib) (current_year : Z)
    (soc_code job_title : string) : result value :=
  let growth_rate :=
    match find (fun entry => startswith soc_code (fst entry)) growth_rates with
    | Some (_, rate) => rate
    | None => 3.1%float
    end in
  projections ← project L current_year growth_rate None
                  (map Z.of_nat (seq 0 11));
  Ok (VDict
        [ ("soc_code", VStr soc_code);
          ("job_title", VStr job_title);
          ("projections", VList (map projection_dict projections));
          ("source", VStr "BLS Occupational Outlook Handbook (Estimated)");
          ("projection_period",
            VStr (pretty current_year +:+ "-" +:+ pretty (current_year + 10)));
          ("growth_rate_annual", VFloat growth_rate);
          ("success", VBool true);
          ("note",
            VStr ("Based on BLS 2024-2034 projections. Actual data unavailable for SOC "
                  +:+ soc_code +:+
                  ". Register for BLS API key at https://data.bls.gov/registrationEngine/ for accurate data.")) ]).

(** [fetch_job_projections]; [api_key] is [BLS_API_KEY]. *)
Definition fetch_job_projections (L : pylib) (api_key : string)
    (reply : bls_reply) (current_year : Z) (soc_code job_title : string)
  : result value :=
  try_except
    (let result :=
       if negb (String.eqb api_key "")
       then fetch_bls_data_v2 reply soc_code job_title
       else fetch_bls_data_v1 reply soc_code job_title in
     success ← method_get result "success" VNone;
     if truthy success then Ok result
     else fetch_from_occupational_outlook L current_year soc_code job_title)
    (fetch_from_occupational_outlook L current_year soc_code job_title).

End bls_tools.

(** ** agents/long_term_forecast_agent.py *)

Module long_term_forecast_agent.
Import cache_tools bls_tools.

(** [LongTermForecastAgent.run], with the cache file as the run leaves
    it. *)
Definition run (L : pylib) (fs : file) (now later : Z) (api_key : string)
    (reply : bls_reply) (current_year : Z) (soc_code job_title : string)
  : result value * file :=
  let cache_key := "forecast_" +:+ soc_code in
  let cached := get_cached_skills L fs now cache_key 604800 in
  if truthy cached then (Ok cached, fs)
  else
    match fetch_job_projections L api_key reply current_year soc_code job_title with
    | Raise e => (Raise e, fs)
    | Ok result =>
        match has result "error" with
        | Raise e => (Raise e, fs)
        | Ok true => (Ok result, fs)
        | Ok false =>
            match setitem result "cache_ttl_seconds" (VInt 604800) with
            | Raise e => (Raise e, fs)
            | Ok result =>
                let fs' := cache_skills_data L fs later cache_key result in
                (_ ← getitem result "growth_percent";
                 _ ← getitem result "category";
                 Ok result,
                 fs')
            end
        end
    end.

End long_term_forecast_agent.

(** ** agents/evaluator_recommender.py *)

Module evaluator_recommender.
Import llm_analysis.

(** [safe_json_parse]: [None] when neither the text nor its cleaned form
    parses. *)
Definition safe_json_parse (L : pylib) (text : string) : value :=
  match json_loads L text with
  | Some v => v
  | None =>
      let cleaned := strip (strip_chars "```" (strip text)) in
      match json_loads L cleaned with
      | Some v => v
      | None => VNone
      end
  end.

(** An entry of [gap_analysis]. *)
Record gap : Type := {
  skill : string;
  market_rank : Z;
  priority : string;
  reasoning : string
}.

Definition gap_dict (g : gap) : value :=
  VDict [ ("skill", VStr (skill g));
          ("current_level", VNone);
          ("market_rank", VInt (market_rank g));
          ("priority", VStr (priority g));
          ("reasoning", VStr (reasoning g)) ].

(** The priority rules, from the role outlook and the market rank. *)
Definition priority_of (role_outlook : string) (market_rank : Z) : string :=
  if startswith (lower role_outlook) "high"
     || contains "future" (lower role_outlook) then
    if market_rank <=? 10 then "High"
    else if market_rank <=? 20 then "Medium" else "Low"
  else if startswith (lower role_outlook) "stable" then
    if market_rank <=? 10 then "Medium" else "Low"
  else "Low".

(** The loop [for idx, s in enumerate(top_skills[:20])]; [market_rank] is
    [idx + 1] for the first of [items]. *)
Fixpoint gaps_from (resume_names : list string) (role_outlook : value)
    (market_rank : Z) (items : list value) : result (list gap) :=
  match items with
  | [] => Ok []
  | s :: rest =>
      name ← method_get s "name" VNone;
      if negb (truthy name) then
        gaps_from resume_names role_outlook (market_rank + 1) rest
      else
        name ← as_str AttributeError name;
        if existsb (String.eqb (lower name)) resume_names then
          gaps_from resume_names role_outlook (market_rank + 1) rest
        else
          outlook ← as_str AttributeError role_outlook;
          let g :=
            {| skill := name;
               market_rank := market_rank;
               priority := priority_of outlook market_rank;
               reasoning :=
                 "Rank #" +:+ pretty market_rank +:+
                 " in short-term demand; role outlook: " +:+ outlook +:+ "." |} in
          gaps ← gaps_from resume_names role_outlook (market_rank + 1) rest;
          Ok (g :: gaps)
  end.

(** The sort key [({"High": 1, "Medium": 2, "Low": 3}[priority],
    market_rank)], compared as Python compares tuples. *)
Definition priority_number (p : string) : Z :=
  if String.eqb p "High" then 1 else if String.eqb p "Medium" then 2 else 3.

Definition key_le (a b : gap) : bool :=
  (priority_number (priority a) <? priority_number (priority b))
  || ((priority_number (priority a) =? priority_number (priority b))
      && (market_rank a <=? market_rank b)).

(** [sorted(gap_analysis, key=...)]: a stable sort. *)
Fixpoint insert_gap (g : gap) (l : list gap) : list gap :=
  match l with
  | [] => [g]
  | g' :: l' => if key_le g g' then g :: l else g' :: insert_gap g l'
  end.

Definition sorted_gaps (l : list gap) : list gap := fold_right insert_gap [] l.

(** [rules_evaluator].  [round(confidence, 2)] leaves both 0.75 and 0.4 as
    they are. *)
Definition rules_evaluator (resume_skills short_term_skills
    long_term_forecast : value) : result value :=
  resume ← iter resume_skills;
  resume_names ← mapM (fun s => name ← method_get s "name" (VStr "");
                                method_lower name) resume;
  top_skills ← (if truthy short_term_skills
                then slice_to 20 short_term_skills
                else Ok (VList []));
  role_outlook ← method_get long_term_forecast "category" (VStr "Unknown");
  top20 ← slice_to 20 top_skills;
  items ← iter top20;
  gap_analysis ← gaps_from resume_names role_outlook 1 items;
  let recommended_learning_path :=
    map (fun g => VStr (skill g)) (firstn 5 (sorted_gaps gap_analysis)) in
  let confidence :=
    match gap_analysis with [] => 0.4%float | _ => 0.75%float end in
  Ok (VDict
        [ ("role_outlook", role_outlook);
          ("gap_analysis", VList (map gap_dict gap_analysis));
          ("recommended_learning_path", VList recommended_learning_path);
          ("estimated_time_weeks", VInt 12);
          ("confidence", VFloat confidence) ]).

(** The [try] block of [EvaluatorRecommenderAgent.run]: [Some r] when it
    returns [r], [None] when control falls out of it. *)
Definition try_llm (L : pylib) (reply : llm_reply) (resume_skills
    short_term_skills long_term_forecast : value) : result (option value) :=
  resume ← iter resume_skills;
  names ← mapM (fun s => method_get s "name" VNone) resume;
  job_title ← method_get long_term_forecast "category" (VStr "");
  llm_response ← evaluate_user_skills_with_gemini L reply names
                   short_term_skills job_title;
  match llm_response with
  | VStr text =>
      match safe_json_parse L text with
      | VDict d => Ok (Some (VDict d))
      | _ => Ok None
      end
  | VDict d => Ok (Some (VDict d))
  | _ => Ok None
  end.

(** [EvaluatorRecommenderAgent.run]. *)
Definition run (L : pylib) (reply : llm_reply) (payload : value) : result value :=
  resume_skills ← method_get payload "resume_skills" (VList []);
  short_term_skills ← method_get payload "short_term_skills" (VList []);
  long_term_forecast ← method_get payload "long_term_forecast" (VDict []);
  match try_llm L reply resume_skills short_term_skills long_term_forecast with
  | Ok (Some parsed) => Ok parsed
  | _ => rules_evaluator resume_skills short_term_skills long_term_forecast
  end.

(** The payload of the module's test harness. *)
Definition sample_resume_skills : value :=
  VList [ VDict [("name", VStr "Python")];
          VDict [("name", VStr "Docker")];
          VDict [("name", VStr "SQL")] ].

Definition sample_short_term_skills : value :=
  VList
    [ VDict [("name", VStr "Python"); ("type", VStr "language");
             ("frequency", VInt 95); ("mention_count", VInt 95)];
      VDict [("name", VStr "AWS"); ("type", VStr "cloud");
             ("frequency", VInt 80); ("mention_count", VInt 80)];
      VDict [("name", VStr "Kubernetes"); ("type", VStr "tool");
             ("frequency", VInt 70); ("mention_count", VInt 70)];
      VDict [("name", VStr "Docker"); ("type", VStr "tool");
             ("frequency", VInt 65); ("mention_count", VInt 65)];
      VDict [("name", VStr "CI/CD"); ("type", VStr "tool");
             ("frequency", VInt 60); ("mention_count", VInt 60)] ].

Definition sample_long_term_forecast : value :=
  VDict [("category", VStr "High growth (Future-safe)")].


End evaluator_recommender.

(** ** Notions the statements of Part II use *)

Module stated.
Import llm_analysis evaluator_recommender youtube_tools.

(** The gap the rules engine records for a skill at a rank under the
    sample outlook. *)
Definition high_gap (name : string) (rank : Z) : gap :=
  {| skill := name;
     market_rank := rank;
     priority := "High";
     reasoning :=
       "Rank #" +:+ pretty rank +:+
       " in short-term demand; role outlook: High growth (Future-safe)." |}.

(** The age of a video at [now]: the time since midnight of its upload
    day. *)
Definition age (now : Z) (r : resource) : Z := now - strptime (upload_date r).

(** Five years, as the filter counts them. *)
Definition five_years : Z := days (365 * 5).

(** The filter policy as the specification words it: age strictly below
    five years and at least 100,000 views, or age strictly below five years
    and at least 50,000 views. *)
Definition stated_policy (now : Z) (r : resource) : bool :=
  ((age now r <? five_years) && (100000 <=? views r))
  || ((age now r <? five_years) && (50000 <=? views r)).

(** A video uploaded 1825 days before [midnight], the first instant of day
    20000 (4 October 2024), with 100,000 views. *)
Definition midnight : Z := days 20000.

Definition boundary_video : resource :=
  {| title := "Python for Beginners - Full Course";
     channel := "freeCodeCamp.org";
     url := "https://www.youtube.com/watch?v=boundary";
     duration_minutes := 266;
     difficulty := "Beginner";
     views := 100000;
     upload_date := 20000 - 365 * 5;
     recommendation_reason :=
       "Comprehensive deep dive; suitable for junior level" |}.

(** A library that answers for one cached value and one instant: JSON
    [true] and the first instant of 2024. *)
Definition new_year_2024 : Z := days 19723.

Definition tiny_lib : pylib :=
  {| json_loads := fun s => if String.eqb s "true" then Some (VBool true) else None;
     json_dumps := fun v => match v with VBool true => "true" | _ => "null" end;
     isoformat := fun t => if t =? new_year_2024 then "2024-01-01T00:00:00" else "";
     fromisoformat := fun s => if String.eqb s "2024-01-01T00:00:00"
                               then Some (Naive new_year_2024) else None;
     py_repr := fun _ => "";
     float_pow := fun x _ => x |}.

(** The ranking the specification states for the short-term skill list: at
    most 20 skills, each with frequency at least [min_frequency], sorted by
    frequency descending with ties broken by mention_count descending. *)
Definition int_field (k : string) (v : value) : Z :=
  match v with
  | VDict d => match assoc k d with
               | Some (VInt z) => z
               | _ => 0
               end
  | _ => 0
  end.

Definition ranks_before (a b : value) : bool :=
  (int_field "frequency" b <? int_field "frequency" a)
  || ((int_field "frequency" a =? int_field "frequency" b)
      && (int_field "mention_count" b <=? int_field "mention_count" a)).

Fixpoint in_rank_order (skills : list value) : bool :=
  match skills with
  | a :: (b :: _) as rest => ranks_before a b && in_rank_order rest
  | _ => true
  end.

Definition stated_ranking (min_frequency : Z) (skills : list value) : bool :=
  (length skills <=? 20)%nat
  && forallb (fun s => min_frequency <=? int_field "frequency" s) skills
  && in_rank_order skills.

(** An answer of the language model that lists a rare skill first, and the
    value [json.loads] reads from it. *)
Definition q (s : string) : string := dq +:+ s +:+ dq.

Definition unranked_text : string :=
  "{" +:+ q "skills" +:+ ": [{" +:+
  q "name" +:+ ": " +:+ q "Excel" +:+ ", " +:+
  q "type" +:+ ": " +:+ q "tool" +:+ ", " +:+
  q "frequency" +:+ ": 2, " +:+ q "mention_count" +:+ ": 3}, {" +:+
  q "name" +:+ ": " +:+ q "Python" +:+ ", " +:+
  q "type" +:+ ": " +:+ q "language" +:+ ", " +:+
  q "frequency" +:+ ": 90, " +:+ q "mention_count" +:+ ": 135}]}".

Definition unranked_skills : list value :=
  [ VDict [("name", VStr "Excel"); ("type", VStr "tool");
           ("frequency", VInt 2); ("mention_count", VInt 3)];
    VDict [("name", VStr "Python"); ("type", VStr "language");
           ("frequency", VInt 90); ("mention_count", VInt 135)] ].

(** A library whose [json.loads] reads [unranked_text]; the cache file it
    writes is not read back here. *)
Definition reading_lib : pylib :=
  {| json_loads := fun s => if String.eqb s unranked_text
                            then Some (VDict [("skills", VList unranked_skills)])
                            else None;
     json_dumps := fun _ => "{}";
     isoformat := fun _ => "2024-01-01T00:00:00";
     fromisoformat := fun _ => None;
     py_repr := fun _ => "";
     float_pow := fun x _ => x |}.

Definition three_postings : list string :=
  [ "Data analyst with strong Python and SQL skills.";
    "Analyst sought; Excel a plus, Python required.";
    "Join our analytics team. Python, dashboards." ].

(** The keys of the rules engine's result, and those of the basic keyword
    evaluation of [tools/llm_analysis.py]. *)
Definition rules_shape : list string :=
  [ "role_outlook"; "gap_analysis"; "recommended_learning_path";
    "estimated_time_weeks"; "confidence" ].




(** A cache file with one entry for "Data Scientist", stamped at the first
    instant of 2024, one entry without a readable timestamp, and the
    library that reads it. *)
Definition cache_text : string :=
  "{" +:+ q "Data Scientist" +:+ ": {" +:+ q "timestamp" +:+ ": " +:+
  q "2024-01-01T00:00:00" +:+ ", " +:+ q "data" +:+ ": {" +:+ q "role" +:+
  ": " +:+ q "Data Scientist" +:+ "}}, " +:+ q "Plumber" +:+ ": {" +:+
  q "timestamp" +:+ ": " +:+ q "yesterday" +:+ ", " +:+ q "data" +:+ ": {}}}".

Definition cache_value : value :=
  VDict [ ("Data Scientist",
            VDict [ ("timestamp", VStr "2024-01-01T00:00:00");
                    ("data", VDict [("role", VStr "Data Scientist")]) ]);
          ("Plumber",
            VDict [ ("timestamp", VStr "yesterday"); ("data", VDict []) ]) ].

Definition cache_lib : pylib :=
  {| json_loads := fun s => if String.eqb s cache_text then Some cache_value
                            else None;
     json_dumps := fun _ => "{}";
     isoformat := fun _ => "2024-01-01T00:00:00";
     fromisoformat := fun s => if String.eqb s "2024-01-01T00:00:00"
                               then Some (Naive new_year_2024) else None;
     py_repr := fun _ => "";
     float_pow := fun x _ => x |}.

(** Three candidates of the resource filter: 80,000 views uploaded 730 days
    before day 20000, and 80,000 and 200,000 views uploaded 2190 days
    before it. *)
Definition candidate (views : Z) (upload_date : Z) : resource :=
  {| title := "Docker Tutorial for Beginners";
     channel := "Programming with Mosh";
     url := "https://www.youtube.com/watch?v=candidate";
     duration_minutes := 56;
     difficulty := "Beginner";
     views := views;
     upload_date := upload_date;
     recommendation_reason := "Concise introduction; suitable for junior level" |}.

End stated.

(** ** Shapes of the data the stages exchange *)

Module shapes.

(** A resume skill the rules engine can read: a dict whose name, when it
    has one, is a str. *)
Definition resume_skill (s : value) : bool :=
  match s with
  | VDict d => match assoc "name" d with
               | None | Some (VStr _) => true
               | Some _ => false
               end
  | _ => false
  end.

(** A market skill the rules engine can read: a dict whose name is
    missing, false in the sense of [if not name], or a str. *)
Definition market_skill (s : value) : bool :=
  match s with
  | VDict d => match assoc "name" d with
               | None | Some (VStr _) => true
               | Some v => negb (truthy v)
               end
  | _ => false
  end.

(** A forecast the rules engine can read: its category, when it has one,
    is a str. *)
Definition forecast (d : list (string * value)) : bool :=
  match assoc "category" d with
  | None | Some (VStr _) => true
  | Some _ => false
  end.

(** A payload the evaluator can read: a dict whose resume skills, market
    skills and forecast, where present, have the shapes above. *)
Definition payload (p : list (string * value)) : bool :=
  match assoc "resume_skills" p with
  | None => true
  | Some (VList l) => forallb resume_skill l
  | Some _ => false
  end
  && match assoc "short_term_skills" p with
     | None => true
     | Some (VList l) => forallb market_skill l
     | Some _ => false
     end
  && match assoc "long_term_forecast" p with
     | None => true
     | Some (VDict d) => forecast d
     | Some _ => false
     end.

(** What the rules engine answers on the sample payload. *)
Definition sample_rules_result : value :=
  VDict
    [ ("role_outlook", VStr "High growth (Future-safe)");
      ("gap_analysis",
        VList (map evaluator_recommender.gap_dict
                   [ stated.high_gap "AWS" 2;
                     stated.high_gap "Kubernetes" 3;
                     stated.high_gap "CI/CD" 5 ]));
      ("recommended_learning_path",
        VList [VStr "AWS"; VStr "Kubernetes"; VStr "CI/CD"]);
      ("estimated_time_weeks", VInt 12);
      ("confidence", VFloat 0.75) ].

End shapes.

(** ** Libraries and values for the examples of the caches *)

Module samples.
Import cache_tools llm_analysis.

(** A library that serialises everything to one text and reads that text
    back as [v], and that prints every instant as the first instant of
    2024 and reads it back as [t]. *)
Definition fixed_lib (v : value) (t : Z) : pylib :=
  {| json_loads := fun s => if String.eqb s "<cache>" then Some v else None;
     json_dumps := fun _ => "<cache>";
     isoformat := fun _ => "2024-01-01T00:00:00";
     fromisoformat := fun s => if String.eqb s "2024-01-01T00:00:00"
                               then Some (Naive t) else None;
     py_repr := fun _ => "";
     float_pow := fun x _ => x |}.

(** The entry [cache_skills_data] stores for [data], and the cache holding
    it under one role. *)
Definition entry (data : value) : value :=
  VDict [("timestamp", VStr "2024-01-01T00:00:00"); ("data", data)].

Definition web_developer : value := VDict [("role", VStr "Web Developer")].

Definition one_role_cache : value :=
  VDict [("Web Developer", entry web_developer)].

(** What [BaseAgent.run] computes for "skills for data analyst" from three
    postings when the language model fails, and the cache holding it. *)
Definition no_skills_result : value :=
  VDict [ ("role", VStr "Data Analyst");
          ("top_skills", VList []);
          ("data_source", VStr "Adzuna (90d, 3 jobs)");
          ("confidence", VFloat 0.50);
          ("cache_ttl_seconds", VInt 86400) ].

Definition data_analyst_cache : value :=
  VDict [("Data Analyst", entry no_skills_result)].

End samples.

(** ** tools/careeronestop_tools.py (the occupation search) *)

Module occupation_search.
Import llm_analysis careeronestop_tools cache_tools.

(** [format_soc_code]: [None] for a false code, else the text before the
    first ".". *)
Definition format_soc_code (onet_code : value) : result value :=
  if negb (truthy onet_code) then Ok VNone
  else
    code ← as_str AttributeError onet_code;
    Ok (VStr (take_to "." code)).

(** The priority keywords, in the order of the dict literal. *)
Definition priority_keywords : list (string * list string) :=
  [ ("data scientist", ["data scien"; "15-2051"]);
    ("software engineer", ["software dev"; "software eng"; "15-1252"]);
    ("machine learning", ["data scien"; "15-2051"]);
    ("cloud engineer", ["network"; "cloud"; "15-1244"]);
    ("devops", ["software dev"; "15-1252"]);
    ("data analyst", ["data anal"; "operations research"; "15-2041"]);
    ("web developer", ["web dev"; "15-1254"]) ].

(** The dict [select_best_match] returns. *)
Record best_match : Type := {
  title : value;
  code : value;
  confidence : float;
  notes : string
}.

(** [for keyword in keywords: if keyword in occ_title or keyword in
    occ_code]: whether some keyword hits. *)
Fixpoint any_keyword (occ_title : string) (occ_code : value)
    (keywords : list string) : result bool :=
  match keywords with
  | [] => Ok false
  | keyword :: rest =>
      hit ← (if contains keyword occ_title then Ok true
             else has occ_code keyword);
      if (hit : bool) then Ok true else any_keyword occ_title occ_code rest
  end.

(** [for key, keywords in priority_keywords.items(): if key in
    query_lower: ...]: the first key whose keywords hit. *)
Fixpoint priority_key (query_lower occ_title : string) (occ_code : value)
    (table : list (string * list string)) : result (option string) :=
  match table with
  | [] => Ok None
  | (key, keywords) :: rest =>
      if contains key query_lower then
        hit ← any_keyword occ_title occ_code keywords;
        if (hit : bool) then Ok (Some key)
        else priority_key query_lower occ_title occ_code rest
      else priority_key query_lower occ_title occ_code rest
  end.

(** The loop [for occupation in occupations]: the match it returns, if
    any. *)
Fixpoint scan (query_lower : string) (occupations : list value)
  : result (option best_match) :=
  match occupations with
  | [] => Ok None
  | occupation :: rest =>
      occ_title ← (t ← method_get occupation "OccupationTitle" (VStr "");
                   method_lower t);
      occ_code ← method_get occupation "OnetCode" (VStr "");
      if String.eqb query_lower occ_title then
        title ← method_get occupation "OccupationTitle" VNone;
        code ← format_soc_code occ_code;
        Ok (Some {| title := title; code := code; confidence := 1.0;
                    notes := "Exact match found" |})
      else
        key ← priority_key query_lower occ_title occ_code priority_keywords;
        match key with
        | Some key =>
            title ← method_get occupation "OccupationTitle" VNone;
            code ← format_soc_code occ_code;
            Ok (Some {| title := title; code := code; confidence := 0.9;
                        notes := "Matched via priority keywords: " +:+ key |})
        | None => scan query_lower rest
        end
  end.

Definition select_best_match (query : string) (occupations : value)
  : result best_match :=
  items ← iter occupations;
  found ← scan (lower query) items;
  match found with
  | Some m => Ok m
  | None =>
      match items with
      | first :: _ =>
          title ← method_get first "OccupationTitle" VNone;
          onet ← method_get first "OnetCode" (VStr "");
          code ← format_soc_code onet;
          Ok {| title := title; code := code; confidence := 0.75;
                notes := "Best available match from API results" |}
      | [] =>
          Ok {| title := VStr query; code := VNone; confidence := 0.3;
                notes := "No suitable match found" |}
      end
  end.

(** The dict of a fallback mapping. *)
Definition occupation_dict (o : occupation) : value :=
  VDict [ ("official_title", VStr (official_title o));
          ("soc_code", match soc_code o with
                       | Some c => VStr c
                       | None => VNone
                       end);
          ("confidence", VFloat (careeronestop_tools.confidence o));
          ("notes", VStr (careeronestop_tools.notes o));
          ("data_source", VStr (data_source o)) ].

(** What the occupation API answers: the request (or decoding its body)
    raises, or the body decodes to [data]. *)
Inductive api_reply : Type :=
| ApiRaises
| ApiData (data : value).

(** The [try] block of [search_occupation]. *)
Definition ask_api (reply : api_reply) (job_title : string) : result value :=
  data ← match reply with
         | ApiRaises => Raise ServiceError
         | ApiData data => Ok data
         end;
  occupations ← method_get data "OccupationList" (VList []);
  if negb (truthy occupations) then
    Ok (occupation_dict (fuzzy_match_occupation job_title))
  else
    best ← select_best_match job_title occupations;
    Ok (VDict [ ("official_title", title best);
                ("soc_code", code best);
                ("alternate_titles", VList []);
                ("confidence", VFloat (confidence best));
                ("notes", VStr (notes best));
                ("data_source", VStr "CareerOneStop") ]).

(** [search_occupation]; [credentials] tells whether both the user id and
    the token are configured. *)
Definition search_occupation (credentials : bool) (reply : api_reply)
    (job_title : string) : value :=
  if negb credentials then
    VDict [ ("error", VStr "CareerOneStop API credentials not configured");
            ("official_title", VNone);
            ("soc_code", VNone);
            ("confidence", VFloat 0.0) ]
  else
    match ask_api reply job_title with
    | Ok result => result
    | Raise _ => occupation_dict (fuzzy_match_occupation job_title)
    end.

End occupation_search.

(** ** agents/role_mapper.py *)

Module role_mapper.
Import cache_tools occupation_search.

(** [s.replace(' ', '_')]. *)
Fixpoint underscores (s : string) : string :=
  match s with
  | EmptyString => EmptyString
  | String c s' =>
      String (if Ascii.eqb c " "%char then "_"%char else c) (underscores s')
  end.

(** [RoleMapperAgent.run], with the cache file as the run leaves it. *)
Definition run (L : pylib) (fs : file) (now later : Z) (credentials : bool)
    (reply : api_reply) (job_title : string) : value * file :=
  let cache_key := "role_map_" +:+ underscores (lower job_title) in
  let cached := get_cached_skills L fs now cache_key 604800 in
  if truthy cached then (cached, fs)
  else
    let result := search_occupation credentials reply job_title in
    match has result "error" with
    | Ok false => (result, cache_skills_data L fs later cache_key result)
    | _ => (result, fs)
    end.

End role_mapper.

(** ** Occupation listings *)

Module listings.
Import careeronestop_tools occupation_search samples.

(** An occupation as the API lists it: a dict whose title is the str [t]
    and whose O*NET code is the str [c]. *)
Definition listed (t c : string) (o : value) : Prop :=
  exists d, o = VDict d /\
            assoc "OccupationTitle" d = Some (VStr t) /\
            assoc "OnetCode" d = Some (VStr c).

Definition well_listed (o : value) : Prop := exists t c, listed t c o.

Definition listing (t c : string) : value :=
  VDict [("OccupationTitle", VStr t); ("OnetCode", VStr c)].

(** [keyword in occ_title or keyword in occ_code] for a str code. *)
Definition hits (occ_title occ_code keyword : string) : bool :=
  contains keyword occ_title || contains keyword occ_code.

(** The entry of [priority_keywords] that decides for an occupation. *)
Definition decides (query_lower occ_title occ_code : string)
    (entry : string * list string) : bool :=
  contains (fst entry) query_lower &&
  existsb (hits occ_title occ_code) (snd entry).

(** The SOC code of a str O*NET code. *)
Definition soc_of (c : string) : value :=
  if String.eqb c "" then VNone else VStr (take_to "." c).

(** What the fallback answers for "Data Scientist", and the cache holding
    it under the key of that title. *)
Definition data_scientist_mapping : value :=
  occupation_dict (fuzzy_match_occupation "Data Scientist").

Definition role_map_cache : value :=
  VDict [("role_map_data_scientist", entry data_scientist_mapping)].

End listings.

(** ** tools/youtube_tools.py (the difficulty estimate) *)

Module youtube_difficulty.

(** [any(word in title_lower for word in words)]. *)
Definition any_word (words : list string) (title_lower : string) : bool :=
  existsb (fun word => contains word title_lower) words.

(** The default by user level, in the order of the dict literal. *)
Definition level_map : list (string * string) :=
  [ ("Student", "Beginner"); ("Junior", "Beginner");
    ("Mid", "Intermediate"); ("Senior", "Advanced") ].

Definition estimate_difficulty (title user_level : string) : string :=
  let title_lower := lower title in
  if any_word ["beginner"; "introduction"; "basics"; "101"; "crash course"]
       title_lower then "Beginner"
  else if any_word ["advanced"; "expert"; "mastery"; "deep dive"]
            title_lower then "Advanced"
  else if any_word ["intermediate"; "beyond basics"] title_lower
       then "Intermediate"
  else match assoc user_level level_map with
       | Some difficulty => difficulty
       | None => "Intermediate"
       end.

End youtube_difficulty.

(** ** Sample forecasts *)

Module forecasts.
Import cache_tools bls_tools samples.

(** Two tabulated years of the statistics API. *)
Definition two_years : bls_reply :=
  Tabulated [ {| year := 2024; employment := Some 202900;
                 change := None; growth_rate := None |};
              {| year := 2034; employment := Some 276000;
                 change := Some 73100; growth_rate := Some 36.0%float |} ].

(** What [fetch_job_projections] makes of them without an API key, the
    same dict with the ttl the agent adds, and the cache holding it. *)
Definition data_scientists_forecast : value :=
  match fetch_job_projections stated.tiny_lib "" two_years 2024
          "15-2051" "Data Scientists" with
  | Ok result => result
  | Raise _ => VNone
  end.

Definition stamped_forecast : value :=
  match setitem data_scientists_forecast "cache_ttl_seconds" (VInt 604800) with
  | Ok result => result
  | Raise _ => VNone
  end.

Definition forecast_cache : value :=
  VDict [("forecast_15-2051", entry stamped_forecast)].

(** The growth rate [fetch_from_occupational_outlook] picks for a SOC
    code. *)
Definition rate_of (soc_code : string) : float :=
  match find (fun entry => startswith soc_code (fst entry)) growth_rates with
  | Some (_, rate) => rate
  | None => 3.1%float
  end.

(** The employment the estimate gives for the year [i] years ahead. *)
Definition estimate (L : pylib) (rate : float) (i : Z) : result Z :=
  int_of_float (float_of_Z 750000 * float_pow L (1 + rate / 100) i)%float.

End forecasts.

(** ** Reading the required skills *)

Module required.
Import llm_analysis.

(** [req_skill['name']] and [req_skill['frequency']] of a required skill
    that has them. *)
Definition name_of (req_skill : value) : string :=
  match getitem req_skill "name" with
  | Ok (VStr name) => name
  | _ => EmptyString
  end.

Definition frequency_of (req_skill : value) : value :=
  match getitem req_skill "frequency" with
  | Ok frequency => frequency
  | Raise _ => VNone
  end.

(** The user has the skill, up to letter case. *)
Definition known (user_skills_lower : list string) (req_skill : value) : bool :=
  existsb (String.eqb (lower (name_of req_skill))) user_skills_lower.

(** The user lacks the skill and at least, or less than, 50% of the jobs
    ask for it. *)
Definition critical (user_skills_lower : list string) (req_skill : value)
  : bool :=
  negb (known user_skills_lower req_skill) &&
  match ge_int (frequency_of req_skill) 50 with
  | Ok b => b
  | Raise _ => false
  end.

Definition nice (user_skills_lower : list string) (req_skill : value)
  : bool :=
  negb (known user_skills_lower req_skill) &&
  match ge_int (frequency_of req_skill) 50 with
  | Ok b => negb b
  | Raise _ => false
  end.

Definition gap_of (req_skill : value) : string * value :=
  (name_of req_skill, frequency_of req_skill).

(** An answer of the language model with keys of its own for the job
    title and the method, and a library that reads it. *)
Definition forged_text : string := "{forged}".

Definition forged_answer : list (string * value) :=
  [ ("match_score", VInt 100);
    ("job_title", VStr "Astronaut");
    ("analysis_method", VStr "Human expert") ].

Definition forged_lib : pylib :=
  {| json_loads := fun s => if String.eqb s forged_text
                            then Some (VDict forged_answer) else None;
     json_dumps := fun _ => "{}";
     isoformat := fun _ => "2024-01-01T00:00:00";
     fromisoformat := fun _ => None;
     py_repr := fun _ => "";
     float_pow := fun x _ => x |}.

(** A user with two skills, four required skills, and what the basic
    keyword evaluation answers for them. *)
Definition two_skills : list value := [VStr "python"; VStr "SQL"].

Definition four_required : value :=
  VList [ VDict [("name", VStr "Python"); ("frequency", VInt 95)];
          VDict [("name", VStr "AWS"); ("frequency", VInt 80)];
          VDict [("name", VStr "Excel"); ("frequency", VInt 30)];
          VDict [("name", VStr "sql"); ("frequency", VInt 55)] ].

Definition keyword_evaluation : value :=
  match basic_skill_evaluation stated.tiny_lib two_skills four_required
          (VStr "Data Analyst") with
  | Ok result => result
  | Raise _ => VNone
  end.

End required.

(* ===================================================================== *)
(** * Part II: the properties                                              *)
(* ===================================================================== *)

(** ** The runtime on small inputs *)

Example lower_strip_example :
  strip (lower "  Senior Data Scientist ") = "senior data scientist".
Proof. vm_compute. reflexivity. Qed.

Example strip_chars_example :
  strip_chars "```" "```{}```" = "{}".
Proof. vm_compute. reflexivity. Qed.

Example contains_examples :
  map (fun p => contains (fst p) (snd p))
      [("sql", "postgresql"); ("", ""); ("go", "mongodb"); ("aws", "azure")]
  = [true; true; true; false].
Proof. vm_compute. reflexivity. Qed.

Example title_examples :
  map title ["data scientist"; "machine learning engineer's job"; "3d ARTIST"]
  = ["Data Scientist"; "Machine Learning Engineer'S Job"; "3D Artist"].
Proof. vm_compute. reflexivity. Qed.

Example extract_role_examples :
  map base._extract_role_from_query
      ["Find skills for data scientist for real"; " web developer "]
  = ["Data Scientist"; "Web Developer"].
Proof. vm_compute. reflexivity. Qed.

Example int_of_float_examples :
  map int_of_float
      [ (float_of_Z 29 / float_of_Z 100 * 100)%float;
        (float_of_Z 2 / float_of_Z 5 * 100)%float;
        (-2.5)%float; infinity ]
  = [Ok 28; Ok 40; Ok (-2); Raise OverflowError].
Proof. vm_compute. reflexivity. Qed.

Example search_braces_examples :
  map llm_analysis.search_braces ["abc {x: {y}} z } w"; "abc } {x "; "{}"]
  = [Some "{x: {y}} z }"; None; Some "{}"].
Proof. vm_compute. reflexivity. Qed.

Example priority_of_examples :
  map (fun p => evaluator_recommender.priority_of (fst p) (snd p))
      [ ("High growth", 10); ("High growth", 11); ("A future-safe role", 20);
        ("Future-safe", 21); ("Stable", 10); ("stable demand", 11);
        ("Declining", 1); ("Unknown", 1) ]
  = ["High"; "Medium"; "Medium"; "Low"; "Medium"; "Low"; "Low"; "Low"].
Proof. vm_compute. reflexivity. Qed.


(** ** Skill classification *)

Example classify_examples :
  map skill_extraction.classify_skill_type
      ["MySQL"; "Flask"; "AWS"; "Kanban"; "Docker"; "React"; "MongoDB"]
  = ["language"; "framework"; "cloud"; "concept"; "language"; "language";
     "language"].
Proof. vm_compute. reflexivity. Qed.

Section Classify.
Import skill_extraction.



End Classify.

(** ** Confidence from the sample size *)

Section Confidence.
Import base.

(** The four values of the schedule, in increasing order. *)
Lemma confidence_values_increase :
  PrimFloat.ltb 0.50 0.70 = true /\ PrimFloat.ltb 0.70 0.85 = true /\
  PrimFloat.ltb 0.85 0.95 = true.
Proof. repeat split; vm_compute; reflexivity. Qed.

(** C3.  For non-negative sample sizes the confidence is 0.95 from 100 up,
    0.85 from 50 to 99, 0.70 from 25 to 49 and 0.50 below 25, and it never
    decreases when the sample size grows. *)
Theorem calculate_confidence_schedule_monotone (m n : Z) :
  0 <= m -> m <= n ->
  (100 <= n -> _calculate_confidence n = 0.95%float) /\
  (50 <= n < 100 -> _calculate_confidence n = 0.85%float) /\
  (25 <= n < 50 -> _calculate_confidence n = 0.70%float) /\
  (n < 25 -> _calculate_confidence n = 0.50%float) /\
  PrimFloat.leb (_calculate_confidence m) (_calculate_confidence n) = true.
Proof.
  intros Hm Hmn. unfold _calculate_confidence.
  destruct (Z.leb_spec 100 n), (Z.leb_spec 50 n), (Z.leb_spec 25 n),
           (Z.leb_spec 100 m), (Z.leb_spec 50 m), (Z.leb_spec 25 m);
    try lia; repeat split; intros; try lia; try reflexivity.
Qed.

Lemma calculate_confidence_schedule_monotone_witness :
  (_calculate_confidence 60 = 0.85%float) /\
  PrimFloat.leb (_calculate_confidence 30) (_calculate_confidence 60) = true.
Proof.
  pose proof (calculate_confidence_schedule_monotone 30 60
                ltac:(lia) ltac:(lia)) as (_ & H50 & _ & _ & Hle).
  split; [apply H50; lia | exact Hle].
Defined.

Example calculate_confidence_boundaries :
  map _calculate_confidence [0; 24; 25; 49; 50; 99; 100; 5000]
  = [0.50; 0.50; 0.70; 0.70; 0.85; 0.85; 0.95; 0.95]%float.
Proof. vm_compute. reflexivity. Qed.

End Confidence.

(** ** The rules-based gap evaluator *)

Section RulesEvaluator.
Import llm_analysis evaluator_recommender stated.

(** A market skill whose lower-cased name is a resume name is never a
    gap. *)
Lemma gaps_from_skip_known names outlook items :
  forall rank gaps,
    gaps_from names outlook rank items = Ok gaps ->
    Forall (fun g => existsb (String.eqb (lower (skill g))) names = false) gaps.
Proof.
  induction items as [| s rest IH]; intros rank gaps H; cbn in H.
  - injection H as <-. constructor.
  - destruct (method_get s "name" VNone) as [name |]; cbn in H; [| discriminate].
    destruct (truthy name); cbn in H; [| eauto].
    destruct (as_str AttributeError name) as [nm |]; cbn in H; [| discriminate].
    destruct (existsb (String.eqb (lower nm)) names) eqn:Hknown; [eauto |].
    destruct (as_str AttributeError outlook) as [o |]; cbn in H; [| discriminate].
    destruct (gaps_from names outlook (rank + 1) rest) as [gs |] eqn:Hrest;
      cbn in H; [| discriminate].
    injection H as <-. constructor; [exact Hknown | eauto].
Qed.

(** Ranks are the positions in the market list, so they increase along
    [gap_analysis]. *)
Lemma gaps_from_ranks names outlook items :
  forall rank gaps,
    gaps_from names outlook rank items = Ok gaps ->
    Forall (fun g => rank <= market_rank g < rank + Z.of_nat (length items)) gaps.
Proof.
  induction items as [| s rest IH]; intros rank gaps H; cbn in H.
  - injection H as <-. constructor.
  - assert (Hweak : forall gs,
               Forall (fun g => rank + 1 <= market_rank g
                                < rank + 1 + Z.of_nat (length rest)) gs ->
               Forall (fun g => rank <= market_rank g
                                < rank + Z.of_nat (length (s :: rest))) gs).
    { intros gs Hgs. eapply Forall_impl; [exact Hgs |].
      cbn [length]. intros g Hg. cbn beta in Hg. lia. }
    destruct (method_get s "name" VNone) as [name |]; cbn in H; [| discriminate].
    destruct (truthy name); cbn in H; [| eauto].
    destruct (as_str AttributeError name) as [nm |]; cbn in H; [| discriminate].
    destruct (existsb (String.eqb (lower nm)) names); [eauto |].
    destruct (as_str AttributeError outlook) as [o |]; cbn in H; [| discriminate].
    destruct (gaps_from names outlook (rank + 1) rest) as [gs |] eqn:Hrest;
      cbn in H; [| discriminate].
    injection H as <-. constructor; [| eauto].
    cbn [market_rank length]. lia.
Qed.

(** C1.  On resume skills Python, Docker, SQL, market skills ranked Python,
    AWS, Kubernetes, Docker, CI/CD and outlook "High growth (Future-safe)"
    the rules engine reports exactly the gaps AWS (rank 2, High),
    Kubernetes (rank 3, High), CI/CD (rank 5, High), in that order, and the
    learning path AWS, Kubernetes, CI/CD; Python and Docker are left out
    because their lower-cased names are resume names. *)
Theorem rules_evaluator_sample :
  rules_evaluator sample_resume_skills sample_short_term_skills
                  sample_long_term_forecast
  = Ok (VDict
          [ ("role_outlook", VStr "High growth (Future-safe)");
            ("gap_analysis",
              VList (map gap_dict [ high_gap "AWS" 2;
                                    high_gap "Kubernetes" 3;
                                    high_gap "CI/CD" 5 ]));
            ("recommended_learning_path",
              VList [VStr "AWS"; VStr "Kubernetes"; VStr "CI/CD"]);
            ("estimated_time_weeks", VInt 12);
            ("confidence", VFloat 0.75) ])
  /\ (s ← iter sample_resume_skills;
      mapM (fun s => name ← method_get s "name" (VStr ""); method_lower name) s)
     = Ok ["python"; "docker"; "sql"]
  /\ existsb (String.eqb (lower "Python")) ["python"; "docker"; "sql"] = true
  /\ existsb (String.eqb (lower "Docker")) ["python"; "docker"; "sql"] = true.
Proof. repeat split; vm_compute; reflexivity. Qed.

End RulesEvaluator.

(** ** The occupation mapper's fallback table *)

Section FuzzyMatch.
Import careeronestop_tools.

Lemma find_first_match {A : Type} (p : A -> bool) (l : list A) (a : A) :
  find p l = Some a ->
  exists before after,
    l = before ++ a :: after /\ p a = true /\ forallb (fun x => negb (p x)) before = true.
Proof.
  induction l as [| x l IH]; cbn; [discriminate |].
  destruct (p x) eqn:Hx.
  - intros [= ->]. exists [], l. auto.
  - intros H. destruct (IH H) as (before & after & -> & Ha & Hb).
    exists (x :: before), after. cbn. rewrite Hx. auto.
Qed.

(** C6.  The fallback lookup against the local table.  [title_lower] is the
    lower-cased, stripped title.  (1) When it is a key of the table the
    result carries that entry's official title, SOC code and stored
    confidence.  (2) Otherwise, when some entry's key contains it or is
    contained in it, the result carries the first such entry of the table
    with its confidence minus 0.1.  (3) When no entry matches, the result
    is the title as given, no SOC code, confidence 0.3 and the note that
    recommends manual mapping. *)
Theorem fuzzy_match_occupation_cases (job_title : string) :
  let title_lower := strip (lower job_title) in
  (forall m,
      assoc title_lower common_mappings = Some m ->
      fuzzy_match_occupation job_title
      = {| official_title := m_title m;
           soc_code := Some (m_soc m);
           confidence := m_confidence m;
           notes := "Matched via fallback database (API unavailable)";
           data_source := "Local mapping" |}) /\
  (assoc title_lower common_mappings = None ->
   (exists entry, In entry common_mappings /\
                  (contains (fst entry) title_lower = true \/
                   contains title_lower (fst entry) = true)) ->
   exists key m before after,
     common_mappings = before ++ (key, m) :: after /\
     (contains key title_lower = true \/ contains title_lower key = true) /\
     forallb (fun e => negb (partial_match title_lower e)) before = true /\
     fuzzy_match_occupation job_title
     = {| official_title := m_title m;
          soc_code := Some (m_soc m);
          confidence := (m_confidence m - 0.1)%float;
          notes := "Partial match: '" +:+ job_title +:+ "' → '" +:+ key +:+ "'";
          data_source := "Local mapping" |}) /\
  (assoc title_lower common_mappings = None ->
   (forall entry, In entry common_mappings ->
                  contains (fst entry) title_lower = false /\
                  contains title_lower (fst entry) = false) ->
   fuzzy_match_occupation job_title
   = {| official_title := job_title;
        soc_code := None;
        confidence := 0.3%float;
        notes := "No match found. Manual mapping recommended.";
        data_source := "No match" |}).
Proof.
  intros title_lower. unfold fuzzy_match_occupation. fold title_lower.
  split; [| split].
  - intros m ->. reflexivity.
  - intros -> (entry & Hin & Hmatch).
    destruct (find (partial_match title_lower) common_mappings)
      as [[key m] |] eqn:Hfind.
    + destruct (find_first_match _ _ _ Hfind) as (before & after & Heq & Hp & Hb).
      exists key, m, before, after. repeat split; try assumption.
      unfold partial_match in Hp. cbn [fst] in Hp.
      apply orb_true_iff in Hp. exact Hp.
    + exfalso. pose proof (find_none _ _ Hfind entry Hin) as Hno.
      unfold partial_match in Hno. apply orb_false_iff in Hno.
      destruct Hno as [H1 H2], Hmatch as [H | H]; congruence.
  - intros -> Hnone.
    destruct (find (partial_match title_lower) common_mappings)
      as [[key m] |] eqn:Hfind; [| reflexivity].
    exfalso. apply find_some in Hfind. destruct Hfind as [Hin Hp].
    destruct (Hnone _ Hin) as [H1 H2]. unfold partial_match in Hp.
    cbn [fst] in *. rewrite H1, H2 in Hp. discriminate.
Qed.

Example fuzzy_match_exact :
  fuzzy_match_occupation "Web Developer"
  = {| official_title := "Web Developers"; soc_code := Some "15-1254";
       confidence := 0.90%float;
       notes := "Matched via fallback database (API unavailable)";
       data_source := "Local mapping" |}.
Proof. vm_compute. reflexivity. Qed.

Example fuzzy_match_partial :
  fuzzy_match_occupation " Senior Data Scientist "
  = {| official_title := "Data Scientists"; soc_code := Some "15-2051";
       confidence := (0.85 - 0.1)%float;
       notes := "Partial match: ' Senior Data Scientist ' → 'data scientist'";
       data_source := "Local mapping" |}.
Proof. vm_compute. reflexivity. Qed.

Example fuzzy_match_none :
  fuzzy_match_occupation "Plumber"
  = {| official_title := "Plumber"; soc_code := None;
       confidence := 0.3%float;
       notes := "No match found. Manual mapping recommended.";
       data_source := "No match" |}.
Proof. vm_compute. reflexivity. Qed.

(** The penalty lowers every stored confidence of the table. *)
Example penalty_lowers_confidence :
  forallb (fun e => PrimFloat.ltb (m_confidence (snd e) - 0.1) (m_confidence (snd e)))
          common_mappings = true.
Proof. vm_compute. reflexivity. Qed.

End FuzzyMatch.

(** ** The video filter *)

Section FilterResources.
Import youtube_tools stated.

Lemma keeps_iff (now : Z) (r : resource) :
  keeps now r = true <-> age now r <= five_years /\ 50000 <= views r.
Proof.
  unfold keeps, age, five_years.
  destruct (Z.leb_spec (now - days (365 * 5)) (strptime (upload_date r))),
           (Z.leb_spec 100000 (views r)), (Z.leb_spec 50000 (views r));
    cbn; split; intros; try discriminate; try reflexivity; lia.
Qed.

Lemma keeps_stated_policy (now : Z) (r : resource) :
  age now r <> five_years -> keeps now r = stated_policy now r.
Proof.
  intros Hne. unfold keeps, stated_policy.
  fold (age now r). unfold age, five_years in *.
  destruct (Z.leb_spec (now - days (365 * 5)) (strptime (upload_date r))),
           (Z.ltb_spec (now - strptime (upload_date r)) (days (365 * 5))),
           (Z.leb_spec 100000 (views r)), (Z.leb_spec 50000 (views r));
    cbn; try reflexivity; lia.
Qed.

(** C7, as the specification words it, fails at the boundary: at
    2024-10-04 00:00:00 a video uploaded on 2019-10-06, so aged exactly
    5 * 365 days, with 100,000 views, is kept although its age is not
    strictly below five years. *)
Lemma filter_resources_keeps_exact_five_years :
  filter_resources midnight [boundary_video] "Junior" = [boundary_video] /\
  age midnight boundary_video = five_years /\
  stated_policy midnight boundary_video = false.
Proof. repeat split; vm_compute; reflexivity. Qed.

(** C7, amended.  The filter keeps a candidate exactly when its age is at
    most 5 * 365 days (the bound included) and it has at least 50,000
    views; away from the bound itself this is the stated policy.  A
    candidate with 80,000 views in its third year is kept; one in its
    seventh year is dropped with 80,000 views and with 200,000 views
    alike. *)
Theorem filter_resources_policy :
  (forall now resources user_level r,
      In r (filter_resources now resources user_level) <->
      In r resources /\ age now r <= five_years /\ 50000 <= views r) /\
  (forall now r, age now r <> five_years -> keeps now r = stated_policy now r) /\
  (forall now r, days (2 * 365) <= age now r < days (3 * 365) ->
                 views r = 80000 -> keeps now r = true) /\
  (forall now r, days (6 * 365) <= age now r < days (7 * 365) ->
                 views r = 80000 -> keeps now r = false) /\
  (forall now r, days (6 * 365) <= age now r < days (7 * 365) ->
                 views r = 200000 -> keeps now r = false).
Proof.
  split; [| split; [| split; [| split]]].
  - intros now resources user_level r. unfold filter_resources.
    rewrite filter_In, keeps_iff. reflexivity.
  - exact keeps_stated_policy.
  - intros now r Hage Hviews. apply keeps_iff.
    rewrite Hviews. unfold five_years, days in *. lia.
  - intros now r Hage Hviews. apply not_true_is_false.
    rewrite keeps_iff. unfold five_years, days in *. lia.
  - intros now r Hage Hviews. apply not_true_is_false.
    rewrite keeps_iff. unfold five_years, days in *. lia.
Qed.

(** The three candidates the specification lists, at 14:30 of day 20000. *)
Example filter_resources_three_candidates :
  let now := days 20000 + seconds (14 * 3600 + 30 * 60) in
  filter_resources now
    [ candidate 80000 (20000 - 2 * 365);
      candidate 80000 (20000 - 6 * 365);
      candidate 200000 (20000 - 6 * 365) ] "Junior"
  = [candidate 80000 (20000 - 2 * 365)].
Proof. vm_compute. reflexivity. Qed.

(** Ranking: by views, largest first, equal counts in their given order. *)
Example sorted_by_views_stable :
  map (fun r => (views r, upload_date r))
      (sorted_by_views [ candidate 70000 1; candidate 90000 2;
                         candidate 70000 3; candidate 90000 4 ])
  = [(90000, 2); (90000, 4); (70000, 1); (70000, 3)].
Proof. vm_compute. reflexivity. Qed.

End FilterResources.

(** ** The SQLite cache *)

Section CacheDb.
Import cache_db stated.

(** The range of [timedelta(seconds=n)]. *)
Lemma timedelta_in_range (n : Z) :
  -86399999913600 <= n <= 86399999999999 ->
  timedelta n = Ok (seconds n).
Proof.
  intros Hn. unfold timedelta.
  pose proof (Z.div_mod n 86400 ltac:(lia)) as Hdiv.
  pose proof (Z.mod_pos_bound n 86400 ltac:(lia)) as Hmod.
  destruct (Z.leb_spec (-999999999) (n / 86400)) as [_ | Hlo];
    [| exfalso; lia].
  destruct (Z.leb_spec (n / 86400) 999999999) as [_ | Hhi];
    [reflexivity | exfalso; lia].
Qed.

Lemma timedelta_out_of_range (n : Z) :
  n < -86399999913600 \/ 86399999999999 < n ->
  timedelta n = Raise OverflowError.
Proof.
  intros Hn. unfold timedelta.
  pose proof (Z.div_mod n 86400 ltac:(lia)) as Hdiv.
  pose proof (Z.mod_pos_bound n 86400 ltac:(lia)) as Hmod.
  destruct (Z.leb_spec (-999999999) (n / 86400)) as [Hlo | _];
    [| reflexivity].
  destruct (Z.leb_spec (n / 86400) 999999999) as [Hhi | _];
    [exfalso; lia | reflexivity].
Qed.

(** A ttl of 64 bits is written; any other is refused and the table is
    left as it was. *)
Lemma set_in_cache_written (L : pylib) (db : gmap string row) (k : string)
    (v : value) (ttl t0 : Z) :
  - 2 ^ 63 <= ttl < 2 ^ 63 ->
  set_in_cache L db t0 k v ttl
  = (Ok tt,
     <[k := {| value_ := json_dumps L v;
               timestamp := isoformat L t0;
               ttl_seconds := ttl |}]> db).
Proof.
  intros [Hlo Hhi]. unfold set_in_cache.
  destruct (Z.leb_spec (- 2 ^ 63) ttl); [| lia].
  destruct (Z.ltb_spec ttl (2 ^ 63)); [reflexivity | lia].
Qed.

Lemma set_in_cache_refused (L : pylib) (db : gmap string row) (k : string)
    (v : value) (ttl t0 : Z) :
  ttl < - 2 ^ 63 \/ 2 ^ 63 <= ttl ->
  set_in_cache L db t0 k v ttl = (Raise OverflowError, db).
Proof.
  intros Hout. unfold set_in_cache.
  destruct (Z.leb_spec (- 2 ^ 63) ttl); [| reflexivity].
  destruct (Z.ltb_spec ttl (2 ^ 63)); [lia | reflexivity].
Qed.

(** C4, as the specification words it, fails: a positive ttl of 10^14
    seconds is stored, and the read that follows at once raises
    [OverflowError] instead of returning the value. *)
Lemma cache_round_trip_overflows :
  0 < 100000000000000 /\
  new_year_2024 - new_year_2024 <= seconds 100000000000000 /\
  fst (set_in_cache tiny_lib ∅ new_year_2024 "skills:data scientist"
         (VBool true) 100000000000000) = Ok tt /\
  get_from_cache tiny_lib
    (snd (set_in_cache tiny_lib ∅ new_year_2024 "skills:data scientist"
            (VBool true) 100000000000000))
    new_year_2024 "skills:data scientist" = Raise OverflowError.
Proof.
  split; [lia |]. split; [unfold seconds; lia |].
  split; vm_compute; reflexivity.
Qed.

(** C4, amended.  After [set_in_cache] of [v] under [k] at instant [t0]
    with a positive [ttl] of at most 86399999999999 seconds, the longest
    a timedelta holds, [get_from_cache] of [k] returns [v] unchanged at
    every instant whose distance to [t0] is at most [ttl] seconds and
    [None] at every instant further away, provided [v] survives the JSON
    round trip and [t0] the ISO-format round trip, as JSON values and
    naive datetimes do.  A longer ttl of 64 bits is stored, and every read
    of [k] then raises [OverflowError]; a ttl beyond 64 bits is refused
    by the write with [OverflowError], and the table stays as it was. *)
Theorem cache_round_trip (L : pylib) (db : gmap string row) (k : string)
    (v : value) (ttl t0 now : Z) :
  0 < ttl ->
  json_loads L (json_dumps L v) = Some v ->
  fromisoformat L (isoformat L t0) = Some (Naive t0) ->
  (ttl <= 86399999999999 ->
   fst (set_in_cache L db t0 k v ttl) = Ok tt /\
   (now - t0 <= seconds ttl ->
    get_from_cache L (snd (set_in_cache L db t0 k v ttl)) now k = Ok v) /\
   (seconds ttl < now - t0 ->
    get_from_cache L (snd (set_in_cache L db t0 k v ttl)) now k = Ok VNone)) /\
  (86399999999999 < ttl < 2 ^ 63 ->
   fst (set_in_cache L db t0 k v ttl) = Ok tt /\
   get_from_cache L (snd (set_in_cache L db t0 k v ttl)) now k
   = Raise OverflowError) /\
  (2 ^ 63 <= ttl ->
   set_in_cache L db t0 k v ttl = (Raise OverflowError, db)).
Proof.
  intros Httl Hjson Hiso.
  assert (Hread : - 2 ^ 63 <= ttl < 2 ^ 63 ->
            get_from_cache L (snd (set_in_cache L db t0 k v ttl)) now k
            = (limit ← timedelta ttl;
               if limit <? now - t0 then Ok VNone else Ok v)).
  { intros Hbits. rewrite set_in_cache_written by exact Hbits.
    unfold get_from_cache. cbn [snd]. rewrite lookup_insert_eq.
    cbn [timestamp ttl_seconds value_]. rewrite Hiso.
    cbn [mbind result_bind bind elapsed]. rewrite Hjson.
    destruct (timedelta ttl) as [limit |]; cbn [mbind result_bind bind];
      [| reflexivity].
    destruct (limit <? now - t0); reflexivity. }
  split; [| split].
  - intros Hmax.
    assert (Hbits : - 2 ^ 63 <= ttl < 2 ^ 63) by lia.
    rewrite Hread by exact Hbits.
    rewrite set_in_cache_written by exact Hbits.
    rewrite timedelta_in_range by lia. cbn [mbind result_bind bind fst].
    split; [reflexivity |]. split; intros Hage.
    + destruct (Z.ltb_spec (seconds ttl) (now - t0)); [lia | reflexivity].
    + destruct (Z.ltb_spec (seconds ttl) (now - t0)); [reflexivity | lia].
  - intros Hlong.
    assert (Hbits : - 2 ^ 63 <= ttl < 2 ^ 63) by lia.
    rewrite Hread by exact Hbits.
    rewrite set_in_cache_written by exact Hbits.
    rewrite timedelta_out_of_range by lia. split; reflexivity.
  - intros Hbig. apply set_in_cache_refused. right. exact Hbig.
Qed.

Lemma cache_round_trip_witness :
  fst (set_in_cache tiny_lib ∅ new_year_2024 "skills:data scientist"
         (VBool true) 86400) = Ok tt /\
  get_from_cache tiny_lib
    (snd (set_in_cache tiny_lib ∅ new_year_2024 "skills:data scientist"
            (VBool true) 86400))
    (new_year_2024 + seconds 86400) "skills:data scientist" = Ok (VBool true) /\
  get_from_cache tiny_lib
    (snd (set_in_cache tiny_lib ∅ new_year_2024 "skills:data scientist"
            (VBool true) 86400))
    (new_year_2024 + seconds 86400 + 1) "skills:data scientist" = Ok VNone.
Proof.
  assert (Hpos : 0 < 86400) by lia.
  assert (Hmax : 86400 <= 86399999999999) by lia.
  split; [| split].
  - apply (proj1 (cache_round_trip tiny_lib ∅ "skills:data scientist"
                    (VBool true) 86400 new_year_2024 new_year_2024
                    Hpos eq_refl eq_refl) Hmax).
  - apply (proj1 (cache_round_trip tiny_lib ∅ "skills:data scientist"
                    (VBool true) 86400 new_year_2024
                    (new_year_2024 + seconds 86400)
                    Hpos eq_refl eq_refl) Hmax).
    lia.
  - apply (proj1 (cache_round_trip tiny_lib ∅ "skills:data scientist"
                    (VBool true) 86400 new_year_2024
                    (new_year_2024 + seconds 86400 + 1)
                    Hpos eq_refl eq_refl) Hmax).
    lia.
Defined.

(** A later [set_in_cache] that is written replaces the entry and restarts
    its age, whether or not the earlier one was written. *)
Lemma set_in_cache_overwrites (L : pylib) (db : gmap string row) (k : string)
    (v v' : value) (ttl ttl' t0 t1 : Z) :
  - 2 ^ 63 <= ttl' < 2 ^ 63 ->
  snd (set_in_cache L (snd (set_in_cache L db t0 k v ttl)) t1 k v' ttl')
  = snd (set_in_cache L db t1 k v' ttl').
Proof.
  intros Hbits. rewrite !(set_in_cache_written L _ k v' ttl' t1) by exact Hbits.
  cbn [snd]. unfold set_in_cache.
  destruct ((- 2 ^ 63 <=? ttl) && (ttl <? 2 ^ 63)); cbn [snd];
    [apply insert_insert_eq | reflexivity].
Qed.

(** Other keys are left alone. *)
Lemma set_in_cache_other (L : pylib) (db : gmap string row) (k k' : string)
    (v : value) (ttl t0 now : Z) :
  k <> k' ->
  get_from_cache L (snd (set_in_cache L db t0 k v ttl)) now k'
  = get_from_cache L db now k'.
Proof.
  intros Hne. unfold get_from_cache, set_in_cache.
  destruct ((- 2 ^ 63 <=? ttl) && (ttl <? 2 ^ 63)); cbn [snd];
    [| reflexivity].
  rewrite lookup_insert_ne by exact Hne. reflexivity.
Qed.

End CacheDb.

(** ** The JSON file cache *)

Section CacheTools.
Import cache_tools.

(** C9.  [get_cached_skills] returns a value for every role, ttl, clock
    and state of the cache file, and that value is [None] when the file is
    missing, when it cannot be read, when it does not hold JSON, when the
    role is not in it, and when the entry's timestamp is missing or
    malformed: every exception of the lookup ends as [None]. *)
Theorem get_cached_skills_total (L : pylib) (fs : file) (now : Z)
    (role : string) (ttl_seconds : Z) :
  (get_cached_skills L fs now role ttl_seconds
   = match fs with
     | Absent => VNone
     | _ => match lookup_fresh L fs now role ttl_seconds with
            | Ok v => v
            | Raise _ => VNone
            end
     end) /\
  (fs = Absent -> get_cached_skills L fs now role ttl_seconds = VNone) /\
  (fs = Unreadable -> get_cached_skills L fs now role ttl_seconds = VNone) /\
  (forall text,
      fs = Content text -> json_loads L text = None ->
      get_cached_skills L fs now role ttl_seconds = VNone) /\
  (forall text cache,
      fs = Content text -> json_loads L text = Some cache ->
      has cache role <> Ok true ->
      get_cached_skills L fs now role ttl_seconds = VNone) /\
  (forall text cache entry,
      fs = Content text -> json_loads L text = Some cache ->
      getitem cache role = Ok entry ->
      (forall t, (stamp ← getitem entry "timestamp"; parse_timestamp L stamp)
                 <> Ok (Naive t)) ->
      get_cached_skills L fs now role ttl_seconds = VNone).
Proof.
  split; [reflexivity |].
  split; [intros ->; reflexivity |].
  split; [intros ->; reflexivity |].
  split; [| split].
  - intros text -> Hjson. cbn. rewrite Hjson. reflexivity.
  - intros text cache -> Hjson Hhas. cbn. rewrite Hjson. cbn.
    destruct (has cache role) as [[|] |]; cbn; [congruence | reflexivity ..].
  - intros text cache entry -> Hjson Hentry Hstamp. cbn. rewrite Hjson. cbn.
    destruct (has cache role) as [[|] |]; cbn; [| reflexivity ..].
    rewrite Hentry. cbn.
    destruct (getitem entry "timestamp") as [stamp |]; cbn in *; [| reflexivity].
    destruct (parse_timestamp L stamp) as [[t | t] |]; cbn; try reflexivity.
    destruct (Hstamp t). reflexivity.
Qed.

(** A valid entry is returned as stored while it is fresh. *)
Lemma get_cached_skills_fresh (L : pylib) (now : Z) (role text : string)
    (ttl_seconds t : Z) (cache entry stamp data : value) :
  json_loads L text = Some cache ->
  has cache role = Ok true ->
  getitem cache role = Ok entry ->
  getitem entry "timestamp" = Ok stamp ->
  parse_timestamp L stamp = Ok (Naive t) ->
  getitem entry "data" = Ok data ->
  -86399999913600 <= ttl_seconds <= 86399999999999 ->
  get_cached_skills L (Content text) now role ttl_seconds
  = if seconds ttl_seconds <? now - t then VNone else data.
Proof.
  intros Hjson Hhas Hentry Hstamp Htime Hdata Httl.
  unfold get_cached_skills, lookup_fresh, json_load. cbn.
  rewrite Hjson. cbn. rewrite Hhas. cbn. rewrite Hentry. cbn.
  rewrite Hstamp. cbn. rewrite Htime. cbn.
  rewrite (timedelta_in_range _ Httl). cbn.
  destruct (seconds ttl_seconds <? now - t); [reflexivity |].
  rewrite Hdata. reflexivity.
Qed.

Example get_cached_skills_examples :
  let day := seconds 86400 in
  let hit := VDict [("role", VStr "Data Scientist")] in
  map (fun q => get_cached_skills stated.cache_lib (fst (fst q))
                  (stated.new_year_2024 + snd (fst q)) (snd q) 86400)
      [ (Absent, 0, "Data Scientist");
        (Unreadable, 0, "Data Scientist");
        (Content "not json", 0, "Data Scientist");
        (Content stated.cache_text, 0, "Web Developer");
        (Content stated.cache_text, 0, "Plumber");
        (Content stated.cache_text, day, "Data Scientist");
        (Content stated.cache_text, day + 1, "Data Scientist") ]
  = [VNone; VNone; VNone; VNone; VNone; hit; VNone].
Proof. vm_compute. reflexivity. Qed.

End CacheTools.

(** ** The short-term skills run *)

Section ShortTermSkills.
Import llm_analysis cache_tools base stated.

(** C8, as the specification words it, fails: the run returns the skills in
    the order and with the frequencies the analysis gave them.  Here the
    analysis lists Excel (2%) before Python (90%); both come back, in that
    order. *)
Lemma run_returns_unranked_skills :
  fst (run reading_lib Absent midnight midnight "skills for data analyst"
           three_postings (LlmText unranked_text))
  = Ok (VDict [ ("role", VStr "Data Analyst");
                ("top_skills", VList unranked_skills);
                ("data_source", VStr "Adzuna (90d, 3 jobs)");
                ("confidence", VFloat 0.50);
                ("cache_ttl_seconds", VInt 86400) ]) /\
  stated_ranking 5 unranked_skills = false /\
  forallb (fun s => 5 <=? int_field "frequency" s) unranked_skills = false /\
  in_rank_order unranked_skills = false.
Proof. repeat split; vm_compute; reflexivity. Qed.

(** C8, amended.  A result the run computes (no valid cache entry, some job
    postings) lists under [top_skills] the first 20 entries of the skills
    list of the analysis, in the order the analysis gave them; so it holds
    at most 20 skills. *)
Theorem run_top_skills_prefix (L : pylib) (fs : file) (now later : Z)
    (query : string) (job_descriptions : list string) (reply : llm_reply)
    (result : value) :
  truthy (get_cached_skills L fs now (_extract_role_from_query query) 86400)
  = false ->
  job_descriptions <> [] ->
  fst (run L fs now later query job_descriptions reply) = Ok result ->
  exists skills_data skills top_skills,
    skills_data_of L (analyze_skills_with_gemini reply) = Ok skills_data /\
    method_get skills_data "skills" (VList []) = Ok skills /\
    slice_to 20 skills = Ok top_skills /\
    getitem result "top_skills" = Ok top_skills /\
    (forall l, skills = VList l ->
               top_skills = VList (firstn 20 l) /\
               (length (firstn 20 l) <= 20)%nat).
Proof.
  intros Hmiss Hjobs Hrun. unfold run in Hrun. rewrite Hmiss in Hrun.
  destruct job_descriptions as [| job jobs]; [congruence |].
  destruct (skills_data_of L (analyze_skills_with_gemini reply))
    as [skills_data |] eqn:Hdata; cbn in Hrun; [| discriminate].
  unfold build_result in Hrun.
  destruct (method_get skills_data "skills" (VList [])) as [skills |] eqn:Hskills;
    cbn in Hrun; [| discriminate].
  destruct (slice_to 20 skills) as [top_skills |] eqn:Htop;
    cbn in Hrun; [| discriminate].
  injection Hrun as <-.
  exists skills_data, skills, top_skills.
  repeat split; try assumption; try reflexivity.
  - subst skills. cbn in Htop. congruence.
  - apply firstn_le_length.
Qed.

Lemma run_top_skills_prefix_witness :
  exists skills_data skills top_skills,
    skills_data_of reading_lib (analyze_skills_with_gemini (LlmText unranked_text))
    = Ok skills_data /\
    method_get skills_data "skills" (VList []) = Ok skills /\
    slice_to 20 skills = Ok top_skills /\
    getitem (VDict [ ("role", VStr "Data Analyst");
                     ("top_skills", VList unranked_skills);
                     ("data_source", VStr "Adzuna (90d, 3 jobs)");
                     ("confidence", VFloat 0.50);
                     ("cache_ttl_seconds", VInt 86400) ]) "top_skills"
    = Ok top_skills /\
    (forall l, skills = VList l ->
               top_skills = VList (firstn 20 l) /\
               (length (firstn 20 l) <= 20)%nat).
Proof.
  apply (run_top_skills_prefix reading_lib Absent midnight midnight
           "skills for data analyst" three_postings (LlmText unranked_text)).
  - reflexivity.
  - discriminate.
  - vm_compute. reflexivity.
Defined.

End ShortTermSkills.

(** ** The long-term forecast run *)

Section LongTermForecast.
Import cache_tools bls_tools long_term_forecast_agent.

(** Setting one key leaves the others as they were. *)
Lemma assoc_set_other {A : Type} (k k' : string) (x : A) (d : list (string * A)) :
  k <> k' -> assoc k (assoc_set k' x d) = assoc k d.
Proof.
  intros Hne. induction d as [| [k0 v0] d IH]; cbn.
  - destruct (String.eqb_spec k k'); [congruence | reflexivity].
  - destruct (String.eqb_spec k' k0) as [<- | Hk0]; cbn.
    + destruct (String.eqb_spec k k'); [congruence | reflexivity].
    + destruct (String.eqb_spec k k0); [reflexivity | exact IH].
Qed.

Lemma assoc_set_same {A : Type} (k : string) (x : A) (d : list (string * A)) :
  assoc k (assoc_set k x d) = Some x.
Proof.
  induction d as [| [k0 v0] d IH]; cbn.
  - rewrite String.eqb_refl. reflexivity.
  - destruct (String.eqb_spec k k0) as [<- | Hk0]; cbn.
    + rewrite String.eqb_refl. reflexivity.
    + destruct (String.eqb_spec k k0); [congruence | exact IH].
Qed.

(** No dict [fetch_job_projections] returns has an 'error',
    'growth_percent' or 'category' key. *)
Lemma fetch_job_projections_keys (L : pylib) (api_key : string)
    (reply : bls_reply) (current_year : Z) (soc_code job_title : string)
    (result : value) :
  fetch_job_projections L api_key reply current_year soc_code job_title
  = Ok result ->
  exists d, result = VDict d /\ assoc "error" d = None /\
            assoc "growth_percent" d = None /\ assoc "category" d = None /\
            assoc "cache_ttl_seconds" d = None.
Proof.
  unfold fetch_job_projections, fetch_from_occupational_outlook.
  destruct (project L current_year _ None (map Z.of_nat (seq 0 11)))
    as [projections |];
    destruct (negb (String.eqb api_key "")), reply; cbn;
    intros [= <-]; eexists; repeat split; reflexivity.
Qed.

(** C5 on the code.  With no cached forecast, whatever the statistics API
    answers: the dict [fetch_job_projections] returns has neither a
    'growth_percent' nor a 'category' key, and [run], after caching it,
    raises [KeyError] where it prints the growth; when
    [fetch_job_projections] raises, so does [run].  No forecast result with
    a category comes out of the run. *)
Theorem forecast_run_has_no_category (L : pylib) (now later : Z)
    (api_key : string) (reply : bls_reply) (current_year : Z)
    (soc_code job_title : string) :
  match fetch_job_projections L api_key reply current_year soc_code job_title with
  | Ok result =>
      getitem result "growth_percent" = Raise (KeyError "growth_percent") /\
      getitem result "category" = Raise (KeyError "category") /\
      fst (run L Absent now later api_key reply current_year soc_code job_title)
      = Raise (KeyError "growth_percent")
  | Raise e =>
      fst (run L Absent now later api_key reply current_year soc_code job_title)
      = Raise e
  end.
Proof.
  unfold run. cbn [get_cached_skills truthy].
  destruct (fetch_job_projections L api_key reply current_year soc_code job_title)
    as [result | e] eqn:Hfetch; [| reflexivity].
  destruct (fetch_job_projections_keys _ _ _ _ _ _ _ Hfetch)
    as (d & -> & Herror & Hgrowth & Hcategory & Httl).
  cbn. rewrite Herror, Hgrowth, Hcategory. cbn.
  repeat split; try reflexivity.
  rewrite (assoc_set_other "growth_percent") by discriminate.
  rewrite Hgrowth. reflexivity.
Qed.

(** The run on the agent's own test input, the statistics API answering
    with two tabulated years. *)
Example forecast_run_data_scientists :
  fst (run stated.tiny_lib Absent stated.midnight stated.midnight ""
         (Tabulated [ {| year := 2024; employment := Some 202900;
                         change := None; growth_rate := None |};
                      {| year := 2034; employment := Some 276000;
                         change := None; growth_rate := Some 36.03%float |} ])
         2024 "15-2051" "Data Scientists")
  = Raise (KeyError "growth_percent").
Proof. vm_compute. reflexivity. Qed.

End LongTermForecast.

(** ** The evaluator: language model first, rules engine as fallback *)

Section Evaluator.
Import llm_analysis evaluator_recommender stated.








(** The other branch of C2, amended: with the language model failing, a
    market skill without a frequency makes the basic keyword evaluation
    raise too, and the caller gets the rules engine's result. *)
Example run_without_frequency_gets_rules :
  basic_skill_evaluation tiny_lib [VStr "Python"]
    (VList [VDict [("name", VStr "AWS")]]) (VStr "")
  = Raise (KeyError "frequency") /\
  exists r,
    run tiny_lib LlmFails
      (VDict [ ("resume_skills", VList [VDict [("name", VStr "Python")]]);
               ("short_term_skills", VList [VDict [("name", VStr "AWS")]]) ])
    = Ok r /\
    keys r = rules_shape.
Proof.
  split; [vm_compute; reflexivity |].
  eexists. split; vm_compute; reflexivity.
Qed.

End Evaluator.

(** ** The rules engine on every input *)

Section RulesEngine.
Import llm_analysis evaluator_recommender shapes.

Lemma chars_take_length (n : nat) (s : string) :
  (length (chars (string_take n s)) <= n)%nat.
Proof.
  revert s. induction n as [| n IH]; intros [| c s]; cbn; try lia.
  specialize (IH s). lia.
Qed.

Lemma slice_iter_length (n : nat) (v v' : value) (items : list value) :
  slice_to n v = Ok v' -> iter v' = Ok items -> (length items <= n)%nat.
Proof.
  destruct v; cbn; try discriminate; intros [= <-]; cbn; intros [= <-].
  - apply chars_take_length.
  - rewrite length_take. lia.
Qed.

(** What a successful run of the rules engine went through. *)
Lemma rules_evaluator_inv (resume_skills short_term_skills long_term_forecast
    r : value) :
  rules_evaluator resume_skills short_term_skills long_term_forecast = Ok r ->
  exists resume names outlook items gaps,
    iter resume_skills = Ok resume /\
    mapM (fun s => name ← method_get s "name" (VStr ""); method_lower name) resume
    = Ok names /\
    method_get long_term_forecast "category" (VStr "Unknown") = Ok outlook /\
    (length items <= 20)%nat /\
    (forall l, short_term_skills = VList l -> items = firstn 20 l) /\
    gaps_from names outlook 1 items = Ok gaps /\
    r = VDict
          [ ("role_outlook", outlook);
            ("gap_analysis", VList (map gap_dict gaps));
            ("recommended_learning_path",
              VList (map (fun g => VStr (skill g)) (firstn 5 (sorted_gaps gaps))));
            ("estimated_time_weeks", VInt 12);
            ("confidence",
              VFloat match gaps with [] => 0.4%float | _ => 0.75%float end) ].
Proof.
  unfold rules_evaluator. intros H.
  destruct (iter resume_skills) as [resume |] eqn:Hresume; cbn in H; [| discriminate].
  destruct (mapM _ resume) as [names |] eqn:Hnames; cbn in H; [| discriminate].
  destruct (if truthy short_term_skills then slice_to 20 short_term_skills
            else Ok (VList [])) as [top |] eqn:Htop; cbn in H; [| discriminate].
  destruct (method_get long_term_forecast "category" (VStr "Unknown"))
    as [outlook |] eqn:Houtlook; cbn in H; [| discriminate].
  destruct (slice_to 20 top) as [top20 |] eqn:Htop20; cbn in H; [| discriminate].
  destruct (iter top20) as [items |] eqn:Hitems; cbn in H; [| discriminate].
  destruct (gaps_from names outlook 1 items) as [gaps |] eqn:Hgaps;
    cbn in H; [| discriminate].
  injection H as <-.
  exists resume, names, outlook, items, gaps.
  repeat split; try assumption; try reflexivity.
  - exact (slice_iter_length _ _ _ _ Htop20 Hitems).
  - intros l ->. assert (top = VList (firstn 20 l)) as ->.
    { destruct l; cbn [truthy] in Htop; unfold slice_to in Htop;
        rewrite ?firstn_nil; congruence. }
    unfold slice_to in Htop20. injection Htop20 as <-.
    unfold iter in Hitems. injection Hitems as <-.
    apply firstn_firstn.
Qed.


Lemma existsb_eqb_In (x : string) (l : list string) :
  existsb (String.eqb x) l = true <-> In x l.
Proof.
  rewrite existsb_exists. split.
  - intros (y & Hy & Heq). apply String.eqb_eq in Heq. congruence.
  - intros Hin. exists x. split; [exact Hin | apply String.eqb_refl].
Qed.

(** Every gap comes from a market skill: its rank is the skill's position,
    its name is that skill's non-empty str name, and the lower-cased name
    is not a resume name. *)
Lemma gaps_from_sound names outlook items :
  forall rank gaps,
    gaps_from names outlook rank items = Ok gaps ->
    Forall (fun g => exists i s,
                nth_error items i = Some s /\
                market_rank g = rank + Z.of_nat i /\
                method_get s "name" VNone = Ok (VStr (skill g)) /\
                skill g <> "" /\
                ~ In (lower (skill g)) names) gaps.
Proof.
  induction items as [| s rest IH]; intros rank gaps H; cbn in H.
  - injection H as <-. constructor.
  - assert (Hshift : forall gs,
               gaps_from names outlook (rank + 1) rest = Ok gs ->
               Forall (fun g => exists i s0,
                           nth_error (s :: rest) i = Some s0 /\
                           market_rank g = rank + Z.of_nat i /\
                           method_get s0 "name" VNone = Ok (VStr (skill g)) /\
                           skill g <> "" /\
                           ~ In (lower (skill g)) names) gs).
    { intros gs Hgs. eapply Forall_impl; [exact (IH _ _ Hgs) |].
      intros g (i & s0 & Hnth & Hrank & Hrest). exists (S i), s0.
      split; [exact Hnth |]. split; [lia | exact Hrest]. }
    destruct (method_get s "name" VNone) as [name |] eqn:Hname; cbn in H;
      [| discriminate].
    destruct (truthy name) eqn:Htruthy; cbn in H; [| eauto].
    destruct name as [| | | | nm | |]; cbn in H; try discriminate.
    destruct (existsb (String.eqb (lower nm)) names) eqn:Hknown; [eauto |].
    destruct (as_str AttributeError outlook) as [o |]; cbn in H; [| discriminate].
    destruct (gaps_from names outlook (rank + 1) rest) as [gs |] eqn:Hrest;
      cbn in H; [| discriminate].
    injection H as <-. constructor; [| eauto].
    exists 0%nat, s. cbn [nth_error skill market_rank].
    split; [reflexivity |]. split; [lia |]. split; [exact Hname |]. split.
    + intros ->. discriminate.
    + rewrite <- existsb_eqb_In, Hknown. discriminate.
Qed.

(** Every market skill with a non-empty str name that is not a resume name
    becomes a gap, ranked by its position. *)
Lemma gaps_from_complete names outlook items :
  forall rank gaps i s name,
    gaps_from names outlook rank items = Ok gaps ->
    nth_error items i = Some s ->
    method_get s "name" VNone = Ok (VStr name) ->
    name <> "" ->
    ~ In (lower name) names ->
    exists g, In g gaps /\ skill g = name /\ market_rank g = rank + Z.of_nat i.
Proof.
  induction items as [| s0 rest IH]; intros rank gaps i s name H Hnth Hname Hne Hnew.
  - destruct i; discriminate.
  - cbn in H.
    assert (Hlater : forall gs j,
               gaps_from names outlook (rank + 1) rest = Ok gs ->
               i = S j ->
               exists g, In g gs /\ skill g = name /\
                         market_rank g = rank + Z.of_nat i).
    { intros gs j Hgs ->. cbn in Hnth.
      destruct (IH _ _ _ _ _ Hgs Hnth Hname Hne Hnew) as (g & Hin & Hs & Hr).
      exists g. repeat split; try assumption. lia. }
    destruct i as [| j].
    + cbn in Hnth. injection Hnth as ->. rewrite Hname in H.
      cbn [mbind result_bind bind] in H.
      assert (Htruthy : truthy (VStr name) = true).
      { destruct name; [congruence | reflexivity]. }
      rewrite Htruthy in H. cbn [negb as_str mbind result_bind bind] in H.
      destruct (existsb (String.eqb (lower name)) names) eqn:Hknown.
      { apply existsb_eqb_In in Hknown. contradiction. }
      destruct (as_str AttributeError outlook) as [o |]; cbn in H; [| discriminate].
      destruct (gaps_from names outlook (rank + 1) rest) as [gs |];
        cbn in H; [| discriminate].
      injection H as <-. eexists. split; [left; reflexivity |].
      cbn. split; [reflexivity | lia].
    + destruct (method_get s0 "name" VNone) as [name0 |]; cbn in H;
        [| discriminate].
      destruct (truthy name0); cbn in H; [| eauto].
      destruct (as_str AttributeError name0) as [nm |]; cbn in H; [| discriminate].
      destruct (existsb (String.eqb (lower nm)) names); [eauto |].
      destruct (as_str AttributeError outlook) as [o |]; cbn in H; [| discriminate].
      destruct (gaps_from names outlook (rank + 1) rest) as [gs |] eqn:Hrest;
        cbn in H; [| discriminate].
      injection H as <-.
      destruct (Hlater gs j eq_refl eq_refl) as (g & Hin & Hrest').
      exists g. split; [right; exact Hin | exact Hrest'].
Qed.

(** Ranks grow strictly along the gaps. *)
Lemma gaps_from_increasing names outlook items :
  forall rank gaps,
    gaps_from names outlook rank items = Ok gaps ->
    StronglySorted (fun a b => market_rank a < market_rank b) gaps.
Proof.
  induction items as [| s rest IH]; intros rank gaps H; cbn in H.
  - injection H as <-. constructor.
  - destruct (method_get s "name" VNone) as [name |]; cbn in H; [| discriminate].
    destruct (truthy name); cbn in H; [| eauto].
    destruct (as_str AttributeError name) as [nm |]; cbn in H; [| discriminate].
    destruct (existsb (String.eqb (lower nm)) names); [eauto |].
    destruct (as_str AttributeError outlook) as [o |]; cbn in H; [| discriminate].
    destruct (gaps_from names outlook (rank + 1) rest) as [gs |] eqn:Hrest;
      cbn in H; [| discriminate].
    injection H as <-. constructor; [eauto |].
    eapply Forall_impl; [exact (gaps_from_ranks _ _ _ _ _ Hrest) |].
    cbn. intros g Hg. lia.
Qed.

(** Every gap has the priority the rules give its rank under the outlook,
    which is then a str. *)
Lemma gaps_from_priority names outlook items :
  forall rank gaps,
    gaps_from names outlook rank items = Ok gaps ->
    Forall (fun g => exists o, outlook = VStr o /\
                               priority g = priority_of o (market_rank g)) gaps.
Proof.
  induction items as [| s rest IH]; intros rank gaps H; cbn in H.
  - injection H as <-. constructor.
  - destruct (method_get s "name" VNone) as [name |]; cbn in H; [| discriminate].
    destruct (truthy name); cbn in H; [| eauto].
    destruct (as_str AttributeError name) as [nm |]; cbn in H; [| discriminate].
    destruct (existsb (String.eqb (lower nm)) names); [eauto |].
    destruct outlook as [| | | | o | |]; cbn in H; try discriminate.
    destruct (gaps_from names (VStr o) (rank + 1) rest) as [gs |] eqn:Hrest;
      cbn in H; [| discriminate].
    injection H as <-. constructor; [| eauto].
    exists o. split; reflexivity.
Qed.

(** Under one outlook a worse rank never has a better priority. *)
Lemma priority_number_mono (o : string) (r1 r2 : Z) :
  r1 <= r2 ->
  priority_number (priority_of o r1) <= priority_number (priority_of o r2).
Proof.
  intros Hle. unfold priority_of.
  destruct (startswith (lower o) "high" || contains "future" (lower o));
    [| destruct (startswith (lower o) "stable")];
    repeat match goal with
           | |- context [?a <=? ?b] => destruct (Z.leb_spec a b)
           end; cbn; lia.
Qed.

(** Sorting a list that is already in key order changes nothing. *)
Lemma sorted_gaps_sorted (gaps : list gap) :
  StronglySorted (fun a b => key_le a b = true) gaps -> sorted_gaps gaps = gaps.
Proof.
  induction 1 as [| g l Hsorted IH Hall]; [reflexivity |].
  unfold sorted_gaps in *. cbn [fold_right]. rewrite IH.
  destruct l as [| g' l']; [reflexivity |].
  cbn [insert_gap]. inversion Hall as [| ? ? Hhead _]; subst.
  rewrite Hhead. reflexivity.
Qed.

Lemma gaps_from_key_order names outlook items rank gaps :
  gaps_from names outlook rank items = Ok gaps ->
  StronglySorted (fun a b => key_le a b = true) gaps.
Proof.
  intros H.
  pose proof (gaps_from_increasing _ _ _ _ _ H) as Hinc.
  pose proof (gaps_from_priority _ _ _ _ _ H) as Hprio.
  clear H. induction Hinc as [| g l Hsorted IH Hall]; [constructor |].
  inversion Hprio as [| ? ? (o & -> & Hg) Hprio']; subst.
  constructor; [exact (IH Hprio') |].
  rewrite Forall_forall in *. intros g' Hin.
  destruct (Hprio' g' Hin) as (o' & [= <-] & Hg').
  specialize (Hall g' Hin). cbn beta in Hall.
  unfold key_le. rewrite Hg, Hg'.
  pose proof (priority_number_mono o (market_rank g) (market_rank g')
                ltac:(lia)) as Hmono.
  destruct (Z.ltb_spec (priority_number (priority_of o (market_rank g)))
                       (priority_number (priority_of o (market_rank g'))));
    [reflexivity |].
  cbn. apply andb_true_iff. split; [apply Z.eqb_eq | apply Z.leb_le]; lia.
Qed.

Lemma gaps_from_length names outlook items :
  forall rank gaps,
    gaps_from names outlook rank items = Ok gaps ->
    (length gaps <= length items)%nat.
Proof.
  induction items as [| s rest IH]; intros rank gaps H; cbn in H.
  - injection H as <-. reflexivity.
  - assert (Hweak : forall gs, gaps_from names outlook (rank + 1) rest = Ok gs ->
                               (length gs <= length (s :: rest))%nat).
    { intros gs Hgs. specialize (IH _ _ Hgs). cbn [length]. lia. }
    destruct (method_get s "name" VNone) as [name |]; cbn in H; [| discriminate].
    destruct (truthy name); cbn in H; [| eauto].
    destruct (as_str AttributeError name) as [nm |]; cbn in H; [| discriminate].
    destruct (existsb (String.eqb (lower nm)) names); [eauto |].
    destruct (as_str AttributeError outlook) as [o |]; cbn in H; [| discriminate].
    destruct (gaps_from names outlook (rank + 1) rest) as [gs |] eqn:Hrest;
      cbn in H; [| discriminate].
    injection H as <-. specialize (IH _ _ Hrest). cbn [length]. lia.
Qed.

(** X1.  Whenever the rules engine returns, no gap names a resume skill:
    every entry of gap_analysis has a non-empty skill whose lower-cased
    name differs from every lower-cased resume skill name. *)
Theorem rules_evaluator_gaps_are_new (resume_skills short_term_skills
    long_term_forecast r : value) :
  rules_evaluator resume_skills short_term_skills long_term_forecast = Ok r ->
  exists resume names gaps,
    iter resume_skills = Ok resume /\
    mapM (fun s => name ← method_get s "name" (VStr ""); method_lower name) resume
    = Ok names /\
    getitem r "gap_analysis" = Ok (VList (map gap_dict gaps)) /\
    Forall (fun g => skill g <> "" /\ ~ In (lower (skill g)) names) gaps.
Proof.
  intros H.
  destruct (rules_evaluator_inv _ _ _ _ H)
    as (resume & names & outlook & items & gaps & Hresume & Hnames & _ & _ & _
        & Hgaps & ->).
  exists resume, names, gaps. repeat split; try assumption; try reflexivity.
  eapply Forall_impl; [exact (gaps_from_sound _ _ _ _ _ Hgaps) |].
  intros g (i & s & _ & _ & _ & Hne & Hnew). split; assumption.
Qed.

Lemma rules_evaluator_gaps_are_new_witness :
  exists resume names gaps,
    iter sample_resume_skills = Ok resume /\
    mapM (fun s => name ← method_get s "name" (VStr ""); method_lower name) resume
    = Ok names /\
    getitem sample_rules_result "gap_analysis"
    = Ok (VList (map gap_dict gaps)) /\
    Forall (fun g => skill g <> "" /\ ~ In (lower (skill g)) names) gaps.
Proof.
  apply (rules_evaluator_gaps_are_new sample_resume_skills
           sample_short_term_skills sample_long_term_forecast).
  vm_compute. reflexivity.
Defined.

(** X2.  Among the first 20 market skills, every one with a non-empty str
    name that is no resume skill (case-insensitively) is reported as a gap,
    with its one-based position as market rank. *)
Theorem rules_evaluator_reports_gap (resume_skills long_term_forecast r : value)
    (market resume : list value) (names : list string) (i : nat) (s : value)
    (name : string) :
  rules_evaluator resume_skills (VList market) long_term_forecast = Ok r ->
  iter resume_skills = Ok resume ->
  mapM (fun s => name ← method_get s "name" (VStr ""); method_lower name) resume
  = Ok names ->
  (i < 20)%nat ->
  nth_error market i = Some s ->
  method_get s "name" VNone = Ok (VStr name) ->
  name <> "" ->
  ~ In (lower name) names ->
  exists gaps g,
    getitem r "gap_analysis" = Ok (VList (map gap_dict gaps)) /\
    In g gaps /\ skill g = name /\ market_rank g = Z.of_nat i + 1.
Proof.
  intros H Hresume Hnames Hi Hnth Hname Hne Hnew.
  destruct (rules_evaluator_inv _ _ _ _ H)
    as (resume' & names' & outlook & items & gaps & Hresume' & Hnames' & _ & _
        & Hitems & Hgaps & ->).
  assert (resume' = resume) as -> by congruence.
  assert (names' = names) as -> by congruence.
  rewrite (Hitems market eq_refl) in Hgaps.
  assert (Hnth' : nth_error (firstn 20 market) i = Some s).
  { rewrite nth_error_firstn. destruct (Nat.ltb_spec i 20); [exact Hnth | lia]. }
  destruct (gaps_from_complete _ _ _ _ _ _ _ _ Hgaps Hnth' Hname Hne Hnew)
    as (g & Hin & Hskill & Hrank).
  exists gaps, g. repeat split; try assumption; try reflexivity. lia.
Qed.

Lemma rules_evaluator_reports_gap_witness :
  exists gaps g,
    getitem sample_rules_result "gap_analysis"
    = Ok (VList (map gap_dict gaps)) /\
    In g gaps /\ skill g = "Kubernetes" /\ market_rank g = Z.of_nat 2 + 1.
Proof.
  refine (rules_evaluator_reports_gap sample_resume_skills
            sample_long_term_forecast _
            [ VDict [("name", VStr "Python"); ("type", VStr "language");
                     ("frequency", VInt 95); ("mention_count", VInt 95)];
              VDict [("name", VStr "AWS"); ("type", VStr "cloud");
                     ("frequency", VInt 80); ("mention_count", VInt 80)];
              VDict [("name", VStr "Kubernetes"); ("type", VStr "tool");
                     ("frequency", VInt 70); ("mention_count", VInt 70)];
              VDict [("name", VStr "Docker"); ("type", VStr "tool");
                     ("frequency", VInt 65); ("mention_count", VInt 65)];
              VDict [("name", VStr "CI/CD"); ("type", VStr "tool");
                     ("frequency", VInt 60); ("mention_count", VInt 60)] ]
            [ VDict [("name", VStr "Python")]; VDict [("name", VStr "Docker")];
              VDict [("name", VStr "SQL")] ]
            ["python"; "docker"; "sql"] 2
            (VDict [("name", VStr "Kubernetes"); ("type", VStr "tool");
                    ("frequency", VInt 70); ("mention_count", VInt 70)])
            "Kubernetes" _ eq_refl eq_refl _ eq_refl eq_refl _ _).
  - vm_compute. reflexivity.
  - lia.
  - discriminate.
  - cbn. intros [H | [H | [H | []]]]; discriminate.
Defined.

(** X3.  gap_analysis holds at most 20 gaps, their market ranks lie between
    1 and 20 and grow strictly along the list. *)
Theorem rules_evaluator_ranks (resume_skills short_term_skills
    long_term_forecast r : value) :
  rules_evaluator resume_skills short_term_skills long_term_forecast = Ok r ->
  exists gaps,
    getitem r "gap_analysis" = Ok (VList (map gap_dict gaps)) /\
    (length gaps <= 20)%nat /\
    Forall (fun g => 1 <= market_rank g <= 20) gaps /\
    StronglySorted (fun a b => market_rank a < market_rank b) gaps.
Proof.
  intros H.
  destruct (rules_evaluator_inv _ _ _ _ H)
    as (resume & names & outlook & items & gaps & _ & _ & _ & Hlen & _
        & Hgaps & ->).
  exists gaps. split; [reflexivity |]. split; [| split].
  - pose proof (gaps_from_length _ _ _ _ _ Hgaps). lia.
  - eapply Forall_impl; [exact (gaps_from_ranks _ _ _ _ _ Hgaps) |].
    cbn. intros g Hg. lia.
  - exact (gaps_from_increasing _ _ _ _ _ Hgaps).
Qed.

Lemma rules_evaluator_ranks_witness :
  exists gaps,
    getitem sample_rules_result "gap_analysis"
    = Ok (VList (map gap_dict gaps)) /\
    (length gaps <= 20)%nat /\
    Forall (fun g => 1 <= market_rank g <= 20) gaps /\
    StronglySorted (fun a b => market_rank a < market_rank b) gaps.
Proof.
  apply (rules_evaluator_ranks sample_resume_skills sample_short_term_skills
           sample_long_term_forecast).
  vm_compute. reflexivity.
Defined.

(** X4.  The recommended learning path is the skills of the first five
    entries of gap_analysis, in market-rank order: under any one outlook
    the priority never improves as the rank worsens, so sorting by
    (priority, rank) leaves the rank order as it is. *)
Theorem rules_evaluator_path_follows_ranks (resume_skills short_term_skills
    long_term_forecast r : value) :
  rules_evaluator resume_skills short_term_skills long_term_forecast = Ok r ->
  exists gaps,
    getitem r "gap_analysis" = Ok (VList (map gap_dict gaps)) /\
    getitem r "recommended_learning_path"
    = Ok (VList (map (fun g => VStr (skill g)) (firstn 5 gaps))).
Proof.
  intros H.
  destruct (rules_evaluator_inv _ _ _ _ H)
    as (resume & names & outlook & items & gaps & _ & _ & _ & _ & _
        & Hgaps & ->).
  exists gaps. split; [reflexivity |].
  rewrite (sorted_gaps_sorted gaps (gaps_from_key_order _ _ _ _ _ Hgaps)).
  reflexivity.
Qed.

Lemma rules_evaluator_path_follows_ranks_witness :
  exists gaps,
    getitem sample_rules_result "gap_analysis"
    = Ok (VList (map gap_dict gaps)) /\
    getitem sample_rules_result "recommended_learning_path"
    = Ok (VList (map (fun g => VStr (skill g)) (firstn 5 gaps))).
Proof.
  apply (rules_evaluator_path_follows_ranks sample_resume_skills
           sample_short_term_skills sample_long_term_forecast).
  vm_compute. reflexivity.
Defined.

(** X5.  Every gap carries the priority the rules table gives its rank
    under the outlook, and as ranks stop at 20 the table has two rows per
    outlook: High up to rank 10 and Medium beyond under an outlook that
    starts with "high" or contains "future" (Low never occurs there),
    Medium up to rank 10 and Low beyond under one that starts with
    "stable", Low otherwise. *)
Theorem rules_evaluator_priorities (resume_skills short_term_skills
    long_term_forecast r : value) :
  rules_evaluator resume_skills short_term_skills long_term_forecast = Ok r ->
  exists gaps,
    getitem r "gap_analysis" = Ok (VList (map gap_dict gaps)) /\
    (gaps = [] \/
     exists o,
       getitem r "role_outlook" = Ok (VStr o) /\
       Forall (fun g =>
                 priority g
                 = if startswith (lower o) "high" || contains "future" (lower o)
                   then (if market_rank g <=? 10 then "High" else "Medium")
                   else if startswith (lower o) "stable"
                        then (if market_rank g <=? 10 then "Medium" else "Low")
                        else "Low") gaps).
Proof.
  intros H.
  destruct (rules_evaluator_inv _ _ _ _ H)
    as (resume & names & outlook & items & gaps & _ & _ & _ & Hlen & _
        & Hgaps & ->).
  exists gaps. split; [reflexivity |].
  pose proof (gaps_from_priority _ _ _ _ _ Hgaps) as Hprio.
  pose proof (gaps_from_ranks _ _ _ _ _ Hgaps) as Hranks.
  destruct gaps as [| g gaps]; [left; reflexivity | right].
  inversion Hprio as [| ? ? (o & -> & _) _]; subst.
  exists o. split; [reflexivity |].
  rewrite Forall_forall in *. intros g' Hin.
  destruct (Hprio g' Hin) as (o' & [= <-] & ->).
  specialize (Hranks g' Hin). cbn beta in Hranks.
  unfold priority_of.
  destruct (Z.leb_spec (market_rank g') 10); [reflexivity |].
  destruct (Z.leb_spec (market_rank g') 20); [reflexivity | lia].
Qed.

Lemma rules_evaluator_priorities_witness :
  exists gaps,
    getitem sample_rules_result "gap_analysis" = Ok (VList (map gap_dict gaps)) /\
    (gaps = [] \/
     exists o,
       getitem sample_rules_result "role_outlook" = Ok (VStr o) /\
       Forall (fun g =>
                 priority g
                 = if startswith (lower o) "high" || contains "future" (lower o)
                   then (if market_rank g <=? 10 then "High" else "Medium")
                   else if startswith (lower o) "stable"
                        then (if market_rank g <=? 10 then "Medium" else "Low")
                        else "Low") gaps).
Proof.
  apply (rules_evaluator_priorities sample_resume_skills
           sample_short_term_skills sample_long_term_forecast).
  vm_compute. reflexivity.
Defined.

Lemma mapM_resume_names (resume : list value) :
  forallb resume_skill resume = true ->
  exists names,
    mapM (fun s => name ← method_get s "name" (VStr ""); method_lower name) resume
    = Ok names.
Proof.
  induction resume as [| s rest IH]; cbn [forallb mapM]; [eauto |].
  intros Hok. apply andb_true_iff in Hok. destruct Hok as [Hs Hrest].
  destruct (IH Hrest) as [names ->].
  destruct s as [| | | | | | d]; try discriminate. cbn in Hs |- *.
  destruct (assoc "name" d) as [[| | | | nm | |] |]; try discriminate; cbn; eauto.
Qed.

Lemma gaps_from_returns names (o : string) (items : list value) :
  forallb market_skill items = true ->
  forall rank, exists gaps, gaps_from names (VStr o) rank items = Ok gaps.
Proof.
  induction items as [| s rest IH]; cbn [forallb gaps_from]; [eauto |].
  intros Hok rank. apply andb_true_iff in Hok. destruct Hok as [Hs Hrest].
  destruct (IH Hrest (rank + 1)) as [gaps Hgaps].
  destruct s as [| | | | | | d]; try discriminate.
  cbn [market_skill] in Hs. cbn [method_get mbind result_bind bind].
  destruct (assoc "name" d) as [name |]; [| cbn; eauto].
  destruct (truthy name) eqn:Htruthy; cbn [negb]; [| eauto].
  destruct name as [| | | | nm | |];
    try (rewrite Htruthy in Hs; discriminate); try discriminate.
  cbn [as_str mbind result_bind bind].
  destruct (existsb (String.eqb (lower nm)) names); [eauto |].
  rewrite Hgaps. cbn. eauto.
Qed.

Lemma forallb_firstn {A : Type} (p : A -> bool) (n : nat) (l : list A) :
  forallb p l = true -> forallb p (firstn n l) = true.
Proof.
  revert l. induction n as [| n IH]; intros [| x l]; cbn; try reflexivity.
  intros H. apply andb_true_iff in H. destruct H as [-> H]. cbn. auto.
Qed.

(** X6.  On resume skills that are dicts with str names (or none), market
    skills that are dicts whose name is missing, false or a str, and a
    forecast whose category is a str (or missing), the rules engine
    returns a result: it raises nothing. *)
Theorem rules_evaluator_returns (resume market : list value)
    (forecast : list (string * value)) :
  forallb resume_skill resume = true ->
  forallb market_skill market = true ->
  shapes.forecast forecast = true ->
  exists r,
    rules_evaluator (VList resume) (VList market) (VDict forecast) = Ok r.
Proof.
  intros Hresume Hmarket Hforecast. unfold rules_evaluator.
  cbn [iter mbind result_bind bind].
  destruct (mapM_resume_names resume Hresume) as [names ->].
  cbn [mbind result_bind bind].
  assert (Htop : exists top,
             (if truthy (VList market) then slice_to 20 (VList market)
              else Ok (VList [])) = Ok (VList top) /\
             forallb market_skill top = true).
  { destruct market as [| x market']; [exists []; split; reflexivity |].
    exists (firstn 20 (x :: market')). split; [reflexivity |].
    apply forallb_firstn. exact Hmarket. }
  destruct Htop as (top & -> & Htop). cbn [mbind result_bind bind method_get].
  assert (Houtlook : exists o,
             match assoc "category" forecast with
             | Some x => x
             | None => VStr "Unknown"
             end = VStr o).
  { unfold shapes.forecast in Hforecast.
    destruct (assoc "category" forecast) as [[| | | | o | |] |];
      try discriminate; eauto. }
  destruct Houtlook as [o ->].
  unfold slice_to. cbn [mbind result_bind bind iter].
  destruct (gaps_from_returns names o (firstn 20 top)
              (forallb_firstn _ _ _ Htop) 1) as [gaps ->].
  cbn. eauto.
Qed.

Lemma rules_evaluator_returns_witness :
  exists r,
    rules_evaluator
      (VList [VDict [("name", VStr "Python")]; VDict []])
      (VList [VDict [("name", VStr "AWS")]; VDict [("name", VNone)]])
      (VDict [])
    = Ok r.
Proof.
  apply (rules_evaluator_returns
           [VDict [("name", VStr "Python")]; VDict []]
           [VDict [("name", VStr "AWS")]; VDict [("name", VNone)]] []);
    reflexivity.
Defined.

(** X7.  On a payload of those shapes the evaluator returns a result
    whatever the language model answers and whatever the library's JSON
    parser does: it raises nothing. *)
Theorem run_returns (L : pylib) (reply : llm_reply)
    (p : list (string * value)) :
  shapes.payload p = true ->
  exists r, run L reply (VDict p) = Ok r.
Proof.
  intros Hp. unfold shapes.payload in Hp.
  apply andb_true_iff in Hp. destruct Hp as [Hp Hforecast].
  apply andb_true_iff in Hp. destruct Hp as [Hresume Hmarket].
  unfold run. cbn [method_get mbind result_bind bind].
  destruct (try_llm L reply _ _ _) as [[parsed |] |]; [eauto | |];
    destruct (assoc "resume_skills" p) as [[| | | | | resume |] |];
    try discriminate;
    destruct (assoc "short_term_skills" p) as [[| | | | | market |] |];
    try discriminate;
    destruct (assoc "long_term_forecast" p) as [[| | | | | | forecast] |];
    try discriminate;
    apply rules_evaluator_returns; assumption || reflexivity.
Qed.

Lemma run_returns_witness :
  exists r,
    run stated.tiny_lib (LlmText "I cannot answer that.")
        (VDict [ ("resume_skills", VList [VDict [("name", VStr "Python")]]);
                 ("short_term_skills", VList [VDict [("name", VStr "AWS")]]) ])
    = Ok r.
Proof.
  apply (run_returns stated.tiny_lib (LlmText "I cannot answer that.")
           [ ("resume_skills", VList [VDict [("name", VStr "Python")]]);
             ("short_term_skills", VList [VDict [("name", VStr "AWS")]]) ]).
  reflexivity.
Defined.

End RulesEngine.

(** ** The SQLite cache: overwriting, other keys, errors *)

Section CacheDbLaws.
Import cache_db samples.

(** The read of a key just written with a ttl of 64 bits. *)
Lemma get_from_cache_written (L : pylib) (db : gmap string row) (k : string)
    (v : value) (ttl t0 now : Z) :
  json_loads L (json_dumps L v) = Some v ->
  fromisoformat L (isoformat L t0) = Some (Naive t0) ->
  - 2 ^ 63 <= ttl < 2 ^ 63 ->
  get_from_cache L (snd (set_in_cache L db t0 k v ttl)) now k
  = match timedelta ttl with
    | Ok limit => if limit <? now - t0 then Ok VNone else Ok v
    | Raise e => Raise e
    end.
Proof.
  intros Hjson Hiso Hbits. rewrite set_in_cache_written by exact Hbits.
  unfold get_from_cache. cbn [snd]. rewrite lookup_insert_eq.
  cbn [timestamp ttl_seconds value_]. rewrite Hiso.
  cbn [mbind result_bind bind elapsed]. rewrite Hjson.
  destruct (timedelta ttl) as [limit |]; cbn [mbind result_bind bind];
    reflexivity.
Qed.

(** X8.  [set_in_cache] overwrites: after two writes under one key, the
    second with a ttl of 64 bits, a read sees the second entry alone and
    counts its age from the second write, whatever the first entry's
    value, age and ttl were and whether or not the first write was
    refused.  With the second ttl in the range of a timedelta the read
    returns the second value while it is at most that many seconds old
    and [None] afterwards; with the second ttl beyond that range the read
    raises [OverflowError]. *)
Theorem set_in_cache_last_write_wins (L : pylib) (db : gmap string row)
    (k : string) (v v' : value) (ttl ttl' t0 t1 now : Z) :
  json_loads L (json_dumps L v') = Some v' ->
  fromisoformat L (isoformat L t1) = Some (Naive t1) ->
  - 2 ^ 63 <= ttl' < 2 ^ 63 ->
  (-86399999913600 <= ttl' <= 86399999999999 ->
   get_from_cache L
     (snd (set_in_cache L (snd (set_in_cache L db t0 k v ttl)) t1 k v' ttl'))
     now k
   = if seconds ttl' <? now - t1 then Ok VNone else Ok v') /\
  (ttl' < -86399999913600 \/ 86399999999999 < ttl' ->
   get_from_cache L
     (snd (set_in_cache L (snd (set_in_cache L db t0 k v ttl)) t1 k v' ttl'))
     now k
   = Raise OverflowError).
Proof.
  intros Hjson Hiso Hbits.
  rewrite set_in_cache_overwrites by exact Hbits.
  rewrite (get_from_cache_written L db k v' ttl' t1 now Hjson Hiso Hbits).
  split; intros Hrange.
  - rewrite (timedelta_in_range _ Hrange). reflexivity.
  - rewrite (timedelta_out_of_range _ Hrange). reflexivity.
Qed.

Lemma set_in_cache_last_write_wins_witness :
  get_from_cache stated.tiny_lib
    (snd (set_in_cache stated.tiny_lib
            (snd (set_in_cache stated.tiny_lib ∅ 0 "forecast:15-2051"
                    (VBool false) 60))
            stated.new_year_2024 "forecast:15-2051" (VBool true) 604800))
    (stated.new_year_2024 + seconds 3600) "forecast:15-2051"
  = if seconds 604800 <? stated.new_year_2024 + seconds 3600 - stated.new_year_2024
    then Ok VNone else Ok (VBool true).
Proof.
  apply (proj1 (set_in_cache_last_write_wins stated.tiny_lib ∅
                  "forecast:15-2051" (VBool false) (VBool true) 60 604800 0
                  stated.new_year_2024 (stated.new_year_2024 + seconds 3600)
                  eq_refl eq_refl ltac:(lia))).
  lia.
Defined.

(** X9.  Writing under one key leaves every other key's read as it was,
    whether the write is made or refused, and after [clear_cache] every
    read is a miss. *)
Theorem cache_db_other_keys (L : pylib) (db : gmap string row) (k k' : string)
    (v : value) (ttl t0 now : Z) :
  (k <> k' ->
   get_from_cache L (snd (set_in_cache L db t0 k v ttl)) now k'
   = get_from_cache L db now k') /\
  get_from_cache L (clear_cache db) now k' = Ok VNone.
Proof.
  split.
  - apply set_in_cache_other.
  - unfold get_from_cache, clear_cache. rewrite lookup_empty. reflexivity.
Qed.

(** X10.  [get_from_cache] has no handler, and it tests expiry before it
    decodes the value.  A row whose timestamp does not parse raises
    [ValueError].  A row with a naive timestamp whose ttl is beyond the
    range of a timedelta raises [OverflowError], whatever its age and
    value.  With the ttl in that range, an expired row is a miss even
    when its value is not JSON, and a row still valid whose value is not
    JSON raises [JSONDecodeError]. *)
Theorem get_from_cache_errors (L : pylib) (db : gmap string row) (k : string)
    (r : row) (now : Z) :
  db !! k = Some r ->
  (fromisoformat L (timestamp r) = None ->
   get_from_cache L db now k = Raise ValueError) /\
  (forall t,
      fromisoformat L (timestamp r) = Some (Naive t) ->
      ttl_seconds r < -86399999913600 \/ 86399999999999 < ttl_seconds r ->
      get_from_cache L db now k = Raise OverflowError) /\
  (forall t,
      fromisoformat L (timestamp r) = Some (Naive t) ->
      -86399999913600 <= ttl_seconds r <= 86399999999999 ->
      seconds (ttl_seconds r) < now - t ->
      get_from_cache L db now k = Ok VNone) /\
  (forall t,
      fromisoformat L (timestamp r) = Some (Naive t) ->
      -86399999913600 <= ttl_seconds r <= 86399999999999 ->
      now - t <= seconds (ttl_seconds r) ->
      json_loads L (value_ r) = None ->
      get_from_cache L db now k = Raise JSONDecodeError).
Proof.
  intros Hrow. unfold get_from_cache. rewrite Hrow.
  split; [| split; [| split]].
  - intros ->. reflexivity.
  - intros t -> Hrange. cbn [mbind result_bind bind elapsed].
    rewrite (timedelta_out_of_range _ Hrange). reflexivity.
  - intros t -> Hrange Hage. cbn [mbind result_bind bind elapsed].
    rewrite (timedelta_in_range _ Hrange). cbn [mbind result_bind bind].
    destruct (Z.ltb_spec (seconds (ttl_seconds r)) (now - t)); [reflexivity | lia].
  - intros t -> Hrange Hage Hjson. cbn [mbind result_bind bind elapsed].
    rewrite (timedelta_in_range _ Hrange). cbn [mbind result_bind bind].
    destruct (Z.ltb_spec (seconds (ttl_seconds r)) (now - t)); [lia |].
    rewrite Hjson. reflexivity.
Qed.

Lemma get_from_cache_errors_witness :
  get_from_cache stated.tiny_lib
    {[ "k" := {| value_ := "{"; timestamp := "2024-01-01T00:00:00";
                 ttl_seconds := 60 |} ]}
    (stated.new_year_2024 + seconds 61) "k" = Ok VNone /\
  get_from_cache stated.tiny_lib
    {[ "k" := {| value_ := "{"; timestamp := "2024-01-01T00:00:00";
                 ttl_seconds := 60 |} ]}
    (stated.new_year_2024 + seconds 60) "k" = Raise JSONDecodeError.
Proof.
  pose proof (fun now =>
    get_from_cache_errors stated.tiny_lib
      {[ "k" := {| value_ := "{"; timestamp := "2024-01-01T00:00:00";
                   ttl_seconds := 60 |} ]}
      "k" {| value_ := "{"; timestamp := "2024-01-01T00:00:00";
             ttl_seconds := 60 |} now (lookup_singleton_eq _ _)) as H.
  split.
  - destruct (H (stated.new_year_2024 + seconds 61)) as (_ & _ & Hexpired & _).
    apply (Hexpired stated.new_year_2024);
      [reflexivity | cbn; lia | unfold seconds; cbn; lia].
  - destruct (H (stated.new_year_2024 + seconds 60)) as (_ & _ & _ & Hfresh).
    apply (Hfresh stated.new_year_2024);
      [reflexivity | cbn; lia | unfold seconds; cbn; lia | reflexivity].
Defined.

End CacheDbLaws.

(** ** The JSON file cache: round trip, other roles, damaged files *)

Section CacheToolsLaws.
Import cache_tools samples.

(** The cache [cache_skills_data] writes over the entries [d]. *)
Lemma updated_text_dict (L : pylib) (fs : file) (t0 : Z) (role : string)
    (data : value) (d : list (string * value)) :
  (fs = Absent /\ d = []) \/
  (exists text, fs = Content text /\ json_loads L text = Some (VDict d)) ->
  cache_skills_data L fs t0 role data
  = Content (json_dumps L
       (VDict (assoc_set role
                 (VDict [("timestamp", VStr (isoformat L t0)); ("data", data)])
                 d))).
Proof.
  unfold cache_skills_data, updated_text, json_load.
  intros [[-> ->] | (text & -> & Hjson)]; cbn; [reflexivity |].
  rewrite Hjson. reflexivity.
Qed.

Lemma has_assoc_set_same (k : string) (x : value) (d : list (string * value)) :
  has (VDict (assoc_set k x d)) k = Ok true.
Proof. cbn. rewrite assoc_set_same. reflexivity. Qed.

(** Reading a role back from the file [cache_skills_data] has just
    written. *)
Lemma lookup_fresh_written (L : pylib) (t0 now : Z) (role : string)
    (data : value) (ttl : Z) (d : list (string * value)) :
  (let cache := VDict (assoc_set role
                         (VDict [("timestamp", VStr (isoformat L t0));
                                 ("data", data)]) d) in
   json_loads L (json_dumps L cache) = Some cache) ->
  fromisoformat L (isoformat L t0) = Some (Naive t0) ->
  lookup_fresh L
    (Content (json_dumps L
       (VDict (assoc_set role
                 (VDict [("timestamp", VStr (isoformat L t0)); ("data", data)])
                 d))))
    now role ttl
  = match timedelta ttl with
    | Ok limit => Ok (if limit <? now - t0 then VNone else data)
    | Raise e => Raise e
    end.
Proof.
  intros Hjson Hiso. cbn zeta in Hjson.
  unfold lookup_fresh, json_load.
  cbn [read mbind result_bind bind]. rewrite Hjson.
  cbn [mbind result_bind bind]. rewrite has_assoc_set_same.
  cbn [mbind result_bind bind negb getitem]. rewrite assoc_set_same.
  cbn [mbind result_bind bind getitem assoc]. cbn.
  rewrite Hiso. cbn.
  destruct (timedelta ttl) as [limit |]; cbn; [| reflexivity].
  destruct (limit <? now - t0); reflexivity.
Qed.

(** X11.  Round trip of the file cache: when the file is missing or holds
    a JSON object, what [cache_skills_data] stores under a role is what
    [get_cached_skills] returns for that role while the entry is at most
    ttl seconds old, and [None] comes back once it is older, for a ttl in
    the range of a timedelta; for a ttl beyond that range [None] comes
    back at every age.  The new file content and the timestamp must
    survive their round trips through the library. *)
Theorem cache_skills_data_round_trip (L : pylib) (fs : file) (t0 now : Z)
    (role : string) (data : value) (ttl : Z) (d : list (string * value)) :
  (fs = Absent /\ d = []) \/
  (exists text, fs = Content text /\ json_loads L text = Some (VDict d)) ->
  (let cache := VDict (assoc_set role
                         (VDict [("timestamp", VStr (isoformat L t0));
                                 ("data", data)]) d) in
   json_loads L (json_dumps L cache) = Some cache) ->
  fromisoformat L (isoformat L t0) = Some (Naive t0) ->
  (-86399999913600 <= ttl <= 86399999999999 ->
   get_cached_skills L (cache_skills_data L fs t0 role data) now role ttl
   = if seconds ttl <? now - t0 then VNone else data) /\
  (ttl < -86399999913600 \/ 86399999999999 < ttl ->
   get_cached_skills L (cache_skills_data L fs t0 role data) now role ttl
   = VNone).
Proof.
  intros Hfs Hjson Hiso.
  rewrite (updated_text_dict L fs t0 role data d Hfs).
  unfold get_cached_skills.
  rewrite (lookup_fresh_written L t0 now role data ttl d Hjson Hiso).
  split; intros Hrange.
  - rewrite (timedelta_in_range _ Hrange). reflexivity.
  - rewrite (timedelta_out_of_range _ Hrange). reflexivity.
Qed.

Lemma cache_skills_data_round_trip_witness :
  get_cached_skills (fixed_lib one_role_cache stated.new_year_2024)
    (cache_skills_data (fixed_lib one_role_cache stated.new_year_2024)
       Absent stated.new_year_2024 "Web Developer" web_developer)
    (stated.new_year_2024 + seconds 86400) "Web Developer" 86400
  = if seconds 86400 <? stated.new_year_2024 + seconds 86400 - stated.new_year_2024
    then VNone else web_developer.
Proof.
  apply (proj1 (cache_skills_data_round_trip
                  (fixed_lib one_role_cache stated.new_year_2024) Absent
                  stated.new_year_2024 (stated.new_year_2024 + seconds 86400)
                  "Web Developer" web_developer 86400 []
                  (or_introl (conj eq_refl eq_refl)) eq_refl eq_refl)).
  lia.
Defined.

(** X12.  Storing one role leaves the others alone: after
    [cache_skills_data] for a role, [get_cached_skills] answers for every
    other role as it did before. *)
Theorem cache_skills_data_other_role (L : pylib) (fs : file) (t0 now : Z)
    (role other : string) (data : value) (ttl : Z) (d : list (string * value)) :
  role <> other ->
  (fs = Absent /\ d = []) \/
  (exists text, fs = Content text /\ json_loads L text = Some (VDict d)) ->
  (let cache := VDict (assoc_set role
                         (VDict [("timestamp", VStr (isoformat L t0));
                                 ("data", data)]) d) in
   json_loads L (json_dumps L cache) = Some cache) ->
  get_cached_skills L (cache_skills_data L fs t0 role data) now other ttl
  = get_cached_skills L fs now other ttl.
Proof.
  intros Hne Hfs Hjson. cbn zeta in Hjson.
  rewrite (updated_text_dict L fs t0 role data d Hfs).
  assert (Hother : forall x, assoc other (assoc_set role x d) = assoc other d).
  { intros x. apply assoc_set_other. congruence. }
  unfold get_cached_skills, lookup_fresh, json_load.
  cbn [read mbind result_bind bind]. rewrite Hjson.
  cbn [mbind result_bind bind has getitem]. rewrite !Hother.
  destruct Hfs as [[-> ->] | (text & -> & Hold)].
  - reflexivity.
  - cbn [read mbind result_bind bind]. rewrite Hold. reflexivity.
Qed.

Lemma cache_skills_data_other_role_witness :
  get_cached_skills (fixed_lib one_role_cache stated.new_year_2024)
    (cache_skills_data (fixed_lib one_role_cache stated.new_year_2024)
       Absent stated.new_year_2024 "Web Developer" web_developer)
    stated.new_year_2024 "Data Analyst" 86400
  = get_cached_skills (fixed_lib one_role_cache stated.new_year_2024)
      Absent stated.new_year_2024 "Data Analyst" 86400.
Proof.
  apply (cache_skills_data_other_role
           (fixed_lib one_role_cache stated.new_year_2024) Absent
           stated.new_year_2024 stated.new_year_2024
           "Web Developer" "Data Analyst" web_developer 86400 []).
  - discriminate.
  - left. split; reflexivity.
  - reflexivity.
Defined.

(** X13.  A damaged cache file stays damaged: when the file cannot be
    read, does not hold JSON, or holds JSON that is not an object,
    [cache_skills_data] leaves it as it is and [get_cached_skills] answers
    [None] for every role, so nothing is cached until the file is removed. *)
Theorem damaged_cache_is_never_repaired (L : pylib) (fs : file) (now : Z)
    (role : string) (data : value) :
  fs = Unreadable \/
  (exists text, fs = Content text /\
                (json_loads L text = None \/
                 exists v, json_loads L text = Some v /\
                           forall d, v <> VDict d)) ->
  cache_skills_data L fs now role data = fs /\
  forall other later ttl, get_cached_skills L fs later other ttl = VNone.
Proof.
  intros [-> | (text & -> & [Hjson | (v & Hjson & Hv)])].
  - split; reflexivity.
  - unfold cache_skills_data, updated_text, get_cached_skills, lookup_fresh,
      json_load. cbn [read mbind result_bind bind]. rewrite Hjson.
    split; reflexivity.
  - split.
    + unfold cache_skills_data, updated_text, json_load.
      cbn [read mbind result_bind bind]. rewrite Hjson.
      destruct v; try reflexivity. destruct (Hv d eq_refl).
    + intros other later ttl.
      unfold get_cached_skills, lookup_fresh, json_load.
      cbn [read mbind result_bind bind]. rewrite Hjson.
      cbn [mbind result_bind bind].
      destruct v as [| | | | s | l | d]; try reflexivity.
      * cbn. destruct (contains other s); reflexivity.
      * cbn. destruct (existsb _ l); reflexivity.
      * destruct (Hv d eq_refl).
Qed.

Lemma damaged_cache_is_never_repaired_witness :
  cache_skills_data stated.tiny_lib (Content "true") stated.new_year_2024
    "Data Analyst" web_developer = Content "true" /\
  forall other later ttl,
    get_cached_skills stated.tiny_lib (Content "true") later other ttl = VNone.
Proof.
  apply (damaged_cache_is_never_repaired stated.tiny_lib (Content "true")
           stated.new_year_2024 "Data Analyst" web_developer).
  right. exists "true". split; [reflexivity |].
  right. exists (VBool true). split; [reflexivity | discriminate].
Defined.

End CacheToolsLaws.

(** ** The short-term skills run and its cache *)

Section ShortTermCache.
Import llm_analysis cache_tools base samples.

(** X14.  A result [BaseAgent.run] has computed is what the next run of
    the same query returns, as long as it is at most 24 hours old: that
    run answers from the cache, whatever job postings and whatever answer
    of the language model it would otherwise have met, and leaves the
    cache file as it is. *)
Theorem run_again_answers_from_cache (L : pylib) (fs : file)
    (now later now2 later2 : Z) (query : string)
    (job_descriptions job_descriptions2 : list string)
    (reply reply2 : llm_reply) (result : value) (d : list (string * value)) :
  (fs = Absent /\ d = []) \/
  (exists text, fs = Content text /\ json_loads L text = Some (VDict d)) ->
  truthy (get_cached_skills L fs now (_extract_role_from_query query) 86400)
  = false ->
  job_descriptions <> [] ->
  fst (run L fs now later query job_descriptions reply) = Ok result ->
  (let cache := VDict (assoc_set (_extract_role_from_query query)
                         (VDict [("timestamp", VStr (isoformat L later));
                                 ("data", result)]) d) in
   json_loads L (json_dumps L cache) = Some cache) ->
  fromisoformat L (isoformat L later) = Some (Naive later) ->
  now2 - later <= seconds 86400 ->
  run L (snd (run L fs now later query job_descriptions reply))
      now2 later2 query job_descriptions2 reply2
  = (Ok result, snd (run L fs now later query job_descriptions reply)).
Proof.
  intros Hfs Hmiss Hjobs Hrun Hjson Hiso Hage.
  assert (Hfirst : run L fs now later query job_descriptions reply
                   = (Ok result,
                      cache_skills_data L fs later
                        (_extract_role_from_query query) result)
                   /\ truthy result = true).
  { unfold run in Hrun |- *. rewrite Hmiss in Hrun |- *.
    destruct job_descriptions as [| job jobs]; [congruence |].
    destruct (skills_data_of L (analyze_skills_with_gemini reply))
      as [skills_data |]; cbn in Hrun |- *; [| discriminate].
    unfold build_result in Hrun |- *.
    destruct (method_get skills_data "skills" (VList [])) as [skills |];
      cbn in Hrun |- *; [| discriminate].
    destruct (slice_to 20 skills) as [top_skills |];
      cbn in Hrun |- *; [| discriminate].
    injection Hrun as <-. split; reflexivity. }
  destruct Hfirst as [-> Htruthy]. cbn [snd].
  rewrite (updated_text_dict L fs later _ result d Hfs).
  unfold run.
  assert (Hhit : get_cached_skills L
                   (Content (json_dumps L
                      (VDict (assoc_set (_extract_role_from_query query)
                                (VDict [("timestamp", VStr (isoformat L later));
                                        ("data", result)]) d))))
                   now2 (_extract_role_from_query query) 86400 = result).
  { unfold get_cached_skills.
    rewrite (lookup_fresh_written L later now2 _ result 86400 d Hjson Hiso).
    rewrite (timedelta_in_range 86400) by lia.
    destruct (Z.ltb_spec (seconds 86400) (now2 - later)); [lia | reflexivity]. }
  rewrite Hhit, Htruthy. reflexivity.
Qed.

Lemma run_again_answers_from_cache_witness :
  run (fixed_lib data_analyst_cache stated.new_year_2024)
      (snd (run (fixed_lib data_analyst_cache stated.new_year_2024) Absent
                stated.new_year_2024 stated.new_year_2024
                "skills for data analyst" stated.three_postings LlmFails))
      (stated.new_year_2024 + seconds 3600) (stated.new_year_2024 + seconds 3600)
      "skills for data analyst" [] LlmNoText
  = (Ok no_skills_result,
     snd (run (fixed_lib data_analyst_cache stated.new_year_2024) Absent
              stated.new_year_2024 stated.new_year_2024
              "skills for data analyst" stated.three_postings LlmFails)).
Proof.
  apply (run_again_answers_from_cache
           (fixed_lib data_analyst_cache stated.new_year_2024) Absent
           stated.new_year_2024 stated.new_year_2024
           (stated.new_year_2024 + seconds 3600)
           (stated.new_year_2024 + seconds 3600)
           "skills for data analyst" stated.three_postings [] LlmFails
           LlmNoText no_skills_result []).
  - left. split; reflexivity.
  - reflexivity.
  - discriminate.
  - vm_compute. reflexivity.
  - vm_compute. reflexivity.
  - reflexivity.
  - unfold seconds. lia.
Defined.

End ShortTermCache.

(** ** The role a query names *)

Section RoleOfQuery.
Import base.

Lemma lower_ascii_idem (c : ascii) : lower_ascii (lower_ascii c) = lower_ascii c.
Proof. destruct c as [[] [] [] [] [] [] [] []]; reflexivity. Qed.

Lemma upper_lower_ascii (c : ascii) : upper_ascii (lower_ascii c) = upper_ascii c.
Proof. destruct c as [[] [] [] [] [] [] [] []]; reflexivity. Qed.

Lemma is_cased_lower_ascii (c : ascii) : is_cased (lower_ascii c) = is_cased c.
Proof. destruct c as [[] [] [] [] [] [] [] []]; reflexivity. Qed.

Lemma is_space_lower_ascii (c : ascii) : is_space (lower_ascii c) = is_space c.
Proof. destruct c as [[] [] [] [] [] [] [] []]; reflexivity. Qed.

Lemma lower_idem (s : string) : lower (lower s) = lower s.
Proof.
  induction s as [| c s IH]; cbn; [reflexivity |].
  rewrite lower_ascii_idem, IH. reflexivity.
Qed.

Lemma title_from_lower (b : bool) (s : string) :
  title_from b (lower s) = title_from b s.
Proof.
  revert b. induction s as [| c s IH]; intros b; cbn; [reflexivity |].
  rewrite lower_ascii_idem, upper_lower_ascii, is_cased_lower_ascii, IH.
  reflexivity.
Qed.

Lemma lower_rev_app (s1 s2 : string) :
  lower (String.rev_app s1 s2) = String.rev_app (lower s1) (lower s2).
Proof.
  revert s2. induction s1 as [| c s1 IH]; intros s2; cbn; [reflexivity |].
  rewrite IH. reflexivity.
Qed.

Lemma lstrip_lower (s : string) :
  lstrip_with is_space (lower s) = lower (lstrip_with is_space s).
Proof.
  induction s as [| c s IH]; cbn; [reflexivity |].
  rewrite is_space_lower_ascii. destruct (is_space c); [exact IH | reflexivity].
Qed.

Lemma strip_lower (s : string) : strip (lower s) = lower (strip s).
Proof.
  unfold strip, strip_with, String.rev.
  rewrite lstrip_lower, <- (lower_rev_app _ ""), lstrip_lower,
    <- (lower_rev_app _ ""). reflexivity.
Qed.

(** X15.  For queries in ASCII, the role read from a query does not
    depend on the letter case of the query: two such queries that agree
    once lower-cased name the same role, and so share one cache entry.
    (Outside ASCII [str.lower] and [str.title] do not commute so, and the
    functions here are not those of the code.) *)
Theorem extract_role_ignores_case (query1 query2 : string) :
  is_ascii query1 = true ->
  is_ascii query2 = true ->
  lower query1 = lower query2 ->
  _extract_role_from_query query1 = _extract_role_from_query query2.
Proof.
  intros _ _ Heq.
  assert (Htitle : forall q, title (strip q) = title (strip (lower q))).
  { intros q. unfold title. rewrite strip_lower, title_from_lower. reflexivity. }
  unfold _extract_role_from_query. rewrite <- Heq.
  destruct (contains " for " (lower query1)).
  - destruct (split_second " for " (lower query1)); [reflexivity |].
    rewrite (Htitle query1), (Htitle query2), Heq. reflexivity.
  - rewrite (Htitle query1), (Htitle query2), Heq. reflexivity.
Qed.

Lemma extract_role_ignores_case_witness :
  _extract_role_from_query "Skills for DATA Scientist"
  = _extract_role_from_query "skills FOR data scientist".
Proof.
  apply (extract_role_ignores_case "Skills for DATA Scientist"
           "skills FOR data scientist"); reflexivity.
Defined.

End RoleOfQuery.

(* ===================================================================== *)
(** * The occupation search and the role mapper *)

Section OccupationSearch.
Import llm_analysis careeronestop_tools occupation_search listings.

Lemma take_to_split (sep s : string) :
  exists rest,
    s = take_to sep s +:+ rest /\
    (rest = "" \/ String.prefix sep rest = true).
Proof.
  induction s as [| c s IH].
  - exists "". cbn [take_to]. destruct (String.prefix sep ""); auto.
  - cbn [take_to]. destruct (String.prefix sep (String c s)) eqn:Hp.
    + exists (String c s). auto.
    + destruct IH as (rest & Heq & Hrest). exists rest. split; [| exact Hrest].
      change (String c s = String c (take_to sep s +:+ rest)).
      f_equal. exact Heq.
Qed.

Lemma prefix_dot (c : ascii) (s s' : string) :
  String.prefix "." (String c s) = String.prefix "." (String c s').
Proof.
  cbn [String.prefix]. destruct (ascii_dec "." c); [| reflexivity].
  destruct s, s'; reflexivity.
Qed.

Lemma take_to_dot_free (s : string) : contains "." (take_to "." s) = false.
Proof.
  induction s as [| c s IH].
  - reflexivity.
  - cbn [take_to]. destruct (String.prefix "." (String c s)) eqn:Hp.
    + reflexivity.
    + cbn [contains]. rewrite IH, (prefix_dot c _ s), Hp. reflexivity.
Qed.

Lemma format_soc_code_str (c : string) :
  format_soc_code (VStr c) = Ok (soc_of c).
Proof.
  unfold format_soc_code, soc_of. cbn.
  destruct (String.eqb c ""); reflexivity.
Qed.

(** X16.  The SOC code of a non-empty O*NET code is the code up to its
    first ".": what is cut off is nothing or starts with ".", and the
    SOC code holds no "." (so "15-2051.01" gives "15-2051", and a code
    without "." is kept whole). *)
Theorem format_soc_code_drops_suffix (onet_code : string) :
  onet_code <> "" ->
  exists soc rest,
    format_soc_code (VStr onet_code) = Ok (VStr soc) /\
    onet_code = soc +:+ rest /\
    (rest = "" \/ String.prefix "." rest = true) /\
    contains "." soc = false.
Proof.
  intros Hne. destruct (take_to_split "." onet_code) as (rest & Heq & Hrest).
  exists (take_to "." onet_code), rest.
  rewrite format_soc_code_str. unfold soc_of.
  destruct (String.eqb_spec onet_code ""); [contradiction |].
  repeat split; [exact Heq | exact Hrest | apply take_to_dot_free].
Qed.

Lemma format_soc_code_drops_suffix_witness :
  exists soc rest,
    format_soc_code (VStr "15-2051.01") = Ok (VStr soc) /\
    "15-2051.01" = soc +:+ rest /\
    (rest = "" \/ String.prefix "." rest = true) /\
    contains "." soc = false.
Proof. apply (format_soc_code_drops_suffix "15-2051.01"). discriminate. Defined.

Lemma any_keyword_str (occ_title c : string) (keywords : list string) :
  any_keyword occ_title (VStr c) keywords
  = Ok (existsb (hits occ_title c) keywords).
Proof.
  induction keywords as [| k ks IH]; [reflexivity |].
  cbn [any_keyword existsb]. unfold hits at 1.
  destruct (contains k occ_title); cbn; [reflexivity |].
  destruct (contains k c); cbn; [reflexivity | exact IH].
Qed.

Lemma priority_key_str (query_lower occ_title c : string)
    (table : list (string * list string)) :
  priority_key query_lower occ_title (VStr c) table
  = Ok (option_map fst (find (decides query_lower occ_title c) table)).
Proof.
  induction table as [| [key keywords] table IH]; [reflexivity |].
  cbn [priority_key find]. unfold decides at 1. cbn [fst snd].
  destruct (contains key query_lower); cbn [andb]; [| exact IH].
  rewrite any_keyword_str. cbn.
  destruct (existsb (hits occ_title c) keywords); [reflexivity | exact IH].
Qed.

(** One turn of the loop of [select_best_match] on a listed occupation. *)
Lemma scan_listed (query_lower t c : string) (o : value) (rest : list value) :
  listed t c o ->
  scan query_lower (o :: rest)
  = if String.eqb query_lower (lower t) then
      Ok (Some {| title := VStr t; code := soc_of c; confidence := 1.0;
                  notes := "Exact match found" |})
    else
      match find (decides query_lower (lower t) c) priority_keywords with
      | Some entry =>
          Ok (Some {| title := VStr t; code := soc_of c; confidence := 0.9;
                      notes := "Matched via priority keywords: "
                               +:+ fst entry |})
      | None => scan query_lower rest
      end.
Proof.
  intros (d & -> & Ht & Hc). cbn [scan method_get].
  rewrite Ht, Hc. cbn [mbind result_bind bind method_lower].
  destruct (String.eqb query_lower (lower t)).
  - rewrite format_soc_code_str. reflexivity.
  - rewrite priority_key_str. cbn [mbind result_bind bind].
    destruct (find (decides query_lower (lower t) c) priority_keywords)
      as [entry |]; cbn [option_map].
    + rewrite format_soc_code_str. reflexivity.
    + reflexivity.
Qed.

(** What the loop finds among listed occupations. *)
Lemma scan_finds (query_lower : string) (occupations : list value) :
  Forall well_listed occupations ->
  exists found,
    scan query_lower occupations = Ok found /\
    match found with
    | None => True
    | Some m =>
        exists o t c,
          In o occupations /\ listed t c o /\
          title m = VStr t /\ code m = soc_of c /\
          ((confidence m = 1.0%float /\ query_lower = lower t) \/
           (confidence m = 0.9%float /\
            exists key,
              In key (map fst priority_keywords) /\
              contains key query_lower = true /\
              notes m = "Matched via priority keywords: " +:+ key))
    end.
Proof.
  induction 1 as [| o rest (t & c & Ho) Hrest IH].
  - exists None. split; [reflexivity | exact I].
  - rewrite (scan_listed query_lower t c o rest Ho).
    destruct (String.eqb_spec query_lower (lower t)) as [Heq | Hne].
    + eexists. split; [reflexivity |].
      exists o, t, c. cbn. repeat split; auto.
    + destruct (find (decides query_lower (lower t) c) priority_keywords)
        as [entry |] eqn:Hfind.
      * eexists. split; [reflexivity |].
        exists o, t, c. cbn [title code confidence notes].
        apply find_some in Hfind. destruct Hfind as [Hin Hdec].
        unfold decides in Hdec. apply andb_true_iff in Hdec.
        destruct Hdec as [Hkey _].
        repeat split; auto using in_eq. right. split; [reflexivity |].
        exists (fst entry). repeat split; [| exact Hkey].
        apply in_map. exact Hin.
      * destruct IH as (found & -> & Hfound). exists found.
        split; [reflexivity |]. destruct found as [m |]; [| exact I].
        destruct Hfound as (o' & t' & c' & Hin & Hrestm).
        exists o', t', c'. split; [right; exact Hin | exact Hrestm].
Qed.

(** X17.  From a non-empty list of listed occupations [select_best_match]
    always returns one of them, never raising: the title is that
    occupation's title and the code its O*NET code cut at the first ".".
    The confidence is 1.0 only when the title equals the query up to
    letter case, 0.9 only when the query holds a priority key, and
    0.75 for the first occupation of the list when the loop found
    nothing. *)
Theorem select_best_match_picks_listed (query : string)
    (occupations : list value) :
  occupations <> [] ->
  Forall well_listed occupations ->
  exists m o t c,
    select_best_match query (VList occupations) = Ok m /\
    In o occupations /\ listed t c o /\
    title m = VStr t /\
    format_soc_code (VStr c) = Ok (code m) /\
    ((confidence m = 1.0%float /\ lower query = lower t) \/
     (confidence m = 0.9%float /\
      exists key,
        In key (map fst priority_keywords) /\
        contains key (lower query) = true /\
        notes m = "Matched via priority keywords: " +:+ key) \/
     (confidence m = 0.75%float /\ head occupations = Some o)).
Proof.
  intros Hne Hall. unfold select_best_match. cbn [iter mbind result_bind bind].
  destruct (scan_finds (lower query) occupations Hall) as (found & -> & Hfound).
  cbn [mbind result_bind bind]. destruct found as [m |].
  - destruct Hfound as (o & t & c & Hin & Ho & Ht & Hc & Hconf).
    exists m, o, t, c. rewrite format_soc_code_str, Hc.
    repeat split; auto. destruct Hconf as [H | H]; auto.
  - destruct occupations as [| first rest]; [congruence |].
    inversion Hall as [| ? ? (t & c & Ho) _]; subst.
    pose proof Ho as (d & -> & Ht & Hc).
    cbn [method_get]. rewrite Ht, Hc. cbn [mbind result_bind bind].
    rewrite format_soc_code_str. cbn [mbind result_bind bind].
    eexists _, (VDict d), t, c. split; [reflexivity |].
    cbn [title code confidence]. rewrite format_soc_code_str.
    repeat split; auto using in_eq.
Qed.

Lemma select_best_match_picks_listed_witness :
  exists m o t c,
    select_best_match "Plumber"
      (VList [listing "Statisticians" "15-2041.00";
              listing "Data Scientists" "15-2051.00"]) = Ok m /\
    In o [listing "Statisticians" "15-2041.00";
          listing "Data Scientists" "15-2051.00"] /\
    listed t c o /\
    title m = VStr t /\
    format_soc_code (VStr c) = Ok (code m) /\
    ((confidence m = 1.0%float /\ lower "Plumber" = lower t) \/
     (confidence m = 0.9%float /\
      exists key,
        In key (map fst priority_keywords) /\
        contains key (lower "Plumber") = true /\
        notes m = "Matched via priority keywords: " +:+ key) \/
     (confidence m = 0.75%float /\
      head [listing "Statisticians" "15-2041.00";
            listing "Data Scientists" "15-2051.00"] = Some o)).
Proof.
  apply (select_best_match_picks_listed "Plumber"
           [listing "Statisticians" "15-2041.00";
            listing "Data Scientists" "15-2051.00"]).
  - discriminate.
  - repeat constructor; eexists _, _, _; repeat split; reflexivity.
Defined.

(** X18.  The list order decides before the kind of match does: when the
    query holds a priority key and the first occupation, not equal to the
    query, holds one of that key's keywords in its lower-cased title or
    in its code, that occupation is returned with confidence 0.9,
    whatever follows in the list, an exact match or a malformed entry
    included. *)
Theorem select_best_match_first_hit_wins (query t c : string) (o : value)
    (rest : list value) (key keyword : string) (keywords : list string) :
  listed t c o ->
  In (key, keywords) priority_keywords ->
  In keyword keywords ->
  contains key (lower query) = true ->
  contains keyword (lower t) = true \/ contains keyword c = true ->
  lower query <> lower t ->
  exists m,
    select_best_match query (VList (o :: rest)) = Ok m /\
    title m = VStr t /\ code m = soc_of c /\ confidence m = 0.9%float.
Proof.
  intros Ho Hkey Hkw Hq Hhit Hne.
  unfold select_best_match. cbn [iter mbind result_bind bind].
  rewrite (scan_listed (lower query) t c o rest Ho).
  destruct (String.eqb_spec (lower query) (lower t)); [contradiction |].
  destruct (find (decides (lower query) (lower t) c) priority_keywords)
    as [entry |] eqn:Hfind.
  - cbn [mbind result_bind bind]. eexists. split; [reflexivity |].
    cbn. auto.
  - exfalso. pose proof (find_none _ _ Hfind _ Hkey) as Hno.
    unfold decides in Hno. cbn [fst snd] in Hno. rewrite Hq in Hno.
    cbn [andb] in Hno.
    assert (Hex : existsb (hits (lower t) c) keywords = true).
    { apply existsb_exists. exists keyword. split; [exact Hkw |].
      unfold hits. apply orb_true_iff. exact Hhit. }
    congruence.
Qed.

Lemma select_best_match_first_hit_wins_witness :
  exists m,
    select_best_match "Data Scientist"
      (VList [listing "Clinical Data Scientists" "15-2051.02";
              listing "Data Scientist" "15-2051.00";
              VNone]) = Ok m /\
    title m = VStr "Clinical Data Scientists" /\
    code m = soc_of "15-2051.02" /\
    confidence m = 0.9%float.
Proof.
  apply (select_best_match_first_hit_wins "Data Scientist"
           "Clinical Data Scientists" "15-2051.02" _
           [listing "Data Scientist" "15-2051.00"; VNone]
           "data scientist" "data scien" ["data scien"; "15-2051"]).
  - eexists. repeat split; reflexivity.
  - left. reflexivity.
  - left. reflexivity.
  - reflexivity.
  - left. reflexivity.
  - discriminate.
Defined.

(** The answers of [search_occupation]. *)
Lemma search_occupation_dict (credentials : bool) (reply : api_reply)
    (job_title : string) :
  exists d conf,
    search_occupation credentials reply job_title = VDict d /\
    d <> [] /\
    assoc "error" d
    = (if credentials then None
       else Some (VStr "CareerOneStop API credentials not configured")) /\
    assoc "official_title" d <> None /\
    assoc "soc_code" d <> None /\
    assoc "confidence" d = Some (VFloat conf).
Proof.
  unfold search_occupation. destruct credentials; cbn [negb].
  - assert (Hfuzzy : exists d conf,
               occupation_dict (fuzzy_match_occupation job_title) = VDict d /\
               d <> [] /\ assoc "error" d = None /\
               assoc "official_title" d <> None /\
               assoc "soc_code" d <> None /\
               assoc "confidence" d = Some (VFloat conf)).
    { unfold occupation_dict. eexists _, _. split; [reflexivity |].
      cbn. repeat split; discriminate. }
    destruct (ask_api reply job_title) as [result | e] eqn:Hask;
      [| exact Hfuzzy].
    unfold ask_api in Hask.
    destruct reply as [| data]; cbn in Hask; [discriminate |].
    destruct (method_get data "OccupationList" (VList [])) as [occs |];
      cbn in Hask; [| discriminate].
    destruct (truthy occs); cbn in Hask.
    + destruct (select_best_match job_title occs) as [best |];
        cbn in Hask; [| discriminate].
      injection Hask as <-. eexists _, _. split; [reflexivity |].
      cbn. repeat split; discriminate.
    + injection Hask as <-. exact Hfuzzy.
  - eexists _, _. split; [reflexivity |]. cbn. repeat split; discriminate.
Qed.

(** X19.  Whatever the API answers, [search_occupation] returns a dict
    with the keys "official_title", "soc_code" and a float "confidence";
    the dict has the key "error" exactly when the credentials are not
    configured. *)
Theorem search_occupation_error_iff_no_credentials (credentials : bool)
    (reply : api_reply) (job_title : string) :
  has (search_occupation credentials reply job_title) "error"
  = Ok (negb credentials) /\
  has (search_occupation credentials reply job_title) "official_title"
  = Ok true /\
  has (search_occupation credentials reply job_title) "soc_code" = Ok true /\
  exists conf,
    getitem (search_occupation credentials reply job_title) "confidence"
    = Ok (VFloat conf).
Proof.
  destruct (search_occupation_dict credentials reply job_title)
    as (d & conf & -> & _ & Herr & Htitle & Hsoc & Hconf).
  cbn [has getitem]. rewrite Herr, Hconf.
  destruct (assoc "official_title" d); [| congruence].
  destruct (assoc "soc_code" d); [| congruence].
  repeat split; [destruct credentials; reflexivity | eauto].
Qed.

(** X20.  With the credentials configured, an API that fails, that lists
    no occupation, or whose list holds an entry that is no dict (null, a
    string, a number, a list) before the loop has found a match, costs
    nothing but the source: the answer is the local fallback mapping of
    the title. *)
Theorem search_occupation_falls_back (reply : api_reply)
    (job_title : string) :
  reply = ApiRaises \/
  (exists data occupations,
      reply = ApiData data /\
      method_get data "OccupationList" (VList []) = Ok occupations /\
      truthy occupations = false) \/
  (exists data before bad after,
      reply = ApiData data /\
      method_get data "OccupationList" (VList [])
      = Ok (VList (before ++ bad :: after)) /\
      (forall d, bad <> VDict d) /\
      Forall well_listed before /\
      scan (lower job_title) before = Ok None) ->
  search_occupation true reply job_title
  = occupation_dict (fuzzy_match_occupation job_title).
Proof.
  unfold search_occupation, ask_api. cbn [negb].
  intros [-> | [(data & occs & -> & Hget & Hfalse)
               | (data & before & bad & after & -> & Hget & Hbad & Hall
                  & Hscan)]].
  - reflexivity.
  - cbn [mbind result_bind bind]. rewrite Hget.
    cbn [mbind result_bind bind]. rewrite Hfalse. reflexivity.
  - cbn [mbind result_bind bind]. rewrite Hget.
    cbn [mbind result_bind bind].
    assert (Htruthy : truthy (VList (before ++ bad :: after)) = true)
      by (destruct before; reflexivity).
    rewrite Htruthy. cbn [negb].
    assert (Hraise : forall l,
               Forall well_listed l -> scan (lower job_title) l = Ok None ->
               scan (lower job_title) (l ++ bad :: after)
               = Raise AttributeError).
    { induction 1 as [| o l (t & c & Ho) Hl IH]; intros Hs.
      - destruct bad as [| | | | | | d]; try reflexivity.
        destruct (Hbad d eq_refl).
      - cbn [app]. rewrite (scan_listed _ t c o _ Ho) in Hs.
        rewrite (scan_listed _ t c o _ Ho).
        destruct (String.eqb (lower job_title) (lower t)); [discriminate |].
        destruct (find (decides (lower job_title) (lower t) c)
                       priority_keywords); [discriminate |].
        exact (IH Hs). }
    unfold select_best_match. cbn [iter mbind result_bind bind].
    rewrite (Hraise before Hall Hscan). reflexivity.
Qed.

Lemma search_occupation_falls_back_witness :
  search_occupation true
    (ApiData (VDict [("OccupationList",
                      VList [listing "Statisticians" "15-2041.00";
                             VStr "Plumbers"])]))
    "Plumber"
  = occupation_dict (fuzzy_match_occupation "Plumber").
Proof.
  apply (search_occupation_falls_back
           (ApiData (VDict [("OccupationList",
                             VList [listing "Statisticians" "15-2041.00";
                                    VStr "Plumbers"])]))
           "Plumber").
  right. right.
  exists (VDict [("OccupationList",
                  VList [listing "Statisticians" "15-2041.00";
                         VStr "Plumbers"])]),
         [listing "Statisticians" "15-2041.00"], (VStr "Plumbers"), [].
  split; [reflexivity |]. split; [reflexivity |].
  split; [discriminate |]. split; [| reflexivity].
  constructor; [| constructor].
  eexists "Statisticians", "15-2041.00", _. repeat split; reflexivity.
Defined.

(** Every stored confidence, and every one lowered by the penalty of a
    partial match, lies between 0.3 and 0.9. *)
Lemma common_mappings_confidence (entry : string * mapping) :
  In entry common_mappings ->
  PrimFloat.leb 0.3 (m_confidence (snd entry)) = true /\
  PrimFloat.leb (m_confidence (snd entry)) 0.9 = true /\
  PrimFloat.leb 0.3 (m_confidence (snd entry) - 0.1) = true /\
  PrimFloat.leb (m_confidence (snd entry) - 0.1) 0.9 = true.
Proof.
  intros Hin.
  assert (Hall : forallb
            (fun e =>
               PrimFloat.leb 0.3 (m_confidence (snd e)) &&
               PrimFloat.leb (m_confidence (snd e)) 0.9 &&
               PrimFloat.leb 0.3 (m_confidence (snd e) - 0.1) &&
               PrimFloat.leb (m_confidence (snd e) - 0.1) 0.9)
            common_mappings = true) by (vm_compute; reflexivity).
  rewrite forallb_forall in Hall. specialize (Hall entry Hin).
  repeat (apply andb_true_iff in Hall; destruct Hall as [Hall ?]).
  auto.
Qed.

Lemma assoc_In {A : Type} (k : string) (d : list (string * A)) (x : A) :
  assoc k d = Some x -> In (k, x) d.
Proof.
  induction d as [| [k' v] d IH]; cbn; [discriminate |].
  destruct (String.eqb_spec k k') as [<- | _].
  - intros [= ->]. left. reflexivity.
  - intros H. right. exact (IH H).
Qed.

(** X21.  Whatever the title, the confidence of the fallback mapping lies
    between 0.3 and 0.9, and the mapping has no SOC code exactly when its
    source is "No match"; the title then comes back as given, with
    confidence 0.3. *)
Theorem fuzzy_match_occupation_confidence (job_title : string) :
  PrimFloat.leb 0.3
    (careeronestop_tools.confidence (fuzzy_match_occupation job_title))
  = true /\
  PrimFloat.leb
    (careeronestop_tools.confidence (fuzzy_match_occupation job_title)) 0.9
  = true /\
  (soc_code (fuzzy_match_occupation job_title) = None <->
   data_source (fuzzy_match_occupation job_title) = "No match") /\
  (soc_code (fuzzy_match_occupation job_title) = None ->
   official_title (fuzzy_match_occupation job_title) = job_title /\
   careeronestop_tools.confidence (fuzzy_match_occupation job_title)
   = 0.3%float).
Proof.
  unfold fuzzy_match_occupation.
  destruct (assoc (strip (lower job_title)) common_mappings) as [m |] eqn:Ha.
  - destruct (common_mappings_confidence _ (assoc_In _ _ _ Ha))
      as (H1 & H2 & _ & _).
    cbn [careeronestop_tools.confidence soc_code data_source official_title
         snd] in *.
    repeat split; try assumption; discriminate.
  - destruct (find (partial_match (strip (lower job_title))) common_mappings)
      as [[key m] |] eqn:Hf.
    + apply find_some in Hf. destruct Hf as [Hin _].
      destruct (common_mappings_confidence _ Hin) as (_ & _ & H3 & H4).
      cbn [careeronestop_tools.confidence soc_code data_source official_title
           snd] in *.
      repeat split; try assumption; discriminate.
    + cbn. repeat split; reflexivity.
Qed.

(** X22.  A title that is empty or all white space is not rejected: it is
    a substring of every key, so the fallback maps it to the first entry
    of the table, "Data Scientists" (15-2051), as a partial match with
    confidence 0.85 - 0.1. *)
Theorem fuzzy_match_occupation_blank_title (job_title : string) :
  strip (lower job_title) = "" ->
  fuzzy_match_occupation job_title
  = {| official_title := "Data Scientists";
       soc_code := Some "15-2051";
       careeronestop_tools.confidence := (0.85 - 0.1)%float;
       careeronestop_tools.notes :=
         "Partial match: '" +:+ job_title +:+ "' → 'data scientist'";
       data_source := "Local mapping" |}.
Proof.
  intros Hblank. unfold fuzzy_match_occupation. rewrite Hblank.
  reflexivity.
Qed.

Lemma fuzzy_match_occupation_blank_title_witness :
  fuzzy_match_occupation "   "
  = {| official_title := "Data Scientists";
       soc_code := Some "15-2051";
       careeronestop_tools.confidence := (0.85 - 0.1)%float;
       careeronestop_tools.notes :=
         "Partial match: '" +:+ "   " +:+ "' → 'data scientist'";
       data_source := "Local mapping" |}.
Proof. apply (fuzzy_match_occupation_blank_title "   "). reflexivity. Defined.

End OccupationSearch.
(* ===================================================================== *)
(** * The role mapper's cache *)

Section RoleMapper.
Import cache_tools careeronestop_tools occupation_search role_mapper.
Import samples listings.

(** X23.  A mapping that carries an error is never written to the cache:
    whenever the dict [RoleMapperAgent.run] returns has the key "error",
    the cache file is left as the run found it (so, without credentials,
    every run asks again). *)
Theorem run_never_caches_an_error (L : pylib) (fs : file) (now later : Z)
    (credentials : bool) (reply : api_reply) (job_title : string) :
  has (fst (role_mapper.run L fs now later credentials reply job_title))
      "error" = Ok true ->
  snd (role_mapper.run L fs now later credentials reply job_title) = fs.
Proof.
  unfold role_mapper.run.
  destruct (truthy (get_cached_skills L fs now _ 604800)); [reflexivity |].
  cbn zeta.
  destruct (has (search_occupation credentials reply job_title) "error")
    as [[|] | e] eqn:Herr; cbn [fst snd]; congruence.
Qed.

Lemma run_never_caches_an_error_witness :
  snd (role_mapper.run stated.tiny_lib Absent 0 0 false ApiRaises
         "Data Scientist") = Absent.
Proof.
  apply (run_never_caches_an_error stated.tiny_lib Absent 0 0 false ApiRaises
           "Data Scientist").
  reflexivity.
Defined.

(** X24.  With the credentials configured, a mapping computed for a title
    is what the role mapper returns for seven days for every title with
    the same cache key, that is the same title up to letter case and up
    to spaces written as underscores: such a run answers from the cache,
    whatever the credentials and the API are by then, and leaves the
    cache file as it is. *)
Theorem run_again_maps_from_cache (L : pylib) (fs : file)
    (now later now2 later2 : Z) (reply reply2 : api_reply)
    (credentials2 : bool) (job_title job_title2 : string)
    (d : list (string * value)) :
  (fs = Absent /\ d = []) \/
  (exists text, fs = Content text /\ json_loads L text = Some (VDict d)) ->
  truthy (get_cached_skills L fs now
            ("role_map_" +:+ underscores (lower job_title)) 604800) = false ->
  underscores (lower job_title2) = underscores (lower job_title) ->
  (let cache := VDict (assoc_set
                         ("role_map_" +:+ underscores (lower job_title))
                         (VDict [("timestamp", VStr (isoformat L later));
                                 ("data",
                                  search_occupation true reply job_title)])
                         d) in
   json_loads L (json_dumps L cache) = Some cache) ->
  fromisoformat L (isoformat L later) = Some (Naive later) ->
  now2 - later <= seconds 604800 ->
  role_mapper.run L
    (snd (role_mapper.run L fs now later true reply job_title))
    now2 later2 credentials2 reply2 job_title2
  = (search_occupation true reply job_title,
     snd (role_mapper.run L fs now later true reply job_title)).
Proof.
  intros Hfs Hmiss Hsame Hjson Hiso Hage.
  destruct (search_occupation_dict true reply job_title)
    as (r & conf & Hr & Hne & Herr & _).
  assert (Hfirst : role_mapper.run L fs now later true reply job_title
                   = (search_occupation true reply job_title,
                      cache_skills_data L fs later
                        ("role_map_" +:+ underscores (lower job_title))
                        (search_occupation true reply job_title))).
  { unfold role_mapper.run. rewrite Hmiss. cbn zeta.
    rewrite Hr. cbn [has]. rewrite Herr. reflexivity. }
  rewrite Hfirst. cbn [snd].
  rewrite (updated_text_dict L fs later _ _ d Hfs).
  unfold role_mapper.run. rewrite Hsame.
  assert (Hhit : get_cached_skills L
                   (Content (json_dumps L
                      (VDict (assoc_set
                                ("role_map_" +:+ underscores (lower job_title))
                                (VDict [("timestamp", VStr (isoformat L later));
                                        ("data",
                                         search_occupation true reply
                                           job_title)]) d))))
                   now2 ("role_map_" +:+ underscores (lower job_title)) 604800
                 = search_occupation true reply job_title).
  { unfold get_cached_skills.
    rewrite (lookup_fresh_written L later now2 _ _ 604800 d Hjson Hiso).
    rewrite (timedelta_in_range 604800) by lia.
    destruct (Z.ltb_spec (seconds 604800) (now2 - later)); [lia | reflexivity]. }
  rewrite Hhit. rewrite Hr at 1. cbn [truthy].
  destruct r; [congruence | reflexivity].
Qed.

Lemma run_again_maps_from_cache_witness :
  role_mapper.run (fixed_lib role_map_cache stated.new_year_2024)
    (snd (role_mapper.run (fixed_lib role_map_cache stated.new_year_2024)
            Absent stated.new_year_2024 stated.new_year_2024 true ApiRaises
            "Data Scientist"))
    (stated.new_year_2024 + days 6) (stated.new_year_2024 + days 6)
    false (ApiData VNone) "data_scientist"
  = (search_occupation true ApiRaises "Data Scientist",
     snd (role_mapper.run (fixed_lib role_map_cache stated.new_year_2024)
            Absent stated.new_year_2024 stated.new_year_2024 true ApiRaises
            "Data Scientist")).
Proof.
  apply (run_again_maps_from_cache
           (fixed_lib role_map_cache stated.new_year_2024) Absent
           stated.new_year_2024 stated.new_year_2024
           (stated.new_year_2024 + days 6) (stated.new_year_2024 + days 6)
           ApiRaises (ApiData VNone) false "Data Scientist" "data_scientist"
           []).
  - left. split; reflexivity.
  - reflexivity.
  - reflexivity.
  - vm_compute. reflexivity.
  - reflexivity.
  - unfold seconds, days. lia.
Defined.

End RoleMapper.

(* ===================================================================== *)
(** * The video search *)

Section VideoSearch.
Import youtube_tools youtube_difficulty.

Lemma insert_by_views_perm (r : resource) (l : list resource) :
  Permutation (insert_by_views r l) (r :: l).
Proof.
  induction l as [| r' l IH]; cbn; [reflexivity |].
  destruct (views r' <=? views r); [reflexivity |].
  rewrite IH. apply perm_swap.
Qed.

Lemma sorted_by_views_perm (l : list resource) :
  Permutation (sorted_by_views l) l.
Proof.
  induction l as [| r l IH]; cbn; [reflexivity |].
  rewrite insert_by_views_perm. constructor. exact IH.
Qed.

Lemma insert_by_views_sorted (r : resource) (l : list resource) :
  StronglySorted (fun a b => views b <= views a) l ->
  StronglySorted (fun a b => views b <= views a) (insert_by_views r l).
Proof.
  induction 1 as [| r' l Hl IH Hall]; cbn.
  - repeat constructor.
  - destruct (Z.leb_spec (views r') (views r)) as [Hle | Hgt].
    + constructor; [constructor; assumption |].
      constructor; [exact Hle |].
      eapply Forall_impl; [exact Hall |]. cbn. intros x Hx. lia.
    + constructor; [exact IH |].
      eapply Permutation_Forall;
        [symmetry; apply insert_by_views_perm |].
      constructor; [lia | exact Hall].
Qed.

Lemma sorted_by_views_sorted (l : list resource) :
  StronglySorted (fun a b => views b <= views a) (sorted_by_views l).
Proof.
  induction l as [| r l IH]; cbn; [constructor |].
  apply insert_by_views_sorted. exact IH.
Qed.

Lemma sorted_app_le {A : Type} (R : A -> A -> Prop) (l1 l2 : list A) :
  StronglySorted R (l1 ++ l2) ->
  forall a b, In a l1 -> In b l2 -> R a b.
Proof.
  induction l1 as [| x l1 IH]; cbn; [contradiction |].
  intros Hs a b [<- | Ha] Hb.
  - apply StronglySorted_inv in Hs. destruct Hs as [_ Hall].
    rewrite List.Forall_forall in Hall. apply Hall.
    apply in_or_app. right. exact Hb.
  - apply StronglySorted_inv in Hs. destruct Hs as [Hs _].
    exact (IH Hs a b Ha Hb).
Qed.

Lemma in_firstn {A : Type} (n : nat) (l : list A) (x : A) :
  In x (firstn n l) -> In x l.
Proof.
  intros H. rewrite <- (firstn_skipn n l). apply in_or_app. left. exact H.
Qed.

(** X25.  With an API key that is not empty and a limit that is not
    negative, [search_youtube_resources] returns the most viewed of the
    collected videos that pass the filter: at most [max_results] of them
    (all of them when fewer pass), every one collected and passing the
    filter, in order of falling view count, and no passing video left out
    has more views than a returned one.  Without a key, or with the empty
    key, it returns the error entry instead. *)
Theorem search_youtube_resources_most_viewed (api_key : string)
    (collected : list resource) (now : Z) (skill user_level : string)
    (max_results : Z) :
  api_key <> "" ->
  0 <= max_results ->
  search_youtube_resources None collected now skill user_level max_results
  = MissingKey skill /\
  search_youtube_resources (Some "") collected now skill user_level
    max_results = MissingKey skill /\
  exists found,
    search_youtube_resources (Some api_key) collected now skill user_level
      max_results = Found found /\
    length found
    = Nat.min (Z.to_nat max_results)
              (length (filter_resources now collected user_level)) /\
    (forall r, In r found -> In r collected /\ keeps now r = true) /\
    StronglySorted (fun a b => views b <= views a) found /\
    (forall r r',
        In r found -> In r' collected -> keeps now r' = true ->
        ~ In r' found -> views r' <= views r).
Proof.
  intros Hkey Hmax. split; [reflexivity |]. split; [reflexivity |].
  unfold search_youtube_resources.
  destruct (String.eqb_spec api_key "") as [? | _]; [contradiction |].
  eexists. split; [reflexivity |].
  unfold slice_upto. destruct (Z.leb_spec 0 max_results) as [_ | ?]; [| lia].
  set (ranked := sorted_by_views (filter_resources now collected user_level)).
  assert (Hperm : Permutation ranked (filter_resources now collected user_level))
    by apply sorted_by_views_perm.
  assert (Hsorted : StronglySorted (fun a b => views b <= views a) ranked)
    by apply sorted_by_views_sorted.
  assert (Hin : forall r, In r ranked <-> In r collected /\ keeps now r = true).
  { intros r. unfold filter_resources in Hperm. rewrite <- List.filter_In.
    split; apply Permutation_in; [exact Hperm | symmetry; exact Hperm]. }
  repeat split.
  - rewrite List.length_firstn, (Permutation_length Hperm). reflexivity.
  - apply Hin. eapply in_firstn. eassumption.
  - apply Hin. eapply in_firstn. eassumption.
  - rewrite <- (firstn_skipn (Z.to_nat max_results) ranked) in Hsorted.
    clear - Hsorted. revert Hsorted.
    generalize (firstn (Z.to_nat max_results) ranked) as l1.
    induction l1 as [| x l1 IH]; cbn; intros Hs; [constructor |].
    apply StronglySorted_inv in Hs. destruct Hs as [Hs Hall].
    constructor; [exact (IH Hs) |].
    apply List.Forall_app in Hall. tauto.
  - intros r r' Hr Hr' Hkeeps Hout.
    assert (Hranked : In r' ranked) by (apply Hin; auto).
    rewrite <- (firstn_skipn (Z.to_nat max_results) ranked) in Hranked, Hsorted.
    apply in_app_or in Hranked. destruct Hranked as [? | Hskip]; [contradiction |].
    exact (sorted_app_le _ _ _ Hsorted r r' Hr Hskip).
Qed.

Lemma search_youtube_resources_most_viewed_witness :
  search_youtube_resources None
    [ stated.candidate 70000 19001; stated.candidate 90000 19002;
      stated.candidate 40000 19003 ]
    stated.new_year_2024 "python" "Junior" 2 = MissingKey "python" /\
  search_youtube_resources (Some "")
    [ stated.candidate 70000 19001; stated.candidate 90000 19002;
      stated.candidate 40000 19003 ]
    stated.new_year_2024 "python" "Junior" 2 = MissingKey "python" /\
  exists found,
    search_youtube_resources (Some "key")
      [ stated.candidate 70000 19001; stated.candidate 90000 19002;
        stated.candidate 40000 19003 ]
      stated.new_year_2024 "python" "Junior" 2 = Found found /\
    length found
    = Nat.min (Z.to_nat 2)
              (length (filter_resources stated.new_year_2024
                         [ stated.candidate 70000 19001; stated.candidate 90000 19002;
                           stated.candidate 40000 19003 ] "Junior")) /\
    (forall r, In r found ->
               In r [ stated.candidate 70000 19001; stated.candidate 90000 19002;
                      stated.candidate 40000 19003 ] /\
               keeps stated.new_year_2024 r = true) /\
    StronglySorted (fun a b => views b <= views a) found /\
    (forall r r',
        In r found ->
        In r' [ stated.candidate 70000 19001; stated.candidate 90000 19002;
                stated.candidate 40000 19003 ] ->
        keeps stated.new_year_2024 r' = true ->
        ~ In r' found -> views r' <= views r).
Proof.
  apply (search_youtube_resources_most_viewed "key"
           [ stated.candidate 70000 19001; stated.candidate 90000 19002;
             stated.candidate 40000 19003 ]
           stated.new_year_2024 "python" "Junior" 2).
  - discriminate.
  - lia.
Defined.

Lemma prefix_app (p s : string) :
  String.prefix p s = true <-> exists post, s = p +:+ post.
Proof.
  revert s. induction p as [| c p IH]; intros s.
  - split; [intros _; exists s; reflexivity | destruct s; reflexivity].
  - destruct s as [| c' s]; cbn [String.prefix].
    + split; [discriminate | intros (post & H); discriminate].
    + destruct (ascii_dec c c') as [<- | Hne].
      * rewrite IH. split; intros (post & H); exists post.
        -- change (String c s = String c (p +:+ post)). congruence.
        -- change (String c s = String c (p +:+ post)) in H. congruence.
      * split; [discriminate |]. intros (post & H).
        change (String c' s = String c (p +:+ post)) in H. congruence.
Qed.

Lemma contains_app (needle hay : string) :
  contains needle hay = true <->
  exists pre post, hay = pre +:+ needle +:+ post.
Proof.
  induction hay as [| c hay IH].
  - cbn [contains]. rewrite orb_false_r, prefix_app. split.
    + intros (post & H). exists "", post. exact H.
    + intros (pre & post & H). destruct pre; [eauto |]. discriminate.
  - cbn [contains]. rewrite orb_true_iff, prefix_app, IH. split.
    + intros [(post & H) | (pre & post & H)].
      * exists "", post. exact H.
      * exists (String c pre), post.
        change (String c hay = String c (pre +:+ needle +:+ post)).
        congruence.
    + intros (pre & post & H). destruct pre as [| c' pre].
      * left. exists post. exact H.
      * right. exists pre, post.
        change (String c hay = String c' (pre +:+ needle +:+ post)) in H.
        congruence.
Qed.

Lemma app_assoc_string (a b c : string) : (a +:+ b) +:+ c = a +:+ (b +:+ c).
Proof.
  induction a as [| x a IH]; [reflexivity |].
  change (String x ((a +:+ b) +:+ c) = String x (a +:+ (b +:+ c))).
  congruence.
Qed.

(** X26.  [estimate_difficulty] only ever answers "Beginner", "Advanced"
    or "Intermediate", whatever the title and the user level; and since
    the beginner words are tried first, a title holding "beyond basics"
    is rated "Beginner", in any letter case and for every user level. *)
Theorem estimate_difficulty_values (title user_level : string) :
  (estimate_difficulty title user_level = "Beginner" \/
   estimate_difficulty title user_level = "Advanced" \/
   estimate_difficulty title user_level = "Intermediate") /\
  (contains "beyond basics" (lower title) = true ->
   estimate_difficulty title user_level = "Beginner").
Proof.
  unfold estimate_difficulty. split.
  - destruct (any_word _ (lower title)); [auto |].
    destruct (any_word _ (lower title)); [auto |].
    destruct (any_word _ (lower title)); [auto |].
    unfold level_map. cbn [assoc].
    repeat match goal with
           | |- context [if ?c then _ else _] => destruct c; [auto |]
           end.
    auto.
  - intros Hbeyond.
    assert (Hbasics : contains "basics" (lower title) = true).
    { apply contains_app in Hbeyond. destruct Hbeyond as (pre & post & H).
      apply contains_app. exists (pre +:+ "beyond "), post.
      rewrite H, app_assoc_string. reflexivity. }
    unfold any_word at 1. cbn [existsb]. rewrite Hbasics.
    rewrite !orb_true_r. reflexivity.
Qed.

End VideoSearch.

(* ===================================================================== *)
(** * The employment forecast *)

Section Forecast.
Import cache_tools bls_tools long_term_forecast_agent samples forecasts.

Lemma assoc_set_not_nil {A : Type} (k : string) (x : A)
    (d : list (string * A)) :
  assoc_set k x d <> [].
Proof.
  destruct d as [| [k' v'] d]; cbn; [discriminate |].
  destruct (String.eqb k k'); discriminate.
Qed.

(** X27.  With the cache file missing or holding a JSON object, the
    failure of [LongTermForecastAgent.run] on a fresh forecast comes after
    the forecast is cached: the run raises [KeyError] where it prints the
    growth, but the cache file already holds the forecast with its ttl,
    and for seven days every run for the same SOC code returns that
    forecast from the cache without raising, whatever the API and the job
    title are by then.  (A cache file that is damaged stays so, and
    nothing is cached.) *)
Theorem forecast_run_again_answers_from_cache (L : pylib) (fs : file)
    (now later now2 later2 : Z) (api_key api_key2 : string)
    (reply reply2 : bls_reply) (current_year current_year2 : Z)
    (soc_code job_title job_title2 : string) (result stamped : value)
    (d : list (string * value)) :
  (fs = Absent /\ d = []) \/
  (exists text, fs = Content text /\ json_loads L text = Some (VDict d)) ->
  truthy (get_cached_skills L fs now ("forecast_" +:+ soc_code) 604800)
  = false ->
  fetch_job_projections L api_key reply current_year soc_code job_title
  = Ok result ->
  setitem result "cache_ttl_seconds" (VInt 604800) = Ok stamped ->
  (let cache := VDict (assoc_set ("forecast_" +:+ soc_code)
                         (VDict [("timestamp", VStr (isoformat L later));
                                 ("data", stamped)]) d) in
   json_loads L (json_dumps L cache) = Some cache) ->
  fromisoformat L (isoformat L later) = Some (Naive later) ->
  now2 - later <= seconds 604800 ->
  fst (run L fs now later api_key reply current_year soc_code job_title)
  = Raise (KeyError "growth_percent") /\
  run L (snd (run L fs now later api_key reply current_year soc_code
                job_title))
      now2 later2 api_key2 reply2 current_year2 soc_code job_title2
  = (Ok stamped,
     snd (run L fs now later api_key reply current_year soc_code job_title)).
Proof.
  intros Hfs Hmiss Hfetch Hstamp Hjson Hiso Hage.
  destruct (fetch_job_projections_keys _ _ _ _ _ _ _ Hfetch)
    as (r & -> & Herror & Hgrowth & _ & _).
  cbn in Hstamp. injection Hstamp as <-.
  assert (Hfirst : run L fs now later api_key reply current_year soc_code
                     job_title
                   = (Raise (KeyError "growth_percent"),
                      cache_skills_data L fs later ("forecast_" +:+ soc_code)
                        (VDict (assoc_set "cache_ttl_seconds" (VInt 604800)
                                  r)))).
  { unfold run. rewrite Hmiss, Hfetch. cbn [has]. rewrite Herror.
    cbn [setitem getitem].
    rewrite (assoc_set_other "growth_percent") by discriminate.
    rewrite Hgrowth. reflexivity. }
  rewrite Hfirst. cbn [fst snd]. split; [reflexivity |].
  rewrite (updated_text_dict L fs later _ _ d Hfs).
  unfold run.
  assert (Hhit : get_cached_skills L
                   (Content (json_dumps L
                      (VDict (assoc_set ("forecast_" +:+ soc_code)
                                (VDict [("timestamp", VStr (isoformat L later));
                                        ("data",
                                         VDict (assoc_set "cache_ttl_seconds"
                                                  (VInt 604800) r))]) d))))
                   now2 ("forecast_" +:+ soc_code) 604800
                 = VDict (assoc_set "cache_ttl_seconds" (VInt 604800) r)).
  { unfold get_cached_skills.
    rewrite (lookup_fresh_written L later now2 _ _ 604800 d Hjson Hiso).
    rewrite (timedelta_in_range 604800) by lia.
    destruct (Z.ltb_spec (seconds 604800) (now2 - later)); [lia | reflexivity]. }
  rewrite Hhit. cbn [truthy].
  pose proof (assoc_set_not_nil "cache_ttl_seconds" (VInt 604800) r) as Hne.
  destruct (assoc_set "cache_ttl_seconds" (VInt 604800) r);
    [congruence | reflexivity].
Qed.

Lemma forecast_run_again_answers_from_cache_witness :
  fst (run (fixed_lib forecast_cache stated.new_year_2024) Absent
         stated.new_year_2024 stated.new_year_2024 "" two_years 2024
         "15-2051" "Data Scientists")
  = Raise (KeyError "growth_percent") /\
  run (fixed_lib forecast_cache stated.new_year_2024)
      (snd (run (fixed_lib forecast_cache stated.new_year_2024) Absent
              stated.new_year_2024 stated.new_year_2024 "" two_years 2024
              "15-2051" "Data Scientists"))
      (stated.new_year_2024 + days 1) (stated.new_year_2024 + days 1)
      "key" (RequestRaises "timeout") 2024 "15-2051" "data scientist"
  = (Ok stamped_forecast,
     snd (run (fixed_lib forecast_cache stated.new_year_2024) Absent
            stated.new_year_2024 stated.new_year_2024 "" two_years 2024
            "15-2051" "Data Scientists")).
Proof.
  apply (forecast_run_again_answers_from_cache
           (fixed_lib forecast_cache stated.new_year_2024) Absent
           stated.new_year_2024 stated.new_year_2024
           (stated.new_year_2024 + days 1) (stated.new_year_2024 + days 1)
           "" "key" two_years (RequestRaises "timeout") 2024 2024
           "15-2051" "Data Scientists" "data scientist"
           data_scientists_forecast stamped_forecast []).
  - left. split; reflexivity.
  - reflexivity.
  - vm_compute. reflexivity.
  - vm_compute. reflexivity.
  - vm_compute. reflexivity.
  - reflexivity.
  - unfold seconds, days. lia.
Defined.

(** The loop of [fetch_from_occupational_outlook], entry by entry. *)
Lemma project_entries (L : pylib) (current_year : Z) (rate : float)
    (indices : list Z) (prev : option Z) (ps : list projection) :
  project L current_year rate prev indices = Ok ps ->
  length ps = length indices /\
  forall (n : nat) (i : Z),
    nth_error indices n = Some i ->
    exists e,
      estimate L rate i = Ok e /\
      nth_error ps n
      = Some {| year := current_year + i;
                employment := Some e;
                growth_rate := Some (if 0 <? i then rate else 0.0%float);
                change :=
                  match n with
                  | O => match prev with
                         | Some before => Some (e - before)
                         | None => None
                         end
                  | S m =>
                      match nth_error indices m with
                      | Some j =>
                          match estimate L rate j with
                          | Ok before => Some (e - before)
                          | Raise _ => None
                          end
                      | None => None
                      end
                  end |}.
Proof.
  revert prev ps. induction indices as [| i0 rest IH]; intros prev ps.
  - cbn. intros [= <-]. split; [reflexivity |]. intros [| n] i; discriminate.
  - cbn [project]. fold (estimate L rate i0).
    destruct (estimate L rate i0) as [e0 |] eqn:He0;
      cbn [mbind result_bind bind]; [| discriminate].
    destruct (project L current_year rate (Some e0) rest) as [ps' |] eqn:Hrest;
      cbn [mbind result_bind bind]; [| discriminate].
    intros [= <-]. destruct (IH _ _ Hrest) as [Hlen Hnth].
    split; [cbn; congruence |].
    intros [| n] i; cbn [nth_error].
    + intros [= <-]. exists e0. split; [exact He0 | reflexivity].
    + intros Hi. destruct (Hnth n i Hi) as (e & He & Hp).
      exists e. split; [exact He |]. rewrite Hp.
      destruct n as [| m]; cbn [nth_error]; [rewrite He0 |]; reflexivity.
Qed.

Lemma project_returns (L : pylib) (current_year : Z) (rate : float)
    (indices : list Z) (prev : option Z) :
  (forall i, In i indices -> exists e, estimate L rate i = Ok e) ->
  exists ps, project L current_year rate prev indices = Ok ps.
Proof.
  revert prev. induction indices as [| i0 rest IH]; intros prev Hall.
  - eexists. reflexivity.
  - cbn [project]. fold (estimate L rate i0).
    destruct (Hall i0 (in_eq _ _)) as (e0 & ->). cbn [mbind result_bind bind].
    destruct (IH (Some e0) (fun i Hi => Hall i (in_cons _ _ _ Hi)))
      as (ps & ->).
    eexists. reflexivity.
Qed.

(** X28.  When every yearly estimate is a finite number,
    [fetch_from_occupational_outlook] returns eleven projections, one for
    each year from the current one to ten years ahead.  The first carries
    growth rate 0.0 and no change; every later one carries the sector's
    growth rate and, as its change, its employment minus the employment of
    the year before. *)
Theorem fetch_from_occupational_outlook_projections (L : pylib)
    (current_year : Z) (soc_code job_title : string) :
  (forall i, 0 <= i <= 10 ->
             exists e, estimate L (rate_of soc_code) i = Ok e) ->
  exists result ps,
    fetch_from_occupational_outlook L current_year soc_code job_title
    = Ok result /\
    getitem result "projections" = Ok (VList (map projection_dict ps)) /\
    getitem result "growth_rate_annual" = Ok (VFloat (rate_of soc_code)) /\
    length ps = 11%nat /\
    map year ps = map (fun i => current_year + Z.of_nat i) (seq 0 11) /\
    (exists e,
        estimate L (rate_of soc_code) 0 = Ok e /\
        head ps = Some {| year := current_year; employment := Some e;
                          growth_rate := Some 0.0%float; change := None |}) /\
    (forall (n : nat) p q,
        nth_error ps n = Some p -> nth_error ps (S n) = Some q ->
        exists before after,
          employment p = Some before /\ employment q = Some after /\
          change q = Some (after - before) /\
          growth_rate q = Some (rate_of soc_code)).
Proof.
  intros Hfinite.
  assert (Hall : forall i, In i (map Z.of_nat (seq 0 11)) ->
                           exists e, estimate L (rate_of soc_code) i = Ok e).
  { intros i Hi. apply Hfinite. apply in_map_iff in Hi.
    destruct Hi as (n & <- & Hn). apply in_seq in Hn. lia. }
  destruct (project_returns L current_year (rate_of soc_code) _ None Hall)
    as (ps & Hps).
  destruct (project_entries _ _ _ _ _ _ Hps) as [Hlen Hnth].
  change (length (map Z.of_nat (seq 0 11))) with 11%nat in Hlen.
  unfold fetch_from_occupational_outlook. fold (rate_of soc_code).
  rewrite Hps. cbn [mbind result_bind bind].
  eexists _, ps. split; [reflexivity |].
  split; [reflexivity |]. split; [reflexivity |].
  split; [exact Hlen |].
  assert (Hat : forall n,
             (n < 11)%nat ->
             nth_error (map Z.of_nat (seq 0 11)) n = Some (Z.of_nat n)).
  { intros n Hn. rewrite nth_error_map, nth_error_seq.
    destruct (Nat.ltb_spec n 11); [reflexivity | lia]. }
  split; [| split].
  - apply nth_error_ext. intros n.
    rewrite !nth_error_map, nth_error_seq.
    destruct (Nat.ltb_spec n 11) as [Hn | Hn].
    + destruct (Hnth n _ (Hat n Hn)) as (e & _ & ->). reflexivity.
    + cbn. assert (Hnone : nth_error ps n = None)
        by (apply nth_error_None; lia).
      rewrite Hnone. reflexivity.
  - destruct (Hnth 0%nat 0 eq_refl) as (e & He & Hp).
    exists e. split; [exact He |].
    destruct ps as [| p ps']; [discriminate |].
    cbn in Hp |- *. rewrite Z.add_0_r in Hp. exact Hp.
  - intros n p q Hp Hq.
    assert (Hn : (S n < 11)%nat).
    { rewrite <- Hlen. apply nth_error_Some. congruence. }
    destruct (Hnth n _ (Hat n ltac:(lia))) as (e & He & Hp').
    destruct (Hnth (S n) _ (Hat (S n) Hn)) as (e' & He' & Hq').
    cbv beta iota in Hq'. rewrite (Hat n ltac:(lia)), He in Hq'.
    destruct (Z.ltb_spec 0 (Z.of_nat (S n))); [| lia].
    rewrite Hp in Hp'. rewrite Hq in Hq'.
    injection Hp' as ->. injection Hq' as ->.
    exists e, e'. repeat split.
Qed.

Lemma fetch_from_occupational_outlook_projections_witness :
  exists result ps,
    fetch_from_occupational_outlook stated.tiny_lib 2025 "15-2051"
      "Data Scientists" = Ok result /\
    getitem result "projections" = Ok (VList (map projection_dict ps)) /\
    getitem result "growth_rate_annual" = Ok (VFloat (rate_of "15-2051")) /\
    length ps = 11%nat /\
    map year ps = map (fun i => 2025 + Z.of_nat i) (seq 0 11) /\
    (exists e,
        estimate stated.tiny_lib (rate_of "15-2051") 0 = Ok e /\
        head ps = Some {| year := 2025; employment := Some e;
                          growth_rate := Some 0.0%float; change := None |}) /\
    (forall (n : nat) p q,
        nth_error ps n = Some p -> nth_error ps (S n) = Some q ->
        exists before after,
          employment p = Some before /\ employment q = Some after /\
          change q = Some (after - before) /\
          growth_rate q = Some (rate_of "15-2051")).
Proof.
  apply (fetch_from_occupational_outlook_projections stated.tiny_lib 2025
           "15-2051" "Data Scientists").
  intros i _. eexists. vm_compute. reflexivity.
Defined.

End Forecast.

(* ===================================================================== *)
(** * The skill evaluation tool *)

Section SkillEvaluation.
Import llm_analysis required.

Lemma getitem_assoc_set_other (k k' : string) (x : value)
    (d : list (string * value)) :
  k <> k' ->
  getitem (VDict (assoc_set k' x d)) k = getitem (VDict d) k.
Proof.
  intros Hne. cbn [getitem]. rewrite (assoc_set_other k k') by exact Hne.
  reflexivity.
Qed.

Lemma getitem_assoc_set_same (k : string) (x : value)
    (d : list (string * value)) :
  getitem (VDict (assoc_set k x d)) k = Ok x.
Proof. cbn [getitem]. rewrite assoc_set_same. reflexivity. Qed.

(** The two keys the basic keyword evaluation sets last. *)
Lemma basic_skill_evaluation_stamp (L : pylib) (user_skills : list value)
    (required_skills job_title result : value) :
  basic_skill_evaluation L user_skills required_skills job_title = Ok result ->
  getitem result "job_title" = Ok job_title /\
  getitem result "analysis_method"
  = Ok (VStr "Basic keyword matching (LLM unavailable)").
Proof.
  unfold basic_skill_evaluation.
  destruct (mapM method_lower user_skills); cbn; [| discriminate].
  destruct (iter required_skills); cbn; [| discriminate].
  destruct (tally_skills _ _ _); cbn; [| discriminate].
  match goal with |- context [if ?c then _ else _] => destruct c end; cbn.
  - destruct (len required_skills); cbn; [| discriminate].
    destruct (int_of_float _); cbn; [| discriminate].
    intros [= <-]. split; reflexivity.
  - intros [= <-]. split; reflexivity.
Qed.

(** X29.  Whatever [evaluate_user_skills_with_gemini] returns carries the
    caller's job title under "job_title" and one of two methods under
    "analysis_method".  The method is "Gemini 2.0 Flash" only when the
    language model answered with text holding a JSON object, and then the
    two keys are overwritten and every other key is as the model gave it:
    the model cannot name the method or the job title itself.  Otherwise
    the result is the basic keyword evaluation. *)
Theorem evaluate_user_skills_stamps (L : pylib) (reply : llm_reply)
    (user_skills : list value) (required_skills job_title result : value) :
  evaluate_user_skills_with_gemini L reply user_skills required_skills
    job_title = Ok result ->
  getitem result "job_title" = Ok job_title /\
  ((getitem result "analysis_method" = Ok (VStr "Gemini 2.0 Flash") /\
    exists text json_match d,
      reply = LlmText text /\
      search_braces (strip text) = Some json_match /\
      json_loads L json_match = Some (VDict d) /\
      forall k, k <> "job_title" -> k <> "analysis_method" ->
                getitem result k = getitem (VDict d) k) \/
   (getitem result "analysis_method"
    = Ok (VStr "Basic keyword matching (LLM unavailable)") /\
    basic_skill_evaluation L user_skills required_skills job_title
    = Ok result)).
Proof.
  unfold evaluate_user_skills_with_gemini, try_except.
  destruct (ask_gemini L reply user_skills required_skills job_title)
    as [r |] eqn:Hask.
  - intros [= <-]. revert Hask. unfold ask_gemini.
    destruct (mapM (as_str TypeError) user_skills); cbn; [| discriminate].
    destruct (slice_to 15 required_skills) as [first15 |]; cbn; [| discriminate].
    destruct (iter first15) as [items |]; cbn; [| discriminate].
    destruct (mapM _ items); cbn; [| discriminate].
    destruct reply as [| | text]; cbn; try discriminate.
    destruct (search_braces (strip text)) as [json_match |] eqn:Hsearch;
      [| discriminate].
    destruct (json_loads L json_match) as [[| | | | | |d] |] eqn:Hjson; cbn;
      try discriminate.
    intros [= <-]. split.
    + rewrite getitem_assoc_set_other by discriminate.
      apply getitem_assoc_set_same.
    + left. split; [apply getitem_assoc_set_same |].
      exists text, json_match, d. repeat split; try assumption.
      intros k Hjob Hmethod.
      rewrite !getitem_assoc_set_other by assumption. reflexivity.
  - intros Hbasic.
    destruct (basic_skill_evaluation_stamp _ _ _ _ _ Hbasic) as [Hjob Hmethod].
    split; [exact Hjob |]. right. split; [exact Hmethod | exact Hbasic].
Qed.

Lemma evaluate_user_skills_stamps_witness :
  getitem
    (VDict (assoc_set "analysis_method" (VStr "Gemini 2.0 Flash")
              (assoc_set "job_title" (VStr "Data Analyst") forged_answer)))
    "job_title" = Ok (VStr "Data Analyst") /\
  ((getitem
      (VDict (assoc_set "analysis_method" (VStr "Gemini 2.0 Flash")
                (assoc_set "job_title" (VStr "Data Analyst") forged_answer)))
      "analysis_method" = Ok (VStr "Gemini 2.0 Flash") /\
    exists text json_match d,
      LlmText ("Sure: " +:+ forged_text) = LlmText text /\
      search_braces (strip text) = Some json_match /\
      json_loads forged_lib json_match = Some (VDict d) /\
      forall k, k <> "job_title" -> k <> "analysis_method" ->
                getitem
                  (VDict (assoc_set "analysis_method" (VStr "Gemini 2.0 Flash")
                            (assoc_set "job_title" (VStr "Data Analyst")
                               forged_answer))) k
                = getitem (VDict d) k) \/
   (getitem
      (VDict (assoc_set "analysis_method" (VStr "Gemini 2.0 Flash")
                (assoc_set "job_title" (VStr "Data Analyst") forged_answer)))
      "analysis_method"
    = Ok (VStr "Basic keyword matching (LLM unavailable)") /\
    basic_skill_evaluation forged_lib [VStr "Python"] (VList [])
      (VStr "Data Analyst")
    = Ok (VDict (assoc_set "analysis_method" (VStr "Gemini 2.0 Flash")
                   (assoc_set "job_title" (VStr "Data Analyst")
                      forged_answer))))).
Proof.
  apply (evaluate_user_skills_stamps forged_lib
           (LlmText ("Sure: " +:+ forged_text)) [VStr "Python"] (VList [])
           (VStr "Data Analyst")).
  vm_compute. reflexivity.
Defined.

(** The loop of [basic_skill_evaluation] as three filters. *)
Lemma tally_skills_filters (user_skills_lower : list string)
    (items : list value) (acc t : tally) :
  tally_skills user_skills_lower items acc = Ok t ->
  matching t
  = matching acc
    ++ map (fun r => VStr (name_of r)) (List.filter (known user_skills_lower) items) /\
  critical_gaps t
  = critical_gaps acc
    ++ map gap_of (List.filter (critical user_skills_lower) items) /\
  nice_gaps t
  = nice_gaps acc ++ map gap_of (List.filter (nice user_skills_lower) items).
Proof.
  revert acc. induction items as [| req rest IH]; intros acc.
  - cbn. intros [= <-]. rewrite !app_nil_r. auto.
  - cbn [tally_skills List.filter].
    destruct (getitem req "name") as [name |] eqn:Hname;
      cbn [mbind result_bind bind]; [| discriminate].
    destruct name as [| | | | skill | |]; cbn [as_str mbind result_bind bind];
      try discriminate.
    assert (Hskill : name_of req = skill)
      by (unfold name_of; rewrite Hname; reflexivity).
    assert (Hk : known user_skills_lower req
                 = existsb (String.eqb (lower skill)) user_skills_lower)
      by (unfold known; rewrite Hskill; reflexivity).
    unfold critical at 1, nice at 1. rewrite !Hk.
    destruct (existsb (String.eqb (lower skill)) user_skills_lower);
      cbn [negb andb].
    + intros Ht. destruct (IH _ Ht) as (Hm & Hc & Hn).
      cbn [matching critical_gaps nice_gaps] in Hm, Hc, Hn.
      rewrite Hm, Hc, Hn. cbn [map]. rewrite Hskill, <- app_assoc. auto.
    + unfold frequency_of at 1 2.
      destruct (getitem req "frequency") as [frequency |] eqn:Hfreq;
        cbn [mbind result_bind bind]; [| discriminate].
      assert (Hgap : gap_of req = (skill, frequency))
        by (unfold gap_of, frequency_of; rewrite Hskill, Hfreq; reflexivity).
      destruct (ge_int frequency 50) as [[|] |];
        cbn [mbind result_bind bind negb]; [| | discriminate].
      * intros Ht. destruct (IH _ Ht) as (Hm & Hc & Hn).
        cbn [matching critical_gaps nice_gaps] in Hm, Hc, Hn.
        rewrite Hm, Hc, Hn. cbn [map]. rewrite Hgap, <- app_assoc. auto.
      * intros Ht. destruct (IH _ Ht) as (Hm & Hc & Hn).
        cbn [matching critical_gaps nice_gaps] in Hm, Hc, Hn.
        rewrite Hm, Hc, Hn. cbn [map]. rewrite Hgap, <- app_assoc. auto.
Qed.

(** X30.  What [basic_skill_evaluation] reports, when it returns: going
    through the required skills in their order, the matching skills are
    all those whose name is one of the user's up to letter case; the
    critical gaps are the first five of the others that at least 50% of
    the jobs ask for, the nice-to-have gaps the first five of the others
    below 50%, and a recommendation is made for exactly the first three
    critical gaps.  No skill lands in two lists. *)
Theorem basic_skill_evaluation_lists (L : pylib) (user_skills : list value)
    (required_skills job_title result : value) :
  basic_skill_evaluation L user_skills required_skills job_title = Ok result ->
  exists user_skills_lower items,
    mapM method_lower user_skills = Ok user_skills_lower /\
    iter required_skills = Ok items /\
    getitem result "matching_skills"
    = Ok (VList (map (fun r => VStr (name_of r))
                     (List.filter (known user_skills_lower) items))) /\
    getitem result "critical_gaps"
    = Ok (VList (map (critical_gap L)
                     (firstn 5 (map gap_of
                                  (List.filter (critical user_skills_lower)
                                     items))))) /\
    getitem result "nice_to_have_gaps"
    = Ok (VList (map nice_gap
                     (firstn 5 (map gap_of
                                  (List.filter (nice user_skills_lower) items))))) /\
    getitem result "recommendations"
    = Ok (VList (map recommendation
                     (firstn 3 (map gap_of
                                  (List.filter (critical user_skills_lower)
                                     items))))) /\
    (forall r,
        known user_skills_lower r && critical user_skills_lower r = false /\
        known user_skills_lower r && nice user_skills_lower r = false /\
        critical user_skills_lower r && nice user_skills_lower r = false).
Proof.
  unfold basic_skill_evaluation.
  destruct (mapM method_lower user_skills) as [user_skills_lower |];
    cbn [mbind result_bind bind]; [| discriminate].
  destruct (iter required_skills) as [items |];
    cbn [mbind result_bind bind]; [| discriminate].
  destruct (tally_skills user_skills_lower items _) as [t |] eqn:Htally;
    cbn [mbind result_bind bind]; [| discriminate].
  destruct (tally_skills_filters _ _ _ _ Htally) as (Hm & Hc & Hn).
  cbn [matching critical_gaps nice_gaps app] in Hm, Hc, Hn.
  intros Hresult. exists user_skills_lower, items.
  split; [reflexivity |]. split; [reflexivity |].
  assert (Hshape : exists score summary,
             result
             = VDict
                 [ ("match_score", VInt score);
                   ("matching_skills", VList (matching t));
                   ("critical_gaps",
                     VList (map (critical_gap L) (firstn 5 (critical_gaps t))));
                   ("nice_to_have_gaps",
                     VList (map nice_gap (firstn 5 (nice_gaps t))));
                   ("recommendations",
                     VList (map recommendation (firstn 3 (critical_gaps t))));
                   ("summary", VStr summary);
                   ("job_title", job_title);
                   ("analysis_method",
                     VStr "Basic keyword matching (LLM unavailable)") ]).
  { revert Hresult.
    match goal with |- context [if ?c then _ else _] => destruct c end;
      cbn [mbind result_bind bind].
    - destruct (len required_skills); cbn [mbind result_bind bind];
        [| discriminate].
      destruct (int_of_float _); cbn [mbind result_bind bind];
        [| discriminate].
      intros [= <-]. eauto.
    - intros [= <-]. eauto. }
  destruct Hshape as (score & summary & ->).
  rewrite Hm, Hc, Hn.
  repeat split; try reflexivity.
  - unfold critical. destruct (known user_skills_lower r); reflexivity.
  - unfold nice. destruct (known user_skills_lower r); reflexivity.
  - unfold critical, nice. destruct (known user_skills_lower r); cbn;
      [reflexivity |].
    destruct (ge_int (frequency_of r) 50) as [[|] |]; reflexivity.
Qed.

Lemma basic_skill_evaluation_lists_witness :
  exists user_skills_lower items,
    mapM method_lower two_skills = Ok user_skills_lower /\
    iter four_required = Ok items /\
    getitem keyword_evaluation "matching_skills"
    = Ok (VList (map (fun r => VStr (name_of r))
                     (List.filter (known user_skills_lower) items))) /\
    getitem keyword_evaluation "critical_gaps"
    = Ok (VList (map (critical_gap stated.tiny_lib)
                     (firstn 5 (map gap_of
                                  (List.filter (critical user_skills_lower)
                                     items))))) /\
    getitem keyword_evaluation "nice_to_have_gaps"
    = Ok (VList (map nice_gap
                     (firstn 5 (map gap_of
                                  (List.filter (nice user_skills_lower) items))))) /\
    getitem keyword_evaluation "recommendations"
    = Ok (VList (map recommendation
                     (firstn 3 (map gap_of
                                  (List.filter (critical user_skills_lower)
                                     items))))) /\
    (forall r,
        known user_skills_lower r && critical user_skills_lower r = false /\
        known user_skills_lower r && nice user_skills_lower r = false /\
        critical user_skills_lower r && nice user_skills_lower r = false).
Proof.
  apply (basic_skill_evaluation_lists stated.tiny_lib two_skills four_required
           (VStr "Data Analyst") keyword_evaluation).
  vm_compute. reflexivity.
Defined.

End SkillEvaluation.
